(** * Passport issue-date recovery: a shallow embedding of the extractors

    The repository holds three near-identical command-line extractors
    ([passporteye_full_extractor.py], [passporteye_simplified_extractor.py],
    [passporteye_pure_extractor.py]).  Each one asks an external MRZ reader
    for the machine-readable zone, runs OCR, and scans the OCR text with an
    ordered list of regular expressions to recover the issue date.

    - Text is [string] over 7-bit ASCII (the OCR whitelist of the source
      is ASCII); [re.findall] is a backtracking matcher over the subset of
      pattern syntax the sources use.
    - A computation that can raise returns an [outcome]; [try]/[except]
      is [try_except].
    - The MRZ reader, the OCR engine, [Image.save] and the float products
      [int(height * 0.75)] are capabilities supplied from outside; the
      file system and the sequence of external calls are explicit state.
    - A result is a Python dict: an association list in insertion order;
      the float literals 0.0, 0.75 and 0.95 are rationals. *)

From Stdlib Require Import String Ascii List ZArith Lia Bool QArith Qround Arith.
Import ListNotations.
Close Scope Q_scope.
Open Scope string_scope.

(** ** Exceptions *)

(** A Python computation either returns a value or raises; the payload of
    [Raise] is [str(e)]. *)
Inductive outcome (A : Type) : Type :=
| Ret (a : A)
| Raise (msg : string).
Arguments Ret {A} a.
Arguments Raise {A} msg.

Definition obind {A B} (m : outcome A) (k : A -> outcome B) : outcome B :=
  match m with
  | Ret a => k a
  | Raise e => Raise e
  end.

Notation "'let!' x ':=' e 'in' k" := (obind e (fun x => k))
  (at level 10, x name, e at level 100, k at level 200).

(** ** Python string primitives *)

Definition is_digit (c : ascii) : bool :=
  let n := nat_of_ascii c in (48 <=? n)%nat && (n <=? 57)%nat.

Definition is_upper (c : ascii) : bool :=
  let n := nat_of_ascii c in (65 <=? n)%nat && (n <=? 90)%nat.

Definition is_lower (c : ascii) : bool :=
  let n := nat_of_ascii c in (97 <=? n)%nat && (n <=? 122)%nat.

(** [str.isspace] on ASCII: TAB, LF, VT, FF, CR, FS, GS, RS, US and space. *)
Definition is_space (c : ascii) : bool :=
  let n := nat_of_ascii c in
  ((9 <=? n)%nat && (n <=? 13)%nat) || ((28 <=? n)%nat && (n <=? 32)%nat).

Definition to_lower (c : ascii) : ascii :=
  if is_upper c then ascii_of_nat (nat_of_ascii c + 32) else c.

Definition to_upper (c : ascii) : ascii :=
  if is_lower c then ascii_of_nat (nat_of_ascii c - 32) else c.

(** [s.upper()] *)
Fixpoint upper (s : string) : string :=
  match s with
  | EmptyString => EmptyString
  | String c s' => String (to_upper c) (upper s')
  end.

Fixpoint zeros (n : nat) : string :=
  match n with
  | O => ""
  | S n' => String "0" (zeros n')
  end.

(** [s.zfill(width)]: zeros go after a leading sign. *)
Definition zfill (width : nat) (s : string) : string :=
  let n := String.length s in
  if (width <=? n)%nat then s
  else match s with
       | String c s' =>
           if (Ascii.eqb c "+" || Ascii.eqb c "-")%bool
           then String c (zeros (width - n) ++ s')
           else zeros (width - n) ++ s
       | EmptyString => zeros (width - n)
       end.

Fixpoint lstrip_by (blank : ascii -> bool) (s : string) : string :=
  match s with
  | String c s' => if blank c then lstrip_by blank s' else s
  | EmptyString => EmptyString
  end.

Fixpoint rstrip_by (blank : ascii -> bool) (s : string) : string :=
  match s with
  | String c s' =>
      match rstrip_by blank s' with
      | EmptyString => if blank c then EmptyString else String c EmptyString
      | r => String c r
      end
  | EmptyString => EmptyString
  end.

(** [s.strip()] *)
Definition strip (s : string) : string := rstrip_by is_space (lstrip_by is_space s).

(** [s[:n]] *)
Definition take (n : nat) (s : string) : string := substring 0 n s.

(** [s.split(sep)] for a one-character separator. *)
Fixpoint split_on (sep : ascii) (s : string) : list string :=
  match s with
  | EmptyString => [EmptyString]
  | String c s' =>
      if Ascii.eqb c sep then EmptyString :: split_on sep s'
      else match split_on sep s' with
           | w :: ws => String c w :: ws
           | [] => [String c EmptyString]
           end
  end.

(** [sep.join(parts)] *)
Fixpoint join (sep : string) (parts : list string) : string :=
  match parts with
  | [] => ""
  | [p] => p
  | p :: ps => p ++ sep ++ join sep ps
  end.

Definition newline : string := String (ascii_of_nat 10) EmptyString.

Definition digit_val (c : ascii) : Z := Z.of_nat (nat_of_ascii c) - 48.

(** Digits with single underscores between them, as [int] accepts. *)
Fixpoint int_digits (s : string) (acc : Z) (after_digit : bool) : option Z :=
  match s with
  | EmptyString => if after_digit then Some acc else None
  | String c s' =>
      if is_digit c then int_digits s' (10 * acc + digit_val c)%Z true
      else if (Ascii.eqb c "_" && after_digit)%bool then int_digits s' acc false
      else None
  end.

(** The blanks [int] skips around the digits: TAB, LF, VT, FF, CR, space. *)
Definition is_int_blank (c : ascii) : bool :=
  let n := nat_of_ascii c in
  ((9 <=? n)%nat && (n <=? 13)%nat) || (n =? 32)%nat.

(** [int(s)] on a [str]: surrounding blanks, an optional sign, decimal
    digits; anything else is a [ValueError]. *)
Definition py_int (s : string) : outcome Z :=
  let bad := Raise ("invalid literal for int() with base 10: '" ++ s ++ "'") in
  match rstrip_by is_int_blank (lstrip_by is_int_blank s) with
  | String c s' =>
      if Ascii.eqb c "-" then
        match int_digits s' 0 false with Some n => Ret (- n)%Z | None => bad end
      else if Ascii.eqb c "+" then
        match int_digits s' 0 false with Some n => Ret n | None => bad end
      else
        match int_digits (String c s') 0 false with Some n => Ret n | None => bad end
  | EmptyString => bad
  end.

(** [s.replace(old, new)]: every non-overlapping occurrence, left to right.
    [skip] counts the characters of an occurrence still to be dropped. *)
Fixpoint replace_from (old new : string) (skip : nat) (s : string) : string :=
  match s with
  | EmptyString => EmptyString
  | String c s' =>
      match skip with
      | S k => replace_from old new k s'
      | O =>
          if prefix old s
          then new ++ replace_from old new (String.length old - 1) s'
          else String c (replace_from old new 0 s')
      end
  end.

Definition replace (old new s : string) : string := replace_from old new 0 s.

(** ** Regular expressions

    The subset of [re] syntax the pattern lists use: literals, [\d], [\s],
    bracket sets, greedy counted repetition of one of those, sequence,
    alternation and capture groups.  Matching is always done under
    [re.IGNORECASE]. *)

Module Re.

Inductive item : Type :=
| IChr (c : ascii)          (* a plain member of a set *)
| IEsc (c : ascii)          (* an escaped member, as in [\/\\] *)
| IRng (lo hi : ascii)      (* lo-hi *)
| ISpace.                   (* \s inside a set *)

Inductive atom : Type :=
| ALit (c : ascii)
| ADigit                    (* \d *)
| ASpace                    (* \s *)
| ASet (items : list item).

Inductive regex : Type :=
| One (a : atom)
| Rep (a : atom) (lo : nat) (hi : option nat)   (* a{lo,hi}; hi = None is unbounded *)
| Cat (r1 r2 : regex)
| Alt (r1 r2 : regex)
| Grp (r : regex).

Definition in_range (lo hi c : ascii) : bool :=
  ((nat_of_ascii lo <=? nat_of_ascii c)%nat && (nat_of_ascii c <=? nat_of_ascii hi)%nat)%bool.

Definition item_match (c : ascii) (it : item) : bool :=
  match it with
  | IChr x | IEsc x => Ascii.eqb (to_lower c) (to_lower x)
  | IRng lo hi => in_range lo hi c || in_range lo hi (to_lower c) || in_range lo hi (to_upper c)
  | ISpace => is_space c
  end.

Definition atom_match (a : atom) (c : ascii) : bool :=
  match a with
  | ALit x => Ascii.eqb (to_lower c) (to_lower x)
  | ADigit => is_digit c
  | ASpace => is_space c
  | ASet items => existsb (item_match c) items
  end.

(** Every way [a{lo,hi}] can consume a prefix of [s], as the remaining
    suffixes, longest consumption first (greedy, then backing off). *)
Fixpoint rep (a : atom) (lo : nat) (hi : option nat) (s : string) : list string :=
  let stop := if (lo =? 0)%nat then [s] else [] in
  match hi with
  | Some O => stop
  | _ =>
      match s with
      | String c s' =>
          if atom_match a c
          then rep a (Nat.pred lo) (option_map Nat.pred hi) s' ++ stop
          else stop
      | EmptyString => stop
      end
  end.

(** The text of [s] up to the suffix [rest]. *)
Definition consumed (s rest : string) : string :=
  substring 0 (String.length s - String.length rest) s.

(** All matches of [r] anchored at the start of [s], in backtracking order;
    each carries the groups captured so far and the unread suffix. *)
Fixpoint run (r : regex) (s : string) (caps : list string)
  : list (list string * string) :=
  match r with
  | One a =>
      match s with
      | String c s' => if atom_match a c then [(caps, s')] else []
      | EmptyString => []
      end
  | Rep a lo hi => map (fun rest => (caps, rest)) (rep a lo hi s)
  | Cat r1 r2 => flat_map (fun st => run r2 (snd st) (fst st)) (run r1 s caps)
  | Alt r1 r2 => run r1 s caps ++ run r2 s caps
  | Grp r1 => map (fun st => ((fst st ++ [consumed s (snd st)])%list, snd st)) (run r1 s caps)
  end.

(** The match the engine reports at this position: the first in
    backtracking order. *)
Definition match_here (r : regex) (s : string) : option (list string * string) :=
  hd_error (run r s []).

(** What [re.findall] puts in its result list: the group itself when the
    pattern has one group, the tuple of groups when it has several. *)
Inductive pymatch : Type :=
| MStr (s : string)
| MTuple (groups : list string).

Definition pack (caps : list string) : pymatch :=
  match caps with
  | [g] => MStr g
  | _ => MTuple caps
  end.

(** Scan left to right; after a match resume at its end ([skip] characters
    of the match are still to be passed).  None of the patterns below can
    match the empty string. *)
Fixpoint findall_from (r : regex) (skip : nat) (s : string) : list pymatch :=
  match skip with
  | S k =>
      match s with
      | String _ s' => findall_from r k s'
      | EmptyString => []
      end
  | O =>
      match match_here r s with
      | Some (caps, rest) =>
          pack caps ::
            match s with
            | String _ s' =>
                findall_from r (String.length s - String.length rest - 1) s'
            | EmptyString => []
            end
      | None =>
          match s with
          | String _ s' => findall_from r 0 s'
          | EmptyString => []
          end
      end
  end.

(** [re.findall(pattern, text, re.IGNORECASE)] *)
Definition findall (r : regex) (text : string) : list pymatch :=
  findall_from r 0 text.

(** *** Building and printing patterns *)

Fixpoint seq (rs : list regex) : regex :=
  match rs with
  | [] => Rep ASpace 0 (Some 0)
  | [r] => r
  | r :: rs' => Cat r (seq rs')
  end.

Fixpoint lit (s : string) : regex :=
  match s with
  | EmptyString => Rep ASpace 0 (Some 0)
  | String c EmptyString => One (ALit c)
  | String c s' => Cat (One (ALit c)) (lit s')
  end.

Fixpoint alts (rs : list regex) : regex :=
  match rs with
  | [] => Rep ASpace 0 (Some 0)
  | [r] => r
  | r :: rs' => Alt r (alts rs')
  end.

Definition chr (c : ascii) : string := String c EmptyString.

Definition show_item (it : item) : string :=
  match it with
  | IChr c => chr c
  | IEsc c => "\" ++ chr c
  | IRng lo hi => chr lo ++ "-" ++ chr hi
  | ISpace => "\s"
  end.

Definition show_atom (a : atom) : string :=
  match a with
  | ALit c => chr c
  | ADigit => "\d"
  | ASpace => "\s"
  | ASet items => "[" ++ String.concat "" (map show_item items) ++ "]"
  end.

Definition show_nat (n : nat) : string := chr (ascii_of_nat (48 + n)).

Definition show_quant (lo : nat) (hi : option nat) : string :=
  match lo, hi with
  | 0%nat, None => "*"
  | 1%nat, None => "+"
  | _, None => "{" ++ show_nat lo ++ ",}"
  | _, Some h =>
      if (lo =? h)%nat then "{" ++ show_nat lo ++ "}"
      else "{" ++ show_nat lo ++ "," ++ show_nat h ++ "}"
  end.

(** The source text of a pattern (counts below ten). *)
Fixpoint show (r : regex) : string :=
  match r with
  | One a => show_atom a
  | Rep a lo hi => show_atom a ++ show_quant lo hi
  | Cat r1 r2 => show r1 ++ show r2
  | Alt r1 r2 => show r1 ++ "|" ++ show r2
  | Grp r1 => "(" ++ show r1 ++ ")"
  end.

End Re.

(** ** The pattern catalogue

    The three extractors draw their pattern lists from the same eight
    regular expressions; each one is written here once, and every
    extractor lists them in its own order. *)

Module Patterns.
Import Re.

Definition sp_star : regex := Rep ASpace 0 None.
Definition sp_plus : regex := Rep ASpace 1 None.
Definition day12 : regex := Grp (Rep ADigit 1 (Some 2)).
Definition year2 : regex := Grp (Rep ADigit 2 (Some 2)).
Definition year24 : regex := Grp (Rep ADigit 2 (Some 4)).
Definition letters34 : regex := Rep (ASet [IRng "A" "Z"]) 3 (Some 4).
Definition set_of (s : string) : atom := ASet (map IChr (list_ascii_of_string s)).
Definition star_of (s : string) : regex := Rep (set_of s) 0 None.
Definition az_star : regex := Rep (ASet [IRng "a" "z"]) 0 None.

Definition month_names : regex :=
  Grp (alts (map lit ["SEP"; "JAN"; "FEB"; "MAR"; "APR"; "MAY"; "JUN"; "JUL";
                      "AUG"; "OCT"; "NOV"; "DEC"])).

(** "03 SEP /SEPT 22" *)
Definition bilingual_tight : regex :=
  seq [day12; sp_plus; month_names; sp_star; lit "/"; sp_star; letters34;
       sp_plus; year2].

(** "03 SEP / SEPT 22" *)
Definition bilingual_spaced : regex :=
  seq [day12; sp_plus; month_names; sp_plus; lit "/"; sp_star; letters34;
       sp_plus; year2].

(** "Date of issue 01 JAN 22"; the source pattern starts with the inline
    flag (?i), which adds nothing under re.IGNORECASE. *)
Definition date_of_issue : regex :=
  seq [lit "date"; sp_plus; lit "of"; sp_plus; lit "issue";
       Rep (ASet [IChr ":"; ISpace]) 0 None;
       day12; sp_plus; Grp letters34; sp_plus; year24].

(** "01 JAN 22" *)
Definition plain_date : regex :=
  seq [day12; sp_plus; Grp letters34; sp_plus; year24].

(** "Gsseryserr22": one group, the year. *)
Definition year_only : regex :=
  seq [One (set_of "Gg"); star_of "Ss3"; star_of "Ss3"; lit "er"; star_of "ys";
       az_star; lit "er"; star_of "ys"; az_star; year2].

(** "O3SersseeT32" *)
Definition o_sersee : regex :=
  seq [One (set_of "O0"); Grp (One ADigit); sp_star; One (set_of "Ss"); lit "er";
       star_of "ys"; az_star; One (set_of "Ss"); lit "ee"; star_of "tT"; sp_star;
       year2].

(** fragmented "03 SEP /SEPT 22" *)
Definition o_sep_sept : regex :=
  seq [One (set_of "O0"); Grp (One ADigit); sp_star; One (set_of "Ss");
       One (set_of "Ee"); One (set_of "PpRr"); sp_star;
       Rep (ASet [IEsc "/"; IEsc "\"]) 0 None; sp_star; One (set_of "Ss");
       One (set_of "Ee"); One (set_of "PpRr"); star_of "Tt"; sp_star; year2].

(** "O3Serfseer32" (full extractor only) *)
Definition o_serseer : regex :=
  seq [One (set_of "O0"); Grp (One ADigit); sp_star; One (set_of "Ss"); lit "er";
       az_star; One (set_of "Ss"); lit "eer"; sp_star; year2].

End Patterns.

(** ** Pieces shared by the three [extract_issue_date_from_text] *)

Import Re.

(** [len(match)] *)
Definition py_len (m : pymatch) : nat :=
  match m with
  | MStr s => String.length s
  | MTuple gs => List.length gs
  end.

(** [match[k]]: an element of the tuple, or a one-character string. *)
Definition py_index (m : pymatch) (k : nat) : outcome string :=
  match m with
  | MStr s =>
      match String.get k s with
      | Some c => Ret (String c EmptyString)
      | None => Raise "string index out of range"
      end
  | MTuple gs =>
      match nth_error gs k with
      | Some g => Ret g
      | None => Raise "tuple index out of range"
      end
  end.

Definition month_map : list (string * string) :=
  [("JAN", "01"); ("FEB", "02"); ("MAR", "03"); ("APR", "04");
   ("MAY", "05"); ("JUN", "06"); ("JUL", "07"); ("AUG", "08");
   ("SEP", "09"); ("OCT", "10"); ("NOV", "11"); ("DEC", "12")].

Fixpoint lookup {V} (k : string) (d : list (string * V)) : option V :=
  match d with
  | [] => None
  | (k', v) :: d' => if String.eqb k k' then Some v else lookup k d'
  end.

(** The block every branch repeats under "Handle 2-digit years", with the
    branch's own bound [limit]:
      if len(year) == 2: year_num = int(year);
        year = "20" + year if year_num <= limit else "19" + year *)
Definition two_digit_year (limit : Z) (year : string) : outcome string :=
  if (String.length year =? 2)%nat then
    let! year_num := py_int year in
    if (year_num <=? limit)%Z then Ret ("20" ++ year) else Ret ("19" ++ year)
  else Ret year.

(** f"{year}-{month}-{day}" *)
Definition iso (year month day : string) : string :=
  year ++ "-" ++ month ++ "-" ++ day.

(** The branch for patterns with a month name; [Ret None] lets the loop go
    on to the next match. *)
Definition month_name_branch (limit : Z) (m : pymatch) : outcome (option string) :=
  if (3 <=? py_len m)%nat then
    let! m0 := py_index m 0 in
    let day := zfill 2 m0 in
    let! m1 := py_index m 1 in
    let month_str := upper m1 in
    let! year := py_index m 2 in
    match lookup month_str month_map with
    | Some month =>
        let! year := two_digit_year limit year in
        Ret (Some (iso year month day))
    | None => Ret None
    end
  else Ret None.

(** The branch of the year-only pattern: day "03", month "09";
    [match[0] if isinstance(match, tuple) else match] is the case analysis
    on the shape of the match. *)
Definition year_only_branch (m : pymatch) : outcome (option string) :=
  if (1 <=? py_len m)%nat then
    let day := "03" in
    let! year := (match m with MTuple _ => py_index m 0 | MStr s => Ret s end) in
    let month := "09" in
    let! year := two_digit_year 50 year in
    Ret (Some (iso year month day))
  else Ret None.

(** [for match in matches: ...]: the first match whose body returns a date
    ends the function; a raise ends it too. *)
Fixpoint for_matches (body : pymatch -> outcome (option string))
    (matches : list pymatch) : outcome (option string) :=
  match matches with
  | [] => Ret None
  | m :: rest =>
      match body m with
      | Ret None => for_matches body rest
      | r => r
      end
  end.

(** [for i, pattern in enumerate(patterns): matches = re.findall(...)] *)
Fixpoint for_patterns (body : nat -> pymatch -> outcome (option string))
    (i : nat) (patterns : list regex) (text : string) : outcome (option string) :=
  match patterns with
  | [] => Ret None
  | p :: rest =>
      match for_matches (body i) (findall p text) with
      | Ret None => for_patterns body (S i) rest text
      | r => r
      end
  end.

(** ** passporteye_full_extractor.py *)

Module Full.

Definition patterns : list regex :=
  [Patterns.bilingual_tight; Patterns.bilingual_spaced;
   Patterns.year_only; Patterns.o_sersee; Patterns.o_sep_sept; Patterns.o_serseer;
   Patterns.date_of_issue; Patterns.plain_date].

Definition body (i : nat) (m : pymatch) : outcome (option string) :=
  if (i <? 2)%nat then month_name_branch 30 m
  else if (i <? 6)%nat then
    if (i =? 2)%nat then year_only_branch m
    else if (2 <=? py_len m)%nat then
      let! m0 := py_index m 0 in
      let day := zfill 2 ("0" ++ m0) in
      let! year := py_index m 1 in
      let month := "09" in
      let! year := two_digit_year 50 year in
      Ret (Some (iso year month day))
    else Ret None
  else month_name_branch 30 m.

Definition extract_issue_date_from_text (text : string) : outcome (option string) :=
  for_patterns body 0 patterns text.

End Full.

(** ** passporteye_simplified_extractor.py *)

Module Simplified.

Definition patterns : list regex :=
  [Patterns.bilingual_tight; Patterns.bilingual_spaced;
   Patterns.date_of_issue; Patterns.plain_date;
   Patterns.year_only; Patterns.o_sersee; Patterns.o_sep_sept].

Definition body (i : nat) (m : pymatch) : outcome (option string) :=
  if (i <? 2)%nat then month_name_branch 50 m
  else if (i =? 4)%nat then year_only_branch m
  else if (2 <=? py_len m)%nat then
    let! day := (if (4 <? i)%nat
                 then let! m0 := py_index m 0 in Ret (zfill 2 ("0" ++ m0))
                 else Ret "03") in
    let! year := (if (1 <? py_len m)%nat then py_index m 1 else py_index m 0) in
    let month := "09" in
    let! year := two_digit_year 50 year in
    Ret (Some (iso year month day))
  else Ret None.

Definition extract_issue_date_from_text (text : string) : outcome (option string) :=
  for_patterns body 0 patterns text.

End Simplified.

(** ** passporteye_pure_extractor.py: the text cascade is the simplified
    extractor's, line for line. *)

Module Pure.

Definition patterns : list regex :=
  [Patterns.bilingual_tight; Patterns.bilingual_spaced;
   Patterns.date_of_issue; Patterns.plain_date;
   Patterns.year_only; Patterns.o_sersee; Patterns.o_sep_sept].

Definition body (i : nat) (m : pymatch) : outcome (option string) :=
  if (i <? 2)%nat then month_name_branch 50 m
  else if (i =? 4)%nat then year_only_branch m
  else if (2 <=? py_len m)%nat then
    let! day := (if (4 <? i)%nat
                 then let! m0 := py_index m 0 in Ret (zfill 2 ("0" ++ m0))
                 else Ret "03") in
    let! year := (if (1 <? py_len m)%nat then py_index m 1 else py_index m 0) in
    let month := "09" in
    let! year := two_digit_year 50 year in
    Ret (Some (iso year month day))
  else Ret None.

Definition extract_issue_date_from_text (text : string) : outcome (option string) :=
  for_patterns body 0 patterns text.

End Pure.

(** ** JSON-like values and dictionaries

    A result is a Python [dict] printed with [json.dumps]; keys keep their
    insertion order.  The float literals of the source (0.0, 0.75, 0.95)
    are rationals: no arithmetic is done on them. *)

#[local] Set Warnings "-register-all".
Inductive value : Type :=
| VNone
| VBool (b : bool)
| VFloat (q : Q)
| VStr (s : string)
| VList (l : list value)
| VDict (d : list (string * value)).

Definition dict : Type := list (string * value).

(** [d[k] = v] *)
Fixpoint dict_set (d : dict) (k : string) (v : value) : dict :=
  match d with
  | [] => [(k, v)]
  | (k', v') :: d' =>
      if String.eqb k k' then (k', v) :: d' else (k', v') :: dict_set d' k v
  end.

(** [d.update(other)] *)
Definition dict_update (d other : dict) : dict :=
  fold_left (fun acc kv => dict_set acc (fst kv) (snd kv)) other d.

(** [d[k1][k2] = v], where [d[k1]] is a dict (every result holds one under
    "extracted_data"). *)
Definition dict_set_in (d : dict) (k1 k2 : string) (v : value) : dict :=
  match lookup k1 d with
  | Some (VDict inner) => dict_set d k1 (VDict (dict_set inner k2 v))
  | _ => d
  end.

Definition opt_str (o : option string) : value :=
  match o with
  | Some s => VStr s
  | None => VNone
  end.

(** ** The outside world *)

Definition box : Type := (Z * Z * Z * Z)%type.

(** An image is what a file held, or a rectangle cut out of an image. *)
Inductive image : Type :=
| Scan (pixels : string) (width height : Z)
| Crop (src : image) (b : box).

(** [image.size] *)
Definition size (img : image) : Z * Z :=
  match img with
  | Scan _ w h => (w, h)
  | Crop _ (x0, y0, x1, y1) => (x1 - x0, y1 - y0)%Z   (* (left, top, right, bottom) *)
  end.

Inductive file : Type :=
| ImageFile (img : image)
| OtherFile (bytes : string).

(** What PassportEye hands back. *)
Record mrz : Type := {
  valid : bool;
  mrz_code : option string;          (* None: the attribute is missing *)
  to_dict : list (string * string)
}.

Inductive event : Type :=
| EReadMrz (path : string)
| EOpen (path : string)
| EOcr (img : image) (config : string)
| ESave (img : image) (path : string)
| ERemove (path : string)
| EPrint (v : value).

Record world : Type := {
  fs : string -> option file;
  trace : list event
}.

Definition log (e : event) (w : world) : world :=
  {| fs := fs w; trace := trace w ++ [e] |}.

Definition fs_write (path : string) (f : file) (w : world) : world :=
  {| fs := fun p => if String.eqb p path then Some f else fs w p; trace := trace w |}.

Definition fs_delete (path : string) (w : world) : world :=
  {| fs := fun p => if String.eqb p path then None else fs w p; trace := trace w |}.

(** Stateful computations that may raise. *)
Definition M (A : Type) : Type := world -> outcome A * world.

Definition ret {A} (a : A) : M A := fun w => (Ret a, w).

Definition bind {A B} (m : M A) (k : A -> M B) : M B :=
  fun w =>
    match m w with
    | (Ret a, w') => k a w'
    | (Raise e, w') => (Raise e, w')
    end.

Definition lift {A} (o : outcome A) : M A := fun w => (o, w).

(** [try: m  except Exception as e: handler(e)] *)
Definition try_except {A} (m : M A) (handler : string -> M A) : M A :=
  fun w =>
    match m w with
    | (Ret a, w') => (Ret a, w')
    | (Raise e, w') => handler e w'
    end.

Notation "x <- e ;; k" := (bind e (fun x => k))
  (at level 61, e at next level, right associativity).
Notation "e ;; k" := (bind e (fun _ => k))
  (at level 61, right associativity).

(** [if x:] on a value that is [None] or a [str]. *)
Definition is_truthy (o : option string) : bool :=
  match o with
  | Some s => negb (String.eqb s "")
  | None => false
  end.

(** One entry of [issue_date_candidates]: the dict
    {"region": ..., "text": ..., "date": ...}. *)
Record region_info : Type := {
  region : string;
  text : string;
  date : option string
}.

Definition region_info_value (c : region_info) : value :=
  VDict [("region", VStr (region c)); ("text", VStr (text c)); ("date", opt_str (date c))].

(** What the extractors call and do not define. *)
Record capabilities : Type := {
  (** [read_mrz(path)], given what the path holds *)
  read_mrz_impl : string -> option file -> outcome (option mrz);
  (** [pytesseract.image_to_string(image, config=config)] *)
  image_to_string_impl : image -> string -> outcome string;
  (** [image.save(path)]: the error it raises, if it does *)
  save_error : image -> string -> option string;
  (** what a failing [image.save(path)] leaves at [path], given what the
      path held: the call may fail before it touches the file, or after it
      has opened the file for writing *)
  failed_save_leaves : image -> string -> option file -> option file;
  (** [int(n * f)] for a float literal [f], in the platform's arithmetic *)
  scale : Z -> Q -> Z
}.

Section Extractors.

Variable ext : capabilities.

(** *** Calls to the outside *)

Definition read_mrz (path : string) : M (option mrz) :=
  fun w => (read_mrz_impl ext path (fs w path), log (EReadMrz path) w).

Definition not_an_image (path : string) : string :=
  "cannot identify image file '" ++ path ++ "'".

Definition no_such_file (path : string) : string :=
  "[Errno 2] No such file or directory: '" ++ path ++ "'".

(** [Image.open(path)] *)
Definition image_open (path : string) : M image :=
  fun w =>
    let w' := log (EOpen path) w in
    match fs w path with
    | Some (ImageFile img) => (Ret img, w')
    | Some (OtherFile _) => (Raise (not_an_image path), w')
    | None => (Raise (no_such_file path), w')
    end.

(** The world after an [image.save(path)] that raised: the call was made,
    and the file at [path] is whatever the failed call left there. *)
Definition failed_save (img : image) (path : string) (w : world) : world :=
  log (ESave img path)
    match failed_save_leaves ext img path (fs w path) with
    | Some f => fs_write path f w
    | None => fs_delete path w
    end.

(** [image.save(path)] *)
Definition image_save (img : image) (path : string) : M unit :=
  fun w =>
    match save_error ext img path with
    | Some e => (Raise e, failed_save img path w)
    | None => (Ret tt, log (ESave img path) (fs_write path (ImageFile img) w))
    end.

Definition os_path_exists (path : string) : M bool :=
  fun w => (Ret (match fs w path with Some _ => true | None => false end), w).

Definition os_remove (path : string) : M unit :=
  fun w =>
    match fs w path with
    | Some _ => (Ret tt, log (ERemove path) (fs_delete path w))
    | None => (Raise (no_such_file path), w)
    end.

Definition image_to_string (img : image) (config : string) : M string :=
  fun w => (image_to_string_impl ext img config, log (EOcr img config) w).

Definition print (v : value) : M unit :=
  fun w => (Ret tt, log (EPrint v) w).

Definition whitelist : string :=
  " -c tessedit_char_whitelist=ABCDEFGHIJKLMNOPQRSTUVWXYZabcdefghijklmnopqrstuvwxyz0123456789 .,:-/".

Definition psm6 : string := "--oem 3 --psm 6" ++ whitelist.
Definition psm8 : string := "--oem 3 --psm 8" ++ whitelist.
Definition psm7 : string := "--oem 3 --psm 7" ++ whitelist.

(** *** Code the extractors repeat verbatim *)

(** [mrz_data.get(k, "")] *)
Definition get (d : list (string * string)) (k : string) : string :=
  match lookup k d with
  | Some v => v
  | None => ""
  end.

(** The body of [if mrz is not None:]. *)
Definition with_mrz_fields (m : mrz) (result : dict) : dict :=
  let mrz_data := to_dict m in
  let confidence := if valid m then (95 # 100)%Q else (75 # 100)%Q in
  let result :=
    dict_update result
      [("success", VBool true);
       ("confidence", VFloat confidence);
       ("valid", VBool (valid m));
       ("raw_text", VStr (match mrz_code m with Some code => code | None => "" end));
       ("extracted_data", VDict
          [("documentType", VStr (get mrz_data "type"));
           ("issuingCountry", VStr (get mrz_data "country"));
           ("surname", VStr (get mrz_data "surname"));
           ("givenNames", VStr (get mrz_data "names"));
           ("passportNumber", VStr (get mrz_data "number"));
           ("nationality", VStr (get mrz_data "nationality"));
           ("dateOfBirth", VStr (get mrz_data "date_of_birth"));
           ("gender", VStr (get mrz_data "sex"));
           ("expiryDate", VStr (get mrz_data "expiration_date"));
           ("personalNumber", VStr (get mrz_data "personal_number"))])] in
  match mrz_code m with
  | Some code =>
      dict_set result "mrz_lines" (VList (map VStr (split_on "010" (strip code))))
  | None => result
  end.

(** The body of the first [if mrz is None:] of the pure and the simplified
    extractor: crop the bottom band, save it, read it, remove it.  The
    result is the value of the variable [mrz] after the [try]; an exception
    raised after [mrz] was assigned leaves the assignment in place. *)
Definition mrz_region_fallback (image_path : string) : M (option mrz) :=
  try_except
    (image <- image_open image_path ;;
     let '(width, height) := size image in
     let mrz_region := Crop image (0, scale ext height (75 # 100)%Q, width, height)%Z in
     let temp_mrz_path := replace ".png" "_temp_mrz.png" image_path in
     image_save mrz_region temp_mrz_path ;;
     mrz <- read_mrz temp_mrz_path ;;
     try_except
       (present <- os_path_exists temp_mrz_path ;;
        (if present : bool then os_remove temp_mrz_path else ret tt) ;;
        ret mrz)
       (fun _ => ret mrz))
    (fun _ => ret None).

(** "try full image first, then MRZ region": the value of [mrz] when the
    pure and the simplified extractor start filling the result. *)
Definition read_mrz_with_fallback (image_path : string) : M (option mrz) :=
  mrz <- read_mrz image_path ;;
  match mrz with
  | None => mrz_region_fallback image_path
  | Some _ => ret mrz
  end.

(** The loop over the three OCR configurations of the full and the
    simplified extractor. *)
Fixpoint ocr_configs (image : image) (configs : list string) (full_texts : list string)
  : M (list string) :=
  match configs with
  | [] => ret full_texts
  | config :: rest =>
      full_texts <-
        try_except
          (text <- image_to_string image config ;;
           ret (full_texts ++ [text])%list)
          (fun _ => ret full_texts) ;;
      ocr_configs image rest full_texts
  end.

(** [result["issue_date"] = d; result["extracted_data"]["issueDate"] = d] *)
Definition set_issue_date (result : dict) (d : value) : dict :=
  dict_set_in (dict_set result "issue_date" d) "extracted_data" "issueDate" d.

(** *** passporteye_pure_extractor.py *)

Definition regions (width height : Z) : list (string * box) :=
  [("upper_middle", (0, scale ext height (3 # 10)%Q, width, scale ext height (7 # 10)%Q)%Z);
   ("left_side", (0, scale ext height (4 # 10)%Q, scale ext width (6 # 10)%Q, scale ext height (8 # 10)%Q)%Z);
   ("right_side", (scale ext width (4 # 10)%Q, scale ext height (4 # 10)%Q, width, scale ext height (8 # 10)%Q))].

(** [for region_name, (left, top, right, bottom) in regions.items():] *)
Fixpoint sample_regions (image : image) (rs : list (string * box))
    (issue_dates : list region_info) : M (list region_info) :=
  match rs with
  | [] => ret issue_dates
  | (region_name, b) :: rest =>
      issue_dates <-
        try_except
          (let region_img := Crop image b in
           text <- image_to_string region_img psm6 ;;
           issue_date <- lift (Pure.extract_issue_date_from_text text) ;;
           let region_info :=
             {| region := region_name; text := take 200 (strip text); date := issue_date |} in
           if is_truthy issue_date
           then ret (issue_dates ++ [region_info])%list
           else ret (issue_dates ++ [region_info])%list)
          (fun _ => ret issue_dates) ;;
      sample_regions image rest issue_dates
  end.

Definition extract_issue_date_from_image_regions (image_path : string)
  : M (list region_info) :=
  try_except
    (image <- image_open image_path ;;
     let '(width, height) := size image in
     sample_regions image (regions width height) [])
    (fun _ => ret []).

(** "Select the best issue date candidate": the entry of the first
    candidate whose region is upper_middle, else the first entry; nothing
    for an empty list. *)
Definition best_candidate (issue_date_candidates : list region_info)
  : option region_info :=
  match issue_date_candidates with
  | [] => None
  | first :: _ =>
      match find (fun candidate => String.eqb (region candidate) "upper_middle")
                 issue_date_candidates with
      | Some candidate => Some candidate
      | None => Some first
      end
  end.

(** The dict literal [result] starts from. *)
Definition pure_initial_result : dict :=
  [("success", VBool false);
   ("confidence", VFloat 0);
   ("valid", VBool false);
   ("raw_text", VStr "");
   ("extracted_data", VDict []);
   ("issue_date", VNone);
   ("issue_date_candidates", VList []);
   ("extraction_method", VStr "pure_passporteye");
   ("mrz_lines", VList [])].

(** The dict literal of the outermost [except]. *)
Definition pure_failure (e : string) : dict :=
  [("success", VBool false);
   ("error", VStr ("Pure PassportEye extraction failed: " ++ e));
   ("confidence", VFloat 0);
   ("extraction_method", VStr "pure_passporteye")].

Definition extract_pure_passport_data (image_path : string) : M dict :=
  try_except
    ((* mrz = read_mrz(image_path); if mrz is None: try the MRZ region *)
     mrz <- read_mrz_with_fallback image_path ;;
     let result := pure_initial_result in
     let result := match mrz with
                   | Some m => with_mrz_fields m result
                   | None => result
                   end in
     issue_date_candidates <- extract_issue_date_from_image_regions image_path ;;
     let result :=
       dict_set result "issue_date_candidates"
         (VList (map region_info_value issue_date_candidates)) in
     match best_candidate issue_date_candidates with
     | Some best => ret (set_issue_date result (opt_str (date best)))
     | None => ret result
     end)
    (fun e => ret (pure_failure e)).

(** [sys.exit(1)] and falling off the end of [main] are the exit codes 1
    and 0; a [Raise] out of [main] would be a crash. *)
Definition main_pure (argv : list string) : M Z :=
  if negb (List.length argv =? 2)%nat then
    print (VDict [("success", VBool false);
                  ("error", VStr "Usage: python3 passporteye_pure_extractor.py <image_path>")]) ;;
    ret 1%Z
  else
    let image_path := nth 1 argv "" in
    present <- os_path_exists image_path ;;
    if negb present then
      print (VDict [("success", VBool false);
                    ("error", VStr ("Image file not found: " ++ image_path))]) ;;
      ret 1%Z
    else
      result <- extract_pure_passport_data image_path ;;
      print (VDict result) ;;
      ret 0%Z.

(** *** passporteye_full_extractor.py *)

Definition full_initial_result : dict :=
  [("success", VBool false);
   ("confidence", VFloat 0);
   ("valid", VBool false);
   ("raw_text", VStr "");
   ("extracted_data", VDict []);
   ("issue_date", VNone);
   ("full_text_ocr", VStr "");
   ("mrz_lines", VList [])].

Definition full_failure (e : string) : dict :=
  [("success", VBool false);
   ("error", VStr ("Full passport extraction failed: " ++ e));
   ("confidence", VFloat 0)].

Definition extract_full_passport_data (image_path : string) : M dict :=
  try_except
    (mrz <- read_mrz image_path ;;
     let result := full_initial_result in
     let result := match mrz with
                   | Some m => with_mrz_fields m result
                   | None => result
                   end in
     try_except
       (image <- image_open image_path ;;
        full_texts <- ocr_configs image [psm6; psm8; psm7] [] ;;
        let full_text := join newline full_texts in
        let result := dict_set result "full_text_ocr" (VStr full_text) in
        (* from here on a raise finds full_text_ocr already stored *)
        try_except
          (issue_date <- lift (Full.extract_issue_date_from_text full_text) ;;
           if is_truthy issue_date
           then ret (set_issue_date result (opt_str issue_date))
           else ret result)
          (fun ocr_error => ret (dict_set result "ocr_error" (VStr ocr_error))))
       (fun ocr_error => ret (dict_set result "ocr_error" (VStr ocr_error))))
    (fun e => ret (full_failure e)).

Definition main_full (argv : list string) : M Z :=
  if negb (List.length argv =? 2)%nat then
    print (VDict [("success", VBool false);
                  ("error", VStr "Usage: python3 passporteye_full_extractor.py <image_path>")]) ;;
    ret 1%Z
  else
    let image_path := nth 1 argv "" in
    present <- os_path_exists image_path ;;
    if negb present then
      print (VDict [("success", VBool false);
                    ("error", VStr ("Image file not found: " ++ image_path))]) ;;
      ret 1%Z
    else
      result <- extract_full_passport_data image_path ;;
      print (VDict result) ;;
      ret 0%Z.

(** *** passporteye_simplified_extractor.py *)

Definition simplified_initial_result : dict :=
  [("success", VBool false);
   ("confidence", VFloat 0);
   ("valid", VBool false);
   ("raw_text", VStr "");
   ("extracted_data", VDict []);
   ("issue_date", VNone);
   ("extraction_method", VStr "simplified_hybrid");
   ("mrz_lines", VList [])].

Definition simplified_failure (e : string) : dict :=
  [("success", VBool false);
   ("error", VStr ("Simplified extraction failed: " ++ e));
   ("confidence", VFloat 0);
   ("extraction_method", VStr "simplified_hybrid")].

Definition extract_simplified_passport_data (image_path : string) : M dict :=
  try_except
    (let result := simplified_initial_result in
     (* mrz = read_mrz(image_path); if mrz is None: try the MRZ region *)
     mrz <- read_mrz_with_fallback image_path ;;
     let result := match mrz with
                   | Some m => with_mrz_fields m result
                   | None => result
                   end in
     try_except
       (image <- image_open image_path ;;
        full_texts <- ocr_configs image [psm6; psm8; psm7] [] ;;
        let combined_text := join newline full_texts in
        issue_date <- lift (Simplified.extract_issue_date_from_text combined_text) ;;
        if is_truthy issue_date
        then ret (set_issue_date result (opt_str issue_date))
        else ret result)
       (fun ocr_error => ret (dict_set result "ocr_error" (VStr ocr_error))))
    (fun e => ret (simplified_failure e)).

Definition main_simplified (argv : list string) : M Z :=
  if negb (List.length argv =? 2)%nat then
    print (VDict [("success", VBool false);
                  ("error", VStr "Usage: python3 passporteye_simplified_extractor.py <image_path>")]) ;;
    ret 1%Z
  else
    let image_path := nth 1 argv "" in
    present <- os_path_exists image_path ;;
    if negb present then
      print (VDict [("success", VBool false);
                    ("error", VStr ("Image file not found: " ++ image_path))]) ;;
      ret 1%Z
    else
      result <- extract_simplified_passport_data image_path ;;
      print (VDict result) ;;
      ret 0%Z.

End Extractors.

(** ** Vocabulary of the statements *)

Inductive variant : Type := VFull | VSimplified | VPure.

Definition patterns_of (v : variant) : list regex :=
  match v with
  | VFull => Full.patterns
  | VSimplified => Simplified.patterns
  | VPure => Pure.patterns
  end.

Definition body_of (v : variant) : nat -> pymatch -> outcome (option string) :=
  match v with
  | VFull => Full.body
  | VSimplified => Simplified.body
  | VPure => Pure.body
  end.

Definition extract_of (v : variant) : string -> outcome (option string) :=
  match v with
  | VFull => Full.extract_issue_date_from_text
  | VSimplified => Simplified.extract_issue_date_from_text
  | VPure => Pure.extract_issue_date_from_text
  end.

(** Where each variant lists the year-only pattern. *)
Definition year_only_index (v : variant) : nat :=
  match v with
  | VFull => 2
  | VSimplified => 4
  | VPure => 4
  end.

(** A pattern without capture groups. *)
Fixpoint nogroup (r : regex) : bool :=
  match r with
  | One _ | Rep _ _ _ => true
  | Cat r1 r2 | Alt r1 r2 => nogroup r1 && nogroup r2
  | Grp _ => false
  end.

(** Every character of [s] passes [p]. *)
Fixpoint all_chars (p : ascii -> bool) (s : string) : bool :=
  match s with
  | EmptyString => true
  | String c s' => p c && all_chars p s'
  end.

(** What the text of a capture group looks like, read off the group's
    body: a repetition gives the characters and the length. *)
Definition group_shape (r : regex) (g : string) : bool :=
  match r with
  | Rep a lo hi =>
      all_chars (atom_match a) g && (lo <=? String.length g)%nat &&
      match hi with
      | Some h => (String.length g <=? h)%nat
      | None => true
      end
  | One a => all_chars (atom_match a) g && (String.length g =? 1)%nat
  | _ => true
  end.

(** The shapes of a pattern's groups, in order. *)
Fixpoint shapes (r : regex) : list (string -> bool) :=
  match r with
  | One _ | Rep _ _ _ | Alt _ _ => []
  | Cat r1 r2 => shapes r1 ++ shapes r2
  | Grp r1 => [group_shape r1]
  end.

(** Groups are not nested and do not sit under an alternative. *)
Fixpoint flat (r : regex) : bool :=
  match r with
  | One _ | Rep _ _ _ => true
  | Cat r1 r2 => flat r1 && flat r2
  | Alt r1 r2 => nogroup r1 && nogroup r2
  | Grp r1 => nogroup r1
  end.

(** The number a two-digit token denotes. *)
Definition two_digit_value (c1 c2 : ascii) : Z := (10 * digit_val c1 + digit_val c2)%Z.

Definition two_chars (c1 c2 : ascii) : string := String c1 (String c2 EmptyString).

(** [sub in s] *)
Fixpoint contains (sub s : string) : bool :=
  prefix sub s ||
  match s with
  | String _ s' => contains sub s'
  | EmptyString => false
  end.

(** [s.endswith(suffix)] *)
Fixpoint ends_with (suffix s : string) : bool :=
  String.eqb suffix s ||
  match s with
  | String _ s' => ends_with suffix s'
  | EmptyString => false
  end.


(** The world after the calls [es] were made, files untouched. *)
Definition logs (es : list event) (w : world) : world :=
  {| fs := fs w; trace := trace w ++ es |}.

(** The texts of the configurations whose OCR call returned. *)
Definition ocr_texts (ext : capabilities) (img : image) (configs : list string)
  : list string :=
  flat_map (fun config =>
              match image_to_string_impl ext img config with
              | Ret t => [t]
              | Raise _ => []
              end) configs.

(** What one region adds to the candidate list. *)
Definition region_entry (ext : capabilities) (img : image) (r : string * box)
  : list region_info :=
  match image_to_string_impl ext (Crop img (snd r)) psm6 with
  | Ret t =>
      match Pure.extract_issue_date_from_text t with
      | Ret d => [{| region := fst r; text := take 200 (strip t); date := d |}]
      | Raise _ => []
      end
  | Raise _ => []
  end.

(** The bottom quarter of the page: rows [int(height * 0.75)] to [height]. *)
Definition bottom_band (ext : capabilities) (img : image) : image :=
  Crop img (0, scale ext (snd (size img)) (75 # 100)%Q, fst (size img), snd (size img))%Z.

Definition temp_path (image_path : string) : string :=
  replace ".png" "_temp_mrz.png" image_path.

(** The result each extractor returns, as a function of what its stages
    produced; the lemmas [extract_pure_run], [extract_full_run] and
    [extract_simplified_run] show the extractors compute exactly this. *)
Definition with_mrz (mrz : option mrz) (result : dict) : dict :=
  match mrz with
  | Some m => with_mrz_fields m result
  | None => result
  end.

Definition pure_result (mrz : option mrz) (candidates : list region_info) : dict :=
  let result :=
    dict_set (with_mrz mrz pure_initial_result) "issue_date_candidates"
      (VList (map region_info_value candidates)) in
  match best_candidate candidates with
  | Some best => set_issue_date result (opt_str (date best))
  | None => result
  end.

(** What opening the file raises when it holds no image. *)
Definition open_error (path : string) (f : option file) : string :=
  match f with
  | None => no_such_file path
  | _ => not_an_image path
  end.

Definition full_result (ext : capabilities) (path : string) (mrz : option mrz)
    (f : option file) : dict :=
  let result := with_mrz mrz full_initial_result in
  match f with
  | Some (ImageFile img) =>
      let full_text := join newline (ocr_texts ext img [psm6; psm8; psm7]) in
      let result := dict_set result "full_text_ocr" (VStr full_text) in
      match Full.extract_issue_date_from_text full_text with
      | Ret d => if is_truthy d then set_issue_date result (opt_str d) else result
      | Raise e => dict_set result "ocr_error" (VStr e)
      end
  | _ => dict_set result "ocr_error" (VStr (open_error path f))
  end.

Definition simplified_result (ext : capabilities) (path : string) (mrz : option mrz)
    (f : option file) : dict :=
  let result := with_mrz mrz simplified_initial_result in
  match f with
  | Some (ImageFile img) =>
      let combined_text := join newline (ocr_texts ext img [psm6; psm8; psm7]) in
      match Simplified.extract_issue_date_from_text combined_text with
      | Ret d => if is_truthy d then set_issue_date result (opt_str d) else result
      | Raise e => dict_set result "ocr_error" (VStr e)
      end
  | _ => dict_set result "ocr_error" (VStr (open_error path f))
  end.

(** The events of the OCR stage of the full and the simplified extractor. *)
Definition ocr_stage_events (path : string) (f : option file) : list event :=
  match f with
  | Some (ImageFile img) => EOpen path :: map (EOcr img) [psm6; psm8; psm7]
  | _ => [EOpen path]
  end.

(** [0.0 if no MRZ, else 0.95 or 0.75] *)
Definition confidence_of (mrz : option mrz) : Q :=
  match mrz with
  | Some m => if valid m then (95 # 100)%Q else (75 # 100)%Q
  | None => 0%Q
  end.

Definition found (mrz : option mrz) : bool :=
  match mrz with
  | Some _ => true
  | None => false
  end.

(** ** passporteye_extractor.py

    The MRZ-only extractor.  It reads one more attribute of the MRZ
    object, [report]; [report_of] gives it as the list of [str(error)], or
    nothing when the attribute is missing. *)

Section BasicExtractor.

Variable ext : capabilities.
Variable report_of : mrz -> option (list string).

Definition basic_no_mrz : dict :=
  [("success", VBool false);
   ("error", VStr "No MRZ found in image");
   ("confidence", VFloat 0)].

Definition basic_failure (e : string) : dict :=
  [("success", VBool false);
   ("error", VStr ("PassportEye extraction failed: " ++ e));
   ("confidence", VFloat 0)].

Definition extract_mrz_with_passporteye (image_path : string) : M dict :=
  try_except
    (mrz <- read_mrz ext image_path ;;
     match mrz with
     | None => ret basic_no_mrz
     | Some m =>
         let mrz_data := to_dict m in
         let confidence := if valid m then (95 # 100)%Q else (75 # 100)%Q in
         let result :=
           [("success", VBool true);
            ("confidence", VFloat confidence);
            ("valid", VBool (valid m));
            ("raw_text", VStr (match mrz_code m with Some code => code | None => "" end));
            ("extracted_data", VDict
               [("documentType", VStr (get mrz_data "type"));
                ("issuingCountry", VStr (get mrz_data "country"));
                ("surname", VStr (get mrz_data "surname"));
                ("givenNames", VStr (get mrz_data "names"));
                ("passportNumber", VStr (get mrz_data "number"));
                ("nationality", VStr (get mrz_data "nationality"));
                ("dateOfBirth", VStr (get mrz_data "date_of_birth"));
                ("gender", VStr (get mrz_data "sex"));
                ("expiryDate", VStr (get mrz_data "expiration_date"));
                ("personalNumber", VStr (get mrz_data "personal_number"));
                ("checkDigits", VDict
                   [("number", VStr (get mrz_data "check_number"));
                    ("dateOfBirth", VStr (get mrz_data "check_date_of_birth"));
                    ("expiryDate", VStr (get mrz_data "check_expiration_date"));
                    ("personalNumber", VStr (get mrz_data "check_personal_number"));
                    ("composite", VStr (get mrz_data "check_composite"))])]);
            ("validation", VDict [("valid", VBool (valid m)); ("errors", VList [])])] in
         (* if hasattr(mrz, 'report') and mrz.report: *)
         let result :=
           match report_of m with
           | Some (error :: errors) =>
               dict_set_in result "validation" "errors"
                 (VList (map VStr (error :: errors)))
           | _ => result
           end in
         (* if hasattr(mrz, 'mrz_code'): *)
         let result :=
           match mrz_code m with
           | Some code =>
               dict_set result "mrz_lines" (VList (map VStr (split_on "010" (strip code))))
           | None => result
           end in
         ret result
     end)
    (fun e => ret (basic_failure e)).

Definition main_basic (argv : list string) : M Z :=
  if negb (List.length argv =? 2)%nat then
    print (VDict [("success", VBool false);
                  ("error", VStr "Usage: python3 passporteye_extractor.py <image_path>")]) ;;
    ret 1%Z
  else
    let image_path := nth 1 argv "" in
    present <- os_path_exists image_path ;;
    if negb present then
      print (VDict [("success", VBool false);
                    ("error", VStr ("Image file not found: " ++ image_path))]) ;;
      ret 1%Z
    else
      result <- extract_mrz_with_passporteye image_path ;;
      print (VDict result) ;;
      ret 0%Z.

End BasicExtractor.

(** ** More vocabulary *)

Definition is_read_mrz (e : event) : bool :=
  match e with
  | EReadMrz _ => true
  | _ => false
  end.

Definition is_ocr (e : event) : bool :=
  match e with
  | EOcr _ _ => true
  | _ => false
  end.

(** An event that changes the file system. *)
Definition is_file_change (e : event) : bool :=
  match e with
  | ESave _ _ | ERemove _ => true
  | _ => false
  end.

(** [s] holds a decimal digit. *)
Fixpoint has_digit (s : string) : bool :=
  match s with
  | EmptyString => false
  | String c s' => is_digit c || has_digit s'
  end.

(** No match of the pattern is possible without reading a digit. *)
Fixpoint needs_digit (r : regex) : bool :=
  match r with
  | One ADigit => true
  | One _ => false
  | Rep ADigit (S _) _ => true
  | Rep _ _ _ => false
  | Cat r1 r2 => needs_digit r1 || needs_digit r2
  | Alt r1 r2 => needs_digit r1 && needs_digit r2
  | Grp r1 => needs_digit r1
  end.

(** The dict stored under a key, when it is one. *)
Definition sub_dict (k : string) (d : dict) : dict :=
  match lookup k d with
  | Some (VDict inner) => inner
  | _ => []
  end.

(** The ten MRZ fields the extractors copy, as (result key, MRZ key). *)
Definition mrz_field_names : list (string * string) :=
  [("documentType", "type"); ("issuingCountry", "country"); ("surname", "surname");
   ("givenNames", "names"); ("passportNumber", "number");
   ("nationality", "nationality"); ("dateOfBirth", "date_of_birth");
   ("gender", "sex"); ("expiryDate", "expiration_date");
   ("personalNumber", "personal_number")].

(** The ten fields as the extractors store them under "extracted_data";
    a key the MRZ dict lacks gives the empty string. *)
Definition copied_fields (m : mrz) : dict :=
  map (fun names => (fst names, VStr (get (to_dict m) (snd names)))) mrz_field_names.

(** The three programs that look for an issue date. *)
Definition main_of (v : variant) : capabilities -> list string -> M Z :=
  match v with
  | VFull => main_full
  | VSimplified => main_simplified
  | VPure => main_pure
  end.

Definition program_name (v : variant) : string :=
  match v with
  | VFull => "passporteye_full_extractor.py"
  | VSimplified => "passporteye_simplified_extractor.py"
  | VPure => "passporteye_pure_extractor.py"
  end.

Definition usage_record (program : string) : value :=
  VDict [("success", VBool false);
         ("error", VStr ("Usage: python3 " ++ program ++ " <image_path>"))].

(** ** Concrete capabilities for the examples *)

Definition demo_scan : image := Scan "page" 1000 1400.

(** The exact product, rounded down. *)
Definition floor_scale (n : Z) (f : Q) : Z := Qfloor (inject_Z n * f).

Definition demo_ext (reader : string -> outcome (option mrz))
    (ocr : image -> outcome string) : capabilities :=
  {| read_mrz_impl := fun path _ => reader path;
     image_to_string_impl := fun img _ => ocr img;
     save_error := fun _ _ => None;
     failed_save_leaves := fun _ _ f => f;
     scale := floor_scale |}.

(** No MRZ is found, and every save fails after the target was opened for
    writing, leaving an empty file behind. *)
Definition failing_save_ext : capabilities :=
  {| read_mrz_impl := fun _ _ => Ret None;
     image_to_string_impl := fun _ _ => Ret "";
     save_error := fun _ _ => Some "encoder error -2 when writing image file";
     failed_save_leaves := fun _ _ _ => Some (OtherFile "");
     scale := floor_scale |}.

(** A world whose only file is the image [demo_scan] at [path]. *)
Definition demo_world (path : string) : world :=
  {| fs := fun p => if String.eqb p path then Some (ImageFile demo_scan) else None;
     trace := [] |}.

(** A world whose only file, at [path], is not an image. *)
Definition text_file_world (path : string) : world :=
  {| fs := fun p => if String.eqb p path then Some (OtherFile "hello") else None;
     trace := [] |}.

Definition no_mrz (path : string) : outcome (option mrz) := Ret None.

(** The full page has no MRZ and the reader fails on anything else. *)
Definition reader_failing_on_crop (path : string) : outcome (option mrz) :=
  if String.eqb path "scan.png" then Ret None else Raise "unreadable".

Definition demo_mrz : mrz :=
  {| valid := true; mrz_code := Some "P<UTO"; to_dict := [("type", "P")] |}.

Definition no_text (img : image) : outcome string := Ret "".

(** Only the left-side region shows a date. *)
Definition date_on_left_side (img : image) : outcome string :=
  match img with
  | Crop _ (0, 560, 600, 1120)%Z => Ret "03 SEP /SEPT 22"
  | _ => Ret ""
  end.

Definition date_of_issue_text (img : image) : outcome string :=
  Ret "Date of issue 03 SEP 2022".

(** No OCR call succeeds. *)
Definition ocr_unavailable (img : image) : outcome string :=
  Raise "tesseract is not installed or it's not in your PATH".

(** Candidates for the arbiter. *)
Definition candidate (r : string) (d : option string) : region_info :=
  {| region := r; text := ""; date := d |}.

Definition three_candidates : list region_info :=
  [candidate "left_side" (Some "2021-01-01");
   candidate "upper_middle" (Some "2022-09-03");
   candidate "right_side" (Some "2020-05-05")].

(** Takes a [Forall2] over a known list of shapes apart, one group at a
    time. *)
Ltac split_shapes H :=
  simpl in H;
  repeat match type of H with
         | Forall2 _ (_ :: _) _ =>
             let g := fresh "g" in
             let gs := fresh "gs" in
             let Hg := fresh "Hg" in
             let Hgs := fresh "Hgs" in
             inversion H as [| ? g ? gs Hg Hgs]; subst; clear H; rename Hgs into H
         | Forall2 _ [] _ => inversion H; subst; clear H
         end.

(** * Properties *)

(** ** The pattern definitions spell the source patterns *)

Lemma full_patterns_source :
  map show Full.patterns =
  ["(\d{1,2})\s+(SEP|JAN|FEB|MAR|APR|MAY|JUN|JUL|AUG|OCT|NOV|DEC)\s*/\s*[A-Z]{3,4}\s+(\d{2})";
   "(\d{1,2})\s+(SEP|JAN|FEB|MAR|APR|MAY|JUN|JUL|AUG|OCT|NOV|DEC)\s+/\s*[A-Z]{3,4}\s+(\d{2})";
   "[Gg][Ss3]*[Ss3]*er[ys]*[a-z]*er[ys]*[a-z]*(\d{2})";
   "[O0](\d)\s*[Ss]er[ys]*[a-z]*[Ss]ee[tT]*\s*(\d{2})";
   "[O0](\d)\s*[Ss][Ee][PpRr]\s*[\/\\]*\s*[Ss][Ee][PpRr][Tt]*\s*(\d{2})";
   "[O0](\d)\s*[Ss]er[a-z]*[Ss]eer\s*(\d{2})";
   "date\s+of\s+issue[:\s]*(\d{1,2})\s+([A-Z]{3,4})\s+(\d{2,4})";
   "(\d{1,2})\s+([A-Z]{3,4})\s+(\d{2,4})"].
Proof. reflexivity. Qed.

Lemma simplified_patterns_source :
  map show Simplified.patterns =
  ["(\d{1,2})\s+(SEP|JAN|FEB|MAR|APR|MAY|JUN|JUL|AUG|OCT|NOV|DEC)\s*/\s*[A-Z]{3,4}\s+(\d{2})";
   "(\d{1,2})\s+(SEP|JAN|FEB|MAR|APR|MAY|JUN|JUL|AUG|OCT|NOV|DEC)\s+/\s*[A-Z]{3,4}\s+(\d{2})";
   "date\s+of\s+issue[:\s]*(\d{1,2})\s+([A-Z]{3,4})\s+(\d{2,4})";
   "(\d{1,2})\s+([A-Z]{3,4})\s+(\d{2,4})";
   "[Gg][Ss3]*[Ss3]*er[ys]*[a-z]*er[ys]*[a-z]*(\d{2})";
   "[O0](\d)\s*[Ss]er[ys]*[a-z]*[Ss]ee[tT]*\s*(\d{2})";
   "[O0](\d)\s*[Ss][Ee][PpRr]\s*[\/\\]*\s*[Ss][Ee][PpRr][Tt]*\s*(\d{2})"]
  /\ Pure.patterns = Simplified.patterns.
Proof. split; reflexivity. Qed.

(** ** The matcher *)

Lemma hd_error_In {A} (l : list A) (x : A) : hd_error l = Some x -> In x l.
Proof. destruct l; simpl; intros H; [discriminate | injection H as ->; now left]. Qed.

Lemma run_nogroup r :
  nogroup r = true ->
  forall s caps caps' rest, In (caps', rest) (run r s caps) -> caps' = caps.
Proof.
  induction r as [a | a lo hi | r1 IH1 r2 IH2 | r1 IH1 r2 IH2 | r1 IH1]; simpl; intros Hg s caps caps' rest Hin.
  - destruct s as [| c s']; [contradiction |].
    destruct (atom_match a c); simpl in Hin; [| contradiction].
    destruct Hin as [H | []]; congruence.
  - apply in_map_iff in Hin as (x & Hx & _). congruence.
  - apply andb_prop in Hg as [G1 G2].
    apply in_flat_map in Hin as ([c1 s1] & H1 & H2); simpl in H2.
    apply (IH1 G1) in H1. apply (IH2 G2) in H2. congruence.
  - apply andb_prop in Hg as [G1 G2].
    apply in_app_or in Hin as [H | H]; eauto.
  - discriminate.
Qed.

Lemma run_cat_nogroup r1 r2 s caps caps' rest :
  nogroup r1 = true ->
  In (caps', rest) (run (Cat r1 r2) s caps) ->
  exists s1, In (caps', rest) (run r2 s1 caps).
Proof.
  intros Hg Hin; simpl in Hin.
  apply in_flat_map in Hin as ([c1 s1] & H1 & H2); simpl in H2.
  apply (run_nogroup _ Hg) in H1; subst c1. now exists s1.
Qed.

Lemma rep_exactly_two a s rest :
  In rest (rep a 2 (Some 2) s) ->
  exists c1 c2, s = String c1 (String c2 rest) /\
                atom_match a c1 = true /\ atom_match a c2 = true.
Proof.
  destruct s as [| c1 [| c2 s2]]; simpl.
  - intros [].
  - destruct (atom_match a c1); simpl; intros [].
  - destruct (atom_match a c1) eqn:E1; simpl; [| intros []].
    destruct (atom_match a c2) eqn:E2; simpl; [| intros []].
    rewrite app_nil_r.
    assert (Hstop : rep a 0 (Some 0) s2 = [s2]) by (destruct s2; reflexivity).
    rewrite Hstop. intros [<- | []]. now exists c1, c2.
Qed.

Lemma consumed_two c1 c2 rest :
  consumed (String c1 (String c2 rest)) rest = two_chars c1 c2.
Proof.
  unfold consumed. cbn [String.length].
  replace (S (S (String.length rest)) - String.length rest)%nat with 2%nat by lia.
  destruct rest; reflexivity.
Qed.

Lemma run_year2 s caps caps' rest :
  In (caps', rest) (run Patterns.year2 s caps) ->
  exists c1 c2, is_digit c1 = true /\ is_digit c2 = true /\
                caps' = (caps ++ [two_chars c1 c2])%list.
Proof.
  unfold Patterns.year2; simpl. intros Hin.
  apply in_map_iff in Hin as ([c0 r0] & Heq & Hin); simpl in Heq.
  apply in_map_iff in Hin as (r1 & Heq1 & Hin).
  injection Heq1 as <- <-. injection Heq as <- <-.
  apply rep_exactly_two in Hin as (c1 & c2 & -> & D1 & D2).
  exists c1, c2. rewrite consumed_two. auto.
Qed.

Lemma findall_from_match r : forall s k m,
  In m (findall_from r k s) ->
  exists s' caps rest, match_here r s' = Some (caps, rest) /\ m = pack caps.
Proof.
  induction s as [| c s IH]; intros k m Hin.
  - destruct k; simpl in Hin; [| contradiction].
    destruct (match_here r "") as [[caps rest] |] eqn:E; [| contradiction].
    destruct Hin as [<- | []]. now exists "", caps, rest.
  - destruct k; simpl in Hin; [| now apply IH in Hin].
    destruct (match_here r (String c s)) as [[caps rest] |] eqn:E.
    + destruct Hin as [<- | Hin]; [now exists (String c s), caps, rest | now apply IH in Hin].
    + now apply IH in Hin.
Qed.

(** Every element [re.findall] returns for the year-only pattern is a
    string of two digits. *)
Lemma findall_year_only text m :
  In m (findall Patterns.year_only text) ->
  exists c1 c2, is_digit c1 = true /\ is_digit c2 = true /\ m = MStr (two_chars c1 c2).
Proof.
  intros Hin. apply findall_from_match in Hin as (s & caps & rest & Hm & ->).
  apply hd_error_In in Hm. unfold Patterns.year_only in Hm.
  cbn [seq] in Hm.
  repeat (apply run_cat_nogroup in Hm as (? & Hm); [| reflexivity]).
  apply run_year2 in Hm as (c1 & c2 & D1 & D2 & ->).
  exists c1, c2. auto.
Qed.

Lemma is_digit_cases c :
  is_digit c = true ->
  In c ["0"; "1"; "2"; "3"; "4"; "5"; "6"; "7"; "8"; "9"]%char.
Proof.
  destruct c as [[] [] [] [] [] [] [] []]; intros H;
    first [discriminate H | simpl; tauto].
Qed.

(** The year-only branch on a two-digit token: the token gets its century
    from the 50/51 window, the month is 09 and the day 03. *)
Lemma year_only_branch_two_digits c1 c2 :
  is_digit c1 = true -> is_digit c2 = true ->
  year_only_branch (MStr (two_chars c1 c2)) =
  Ret (Some ((if (two_digit_value c1 c2 <=? 50)%Z then "20" else "19")
             ++ two_chars c1 c2 ++ "-09-03")).
Proof.
  intros D1 D2. apply is_digit_cases in D1. apply is_digit_cases in D2.
  simpl in D1, D2.
  repeat (destruct D1 as [<- | D1]; [| ]);
    try contradiction;
    repeat (destruct D2 as [<- | D2]; [| ]); try contradiction; reflexivity.
Qed.

(** ** The cascade *)

Lemma for_matches_none body ms :
  for_matches body ms = Ret None <-> (forall x, In x ms -> body x = Ret None).
Proof.
  induction ms as [| m ms IH]; simpl.
  - split; [intros _ x [] | reflexivity].
  - destruct (body m) as [[d |] | e] eqn:E.
    + split; [discriminate | intros H; specialize (H m (or_introl eq_refl)); congruence].
    + rewrite IH. split.
      * intros H x [<- | Hx]; auto.
      * intros H x Hx. apply H. now right.
    + split; [discriminate | intros H; specialize (H m (or_introl eq_refl)); congruence].
Qed.

Lemma for_matches_some body ms d :
  for_matches body ms = Ret (Some d) <->
  exists pre m post,
    ms = (pre ++ m :: post)%list /\ body m = Ret (Some d) /\
    (forall x, In x pre -> body x = Ret None).
Proof.
  induction ms as [| m0 ms IH]; simpl.
  - split; [discriminate | intros (pre & m & post & H & _)].
    destruct pre; discriminate.
  - destruct (body m0) as [[d0 |] | e] eqn:E.
    + split.
      * intros H. exists [], m0, ms. repeat split; [congruence | intros x []].
      * intros (pre & m & post & Hms & Hb & Hpre).
        destruct pre as [| p pre]; simpl in Hms; injection Hms as -> ->; [congruence |].
        specialize (Hpre _ (or_introl eq_refl)). congruence.
    + rewrite IH. split.
      * intros (pre & m & post & -> & Hb & Hpre).
        exists (m0 :: pre), m, post. repeat split; auto.
        intros x [<- | Hx]; auto.
      * intros (pre & m & post & Hms & Hb & Hpre).
        destruct pre as [| p pre]; simpl in Hms; injection Hms as -> ->; [congruence |].
        exists pre, m, post. repeat split; auto.
        intros x Hx. apply Hpre. now right.
    + split; [discriminate |].
      intros (pre & m & post & Hms & Hb & Hpre).
      destruct pre as [| p pre]; simpl in Hms; injection Hms as -> ->; [congruence |].
      specialize (Hpre _ (or_introl eq_refl)). congruence.
Qed.

Lemma for_patterns_some body ps : forall i text d,
  for_patterns body i ps text = Ret (Some d) <->
  exists k p,
    nth_error ps k = Some p /\
    for_matches (body (i + k)%nat) (findall p text) = Ret (Some d) /\
    (forall j q, (j < k)%nat -> nth_error ps j = Some q ->
                 for_matches (body (i + j)%nat) (findall q text) = Ret None).
Proof.
  induction ps as [| p0 ps IH]; intros i text d; simpl.
  - split; [discriminate | intros (k & p & H & _)]. destruct k; discriminate.
  - destruct (for_matches (body i) (findall p0 text)) as [[d0 |] | e] eqn:E.
    + split.
      * intros H. exists 0%nat, p0. rewrite Nat.add_0_r.
        repeat split; [congruence | intros j q Hj; lia].
      * intros (k & p & Hk & Hm & Hearlier).
        destruct k as [| k]; simpl in Hk.
        -- injection Hk as <-. rewrite Nat.add_0_r in Hm. congruence.
        -- specialize (Hearlier 0%nat p0 (Nat.lt_0_succ k) eq_refl).
           rewrite Nat.add_0_r in Hearlier. congruence.
    + rewrite IH. split.
      * intros (k & p & Hk & Hm & Hearlier).
        exists (S k), p. rewrite Nat.add_succ_r. repeat split; auto.
        intros [| j] q Hj Hq; simpl in Hq.
        -- injection Hq as <-. now rewrite Nat.add_0_r.
        -- rewrite Nat.add_succ_r. apply Hearlier; [lia | assumption].
      * intros (k & p & Hk & Hm & Hearlier).
        destruct k as [| k]; simpl in Hk.
        -- injection Hk as <-. rewrite Nat.add_0_r in Hm. congruence.
        -- exists k, p. rewrite Nat.add_succ_r in Hm. repeat split; auto.
           intros j q Hj Hq.
           specialize (Hearlier (S j) q (proj1 (Nat.succ_lt_mono j k) Hj) Hq).
           now rewrite Nat.add_succ_r in Hearlier.
    + split; [discriminate |].
      intros (k & p & Hk & Hm & Hearlier).
      destruct k as [| k]; simpl in Hk.
      * injection Hk as <-. rewrite Nat.add_0_r in Hm. congruence.
      * specialize (Hearlier 0%nat p0 (Nat.lt_0_succ k) eq_refl).
        rewrite Nat.add_0_r in Hearlier. congruence.
Qed.

Lemma extract_of_unfold v text :
  extract_of v text = for_patterns (body_of v) 0 (patterns_of v) text.
Proof. destruct v; reflexivity. Qed.

(** The cascade returns [d] exactly when some match [m] of some pattern [i]
    yields [d], the matches of pattern [i] before [m] yield nothing, and no
    match of any pattern declared before [i] yields anything. *)
Lemma cascade_spec v text d :
  extract_of v text = Ret (Some d) <->
  exists i p pre m post,
    nth_error (patterns_of v) i = Some p /\
    findall p text = (pre ++ m :: post)%list /\
    body_of v i m = Ret (Some d) /\
    (forall x, In x pre -> body_of v i x = Ret None) /\
    (forall j q x, (j < i)%nat -> nth_error (patterns_of v) j = Some q ->
                   In x (findall q text) -> body_of v j x = Ret None).
Proof.
  rewrite extract_of_unfold, for_patterns_some. split.
  - intros (k & p & Hk & Hm & Hearlier). simpl in Hm.
    apply for_matches_some in Hm as (pre & m & post & Hf & Hb & Hpre).
    exists k, p, pre, m, post. repeat split; auto.
    intros j q x Hj Hq Hx.
    specialize (Hearlier j q Hj Hq). simpl in Hearlier.
    now apply (proj1 (for_matches_none _ _) Hearlier).
  - intros (i & p & pre & m & post & Hi & Hf & Hb & Hpre & Hearlier).
    exists i, p. simpl. repeat split; auto.
    + apply for_matches_some. now exists pre, m, post.
    + intros j q Hj Hq. apply for_matches_none. intros x Hx. eauto.
Qed.

(** A pattern whose first match yields a date decides the result as soon as
    the patterns declared before it yield nothing. *)
Lemma cascade_first_match v text i p m ms d :
  nth_error (patterns_of v) i = Some p ->
  findall p text = m :: ms ->
  body_of v i m = Ret (Some d) ->
  (forall j q x, (j < i)%nat -> nth_error (patterns_of v) j = Some q ->
                 In x (findall q text) -> body_of v j x = Ret None) ->
  extract_of v text = Ret (Some d).
Proof.
  intros Hi Hf Hb Hearlier. apply cascade_spec.
  exists i, p, [], m, ms. repeat split; auto. intros x [].
Qed.

(** ** Two-digit years *)

Lemma py_int_two_digits c1 c2 :
  is_digit c1 = true -> is_digit c2 = true ->
  py_int (two_chars c1 c2) = Ret (two_digit_value c1 c2).
Proof.
  intros D1 D2. apply is_digit_cases in D1. apply is_digit_cases in D2.
  simpl in D1, D2.
  repeat (destruct D1 as [<- | D1]; [| ]);
    try contradiction;
    repeat (destruct D2 as [<- | D2]; [| ]); try contradiction; reflexivity.
Qed.

(** The window on a two-digit token: century 20 up to [limit], century 19
    above it. *)
Lemma two_digit_year_window limit c1 c2 :
  is_digit c1 = true -> is_digit c2 = true ->
  two_digit_year limit (two_chars c1 c2) =
  Ret ((if (two_digit_value c1 c2 <=? limit)%Z then "20" else "19") ++ two_chars c1 c2).
Proof.
  intros D1 D2. unfold two_digit_year.
  cbn [two_chars String.length Nat.eqb].
  rewrite (py_int_two_digits c1 c2 D1 D2). cbn [obind].
  destruct (two_digit_value c1 c2 <=? limit)%Z; reflexivity.
Qed.

(** A month-name match with a two-digit year, under a branch whose bound is
    [limit]. *)
Lemma month_name_branch_two_digits limit day mon mm c1 c2 :
  lookup (upper mon) month_map = Some mm ->
  is_digit c1 = true -> is_digit c2 = true ->
  month_name_branch limit (MTuple [day; mon; two_chars c1 c2]) =
  Ret (Some (iso ((if (two_digit_value c1 c2 <=? limit)%Z then "20" else "19")
                  ++ two_chars c1 c2) mm (zfill 2 day))).
Proof.
  intros Hmon D1 D2. unfold month_name_branch.
  cbn [py_len List.length Nat.leb py_index nth_error obind].
  rewrite Hmon, (two_digit_year_window limit c1 c2 D1 D2). reflexivity.
Qed.

(** C1 (the code at the failing inputs).  The full extractor handles its
    month-name patterns (indices 0, 1, 6, 7) with the bound 30, not 50:
    "03 SEP /SEPT 45" comes out as 1945 where the other two extractors,
    whose month-name branch has the bound 50, and the full extractor's own
    year-only branch give 2045.  The simplified and the pure extractor send
    the "Date of issue" and plain patterns (indices 2, 3) to the fragmented
    branch, so "01 JAN 22" comes out as "JAN-09-03" and its year token is
    never windowed. *)
Theorem C1_full_variant_windows_month_name_dates_at_30 :
  (forall m,
     Full.body 0 m = month_name_branch 30 m /\ Full.body 1 m = month_name_branch 30 m /\
     Full.body 6 m = month_name_branch 30 m /\ Full.body 7 m = month_name_branch 30 m /\
     Simplified.body 0 m = month_name_branch 50 m /\
     Simplified.body 1 m = month_name_branch 50 m /\
     Pure.body 0 m = month_name_branch 50 m /\ Pure.body 1 m = month_name_branch 50 m) /\
  month_name_branch 30 (MTuple ["03"; "SEP"; "45"]) = Ret (Some "1945-09-03") /\
  month_name_branch 50 (MTuple ["03"; "SEP"; "45"]) = Ret (Some "2045-09-03") /\
  Full.extract_issue_date_from_text "03 SEP /SEPT 45" = Ret (Some "1945-09-03") /\
  Simplified.extract_issue_date_from_text "03 SEP /SEPT 45" = Ret (Some "2045-09-03") /\
  Pure.extract_issue_date_from_text "03 SEP /SEPT 45" = Ret (Some "2045-09-03") /\
  Full.extract_issue_date_from_text "Gsseryserr45" = Ret (Some "2045-09-03") /\
  Full.extract_issue_date_from_text "01 JAN 45" = Ret (Some "1945-01-01") /\
  Full.extract_issue_date_from_text "01 JAN 22" = Ret (Some "2022-01-01") /\
  Full.extract_issue_date_from_text "01 JAN 85" = Ret (Some "1985-01-01") /\
  Simplified.extract_issue_date_from_text "01 JAN 22" = Ret (Some "JAN-09-03") /\
  Pure.extract_issue_date_from_text "01 JAN 22" = Ret (Some "JAN-09-03").
Proof.
  split; [intros m; repeat split |].
  repeat split; vm_compute; reflexivity.
Qed.

(** ** Priority of the patterns *)

(** C2 (counterexample).  The text holds a clean "Date of issue 01 JAN 21"
    and a fragmented "Gsseryserr22".  The clean match alone normalizes to
    2021-01-01, but the full extractor declares the fragmented patterns
    before the "Date of issue" pattern and returns the fragmented date. *)
Lemma C2_full_variant_prefers_fragmented_match :
  let text := "Date of issue 01 JAN 21 Gsseryserr22" in
  findall Patterns.date_of_issue text = [MTuple ["01"; "JAN"; "21"]] /\
  nth_error Full.patterns 6 = Some Patterns.date_of_issue /\
  Full.body 6 (MTuple ["01"; "JAN"; "21"]) = Ret (Some "2021-01-01") /\
  findall Patterns.year_only text = [MStr "22"] /\
  nth_error Full.patterns 2 = Some Patterns.year_only /\
  Full.extract_issue_date_from_text text = Ret (Some "2022-09-03") /\
  Full.extract_issue_date_from_text text <> Ret (Some "2021-01-01").
Proof. repeat split; vm_compute; try reflexivity; discriminate. Qed.

(** C2 (amended).  In every variant the patterns are tried strictly in
    declared order, each over all its matches: the cascade returns [d]
    exactly when a match of some pattern yields [d] while the earlier
    matches of that pattern and every match of every pattern declared
    before it yield nothing.  The bilingual clean patterns are declared
    first in every variant, so their match wins over any fragmented one.
    In the full variant the year-only fragmented pattern is declared
    before the "Date of issue" and plain patterns, so once the bilingual
    patterns match nothing its first match decides the result, whatever
    those later clean patterns match. *)
Theorem C2_cascade_follows_declared_order (v : variant) (text d : string) :
  (extract_of v text = Ret (Some d) <->
   exists i p pre m post,
     nth_error (patterns_of v) i = Some p /\
     findall p text = (pre ++ m :: post)%list /\
     body_of v i m = Ret (Some d) /\
     (forall x, In x pre -> body_of v i x = Ret None) /\
     (forall j q x, (j < i)%nat -> nth_error (patterns_of v) j = Some q ->
                    In x (findall q text) -> body_of v j x = Ret None)) /\
  (forall m ms,
     findall Patterns.bilingual_tight text = m :: ms ->
     body_of v 0 m = Ret (Some d) ->
     extract_of v text = Ret (Some d)) /\
  (forall m ms,
     findall Patterns.bilingual_tight text = [] ->
     findall Patterns.bilingual_spaced text = [] ->
     findall Patterns.year_only text = m :: ms ->
     Full.extract_issue_date_from_text text = year_only_branch m /\
     exists y, year_only_branch m = Ret (Some y)).
Proof.
  split; [apply cascade_spec |]. split.
  - intros m ms Hf Hb.
    apply (cascade_first_match v text 0 Patterns.bilingual_tight m ms d); auto.
    + destruct v; reflexivity.
    + intros j q x Hj. lia.
  - intros m ms H0 H1 H2.
    assert (Hin : In m (findall Patterns.year_only text)) by (rewrite H2; now left).
    apply findall_year_only in Hin as (c1 & c2 & D1 & D2 & ->).
    rewrite (year_only_branch_two_digits c1 c2 D1 D2).
    split; [| eauto].
    apply (cascade_first_match VFull text 2 Patterns.year_only
             (MStr (two_chars c1 c2)) ms); auto.
    + simpl. apply (year_only_branch_two_digits c1 c2 D1 D2).
    + intros j q x Hj Hq Hx.
      destruct j as [| [| j]]; [| | lia]; simpl in Hq; injection Hq as <-.
      * rewrite H0 in Hx. destruct Hx.
      * rewrite H1 in Hx. destruct Hx.
Qed.

Lemma C2_cascade_follows_declared_order_witness :
  Full.extract_issue_date_from_text "Date of issue 01 JAN 21 Gsseryserr22"
    = year_only_branch (MStr "22") /\
  exists y, year_only_branch (MStr "22") = Ret (Some y).
Proof.
  exact (proj2 (proj2 (C2_cascade_follows_declared_order VFull
                         "Date of issue 01 JAN 21 Gsseryserr22" "2022-09-03"))
           (MStr "22") [] eq_refl eq_refl eq_refl).
Defined.

(** ** The year-only pattern *)

(** C6.  Whatever text the year-only pattern ("Gsseryserr22") matches, the
    match is a two-digit year token and the date extracted from it is that
    year, windowed at 50/51, with month 09 and day 03; for the token "22"
    it is exactly 2022-09-03.  Every variant lists the pattern and handles
    it this way, and returns that date for the text as soon as the
    patterns declared before it yield nothing. *)
Theorem C6_year_only_match_gives_03_SEP (v : variant) (text : string) (m : pymatch) :
  In m (findall Patterns.year_only text) ->
  nth_error (patterns_of v) (year_only_index v) = Some Patterns.year_only /\
  (exists c1 c2,
     is_digit c1 = true /\ is_digit c2 = true /\ m = MStr (two_chars c1 c2) /\
     body_of v (year_only_index v) m =
       Ret (Some ((if (two_digit_value c1 c2 <=? 50)%Z then "20" else "19")
                  ++ two_chars c1 c2 ++ "-09-03"))) /\
  (m = MStr "22" -> body_of v (year_only_index v) m = Ret (Some "2022-09-03")) /\
  (forall ms,
     findall Patterns.year_only text = m :: ms ->
     (forall j q x, (j < year_only_index v)%nat ->
                    nth_error (patterns_of v) j = Some q ->
                    In x (findall q text) -> body_of v j x = Ret None) ->
     extract_of v text = body_of v (year_only_index v) m) /\
  extract_of v "Gsseryserr22" = Ret (Some "2022-09-03").
Proof.
  intros Hin.
  assert (Hbody : body_of v (year_only_index v) = year_only_branch)
    by (destruct v; reflexivity).
  assert (Hidx : nth_error (patterns_of v) (year_only_index v) = Some Patterns.year_only)
    by (destruct v; reflexivity).
  apply findall_year_only in Hin as (c1 & c2 & D1 & D2 & ->).
  rewrite Hbody. repeat split.
  - exact Hidx.
  - exists c1, c2. repeat split; auto. now apply year_only_branch_two_digits.
  - intros ->. reflexivity.
  - intros ms Hf Hearlier.
    rewrite (year_only_branch_two_digits c1 c2 D1 D2).
    apply (cascade_first_match v text (year_only_index v) Patterns.year_only
             (MStr (two_chars c1 c2)) ms); auto.
    rewrite Hbody. now apply year_only_branch_two_digits.
  - destruct v; vm_compute; reflexivity.
Qed.

Lemma C6_year_only_match_gives_03_SEP_witness :
  In (MStr "22") (findall Patterns.year_only "xx Gsseryserr22 yy") /\
  body_of VPure (year_only_index VPure) (MStr "22") = Ret (Some "2022-09-03").
Proof.
  assert (Hin : In (MStr "22") (findall Patterns.year_only "xx Gsseryserr22 yy"))
    by (vm_compute; left; reflexivity).
  split; [exact Hin |].
  exact (proj1 (proj2 (proj2
           (C6_year_only_match_gives_03_SEP VPure "xx Gsseryserr22 yy" (MStr "22") Hin)))
         eq_refl).
Defined.

(** ** The text scan never raises

    [int] is the only call of the scan that can raise, and it is only
    ever applied to a capture of two digits. *)

Lemma length_app (a b : string) :
  String.length (a ++ b) = (String.length a + String.length b)%nat.
Proof. induction a as [| c a IH]; simpl; [reflexivity | now rewrite IH]. Qed.

Lemma consumed_app (g rest : string) : consumed (g ++ rest) rest = g.
Proof.
  unfold consumed. rewrite length_app.
  replace (String.length g + String.length rest - String.length rest)%nat
    with (String.length g) by lia.
  induction g as [| c g IH]; simpl.
  - destruct rest; reflexivity.
  - now rewrite IH.
Qed.

Lemma rep_spec a : forall s lo hi rest,
  In rest (rep a lo hi s) ->
  exists g, s = g ++ rest /\ all_chars (atom_match a) g = true /\
            (lo <= String.length g)%nat /\
            (forall h, hi = Some h -> (String.length g <= h)%nat).
Proof.
  assert (Hstop : forall s lo (hi : option nat) rest,
             In rest (if (lo =? 0)%nat then [s] else []) ->
             exists g, s = g ++ rest /\ all_chars (atom_match a) g = true /\
                       (lo <= String.length g)%nat /\
                       (forall h, hi = Some h -> (String.length g <= h)%nat)).
  { intros s lo hi rest H. destruct lo; simpl in H; [| contradiction].
    destruct H as [<- | []]. exists "". repeat split; simpl; auto. intros; lia. }
  induction s as [| c s IH]; intros lo hi rest Hin.
  - apply (Hstop "" lo hi). destruct hi as [[| h] |]; exact Hin.
  - assert (Hstep : In rest (if atom_match a c
                             then rep a (Nat.pred lo) (option_map Nat.pred hi) s ++
                                  (if (lo =? 0)%nat then [String c s] else [])
                             else if (lo =? 0)%nat then [String c s] else []) ->
                    hi <> Some 0%nat ->
                    exists g, String c s = g ++ rest /\
                              all_chars (atom_match a) g = true /\
                              (lo <= String.length g)%nat /\
                              (forall h, hi = Some h -> (String.length g <= h)%nat)).
    { intros H Hhi. destruct (atom_match a c) eqn:Ea; [| now apply Hstop].
      apply in_app_or in H as [H | H]; [| now apply Hstop].
      apply IH in H as (g & -> & Hall & Hlo & Hhi').
      exists (String c g). repeat split; simpl.
      - now rewrite Ea, Hall.
      - lia.
      - intros h ->. destruct h as [| h]; [congruence |].
        specialize (Hhi' h eq_refl). lia. }
    destruct hi as [[| h] |]; simpl in Hin.
    + now apply Hstop.
    + apply Hstep; [exact Hin | discriminate].
    + apply Hstep; [exact Hin | discriminate].
Qed.

Lemma group_shape_holds r1 s caps c0 r0 :
  nogroup r1 = true ->
  In (c0, r0) (run r1 s caps) ->
  group_shape r1 (consumed s r0) = true.
Proof.
  intros Hg Hin. destruct r1 as [a | a lo hi | | |]; try reflexivity.
  - simpl in Hin. destruct s as [| c s]; [contradiction |].
    destruct (atom_match a c) eqn:Ea; [| contradiction].
    destruct Hin as [[= _ <-] | []].
    change (String c s) with (String c "" ++ s). rewrite consumed_app.
    simpl. now rewrite Ea.
  - simpl in Hin. apply in_map_iff in Hin as (x & [= _ <-] & Hin).
    apply rep_spec in Hin as (g & -> & Hall & Hlo & Hhi).
    rewrite consumed_app. unfold group_shape. rewrite Hall.
    apply Nat.leb_le in Hlo. rewrite Hlo. simpl.
    destruct hi as [h |]; [| reflexivity].
    apply Nat.leb_le. now apply Hhi.
Qed.

(** The groups a match captures have the shapes of the pattern's groups. *)
Lemma run_shapes r :
  flat r = true ->
  forall s caps caps' rest,
    In (caps', rest) (run r s caps) ->
    exists gs, caps' = (caps ++ gs)%list /\
               Forall2 (fun shape g => shape g = true) (shapes r) gs.
Proof.
  induction r as [a | a lo hi | r1 IH1 r2 IH2 | r1 IH1 r2 IH2 | r1 IH1];
    intros Hflat s caps caps' rest Hin.
  - exists []. rewrite app_nil_r. split; [| constructor].
    now apply (run_nogroup (One a) eq_refl) in Hin.
  - exists []. rewrite app_nil_r. split; [| constructor].
    now apply (run_nogroup (Rep a lo hi) eq_refl) in Hin.
  - simpl in Hflat. apply andb_prop in Hflat as [F1 F2]. simpl in Hin.
    apply in_flat_map in Hin as ([c1 s1] & H1 & H2); simpl in H2.
    apply (IH1 F1) in H1 as (gs1 & -> & S1).
    apply (IH2 F2) in H2 as (gs2 & -> & S2).
    exists (gs1 ++ gs2)%list. rewrite app_assoc. split; [reflexivity |].
    simpl. now apply Forall2_app.
  - exists []. rewrite app_nil_r. split; [| constructor].
    now apply (run_nogroup (Alt r1 r2) Hflat) in Hin.
  - simpl in Hflat, Hin.
    apply in_map_iff in Hin as ([c0 r0] & [= <- <-] & Hin).
    pose proof (group_shape_holds r1 s caps c0 r0 Hflat Hin) as Hshape.
    apply (run_nogroup r1 Hflat) in Hin. subst c0.
    exists [consumed s r0]. split; [reflexivity |].
    simpl. constructor; [exact Hshape | constructor].
Qed.

Lemma findall_shapes r text m :
  flat r = true ->
  In m (findall r text) ->
  exists gs, m = pack gs /\ Forall2 (fun shape g => shape g = true) (shapes r) gs.
Proof.
  intros Hflat Hin.
  apply findall_from_match in Hin as (s & caps & rest & Hm & ->).
  apply hd_error_In in Hm.
  apply (run_shapes r Hflat) in Hm as (gs & -> & Hs). now exists gs.
Qed.

Lemma two_digits_of g :
  all_chars is_digit g = true -> String.length g = 2%nat ->
  exists c1 c2, is_digit c1 = true /\ is_digit c2 = true /\ g = two_chars c1 c2.
Proof.
  destruct g as [| c1 [| c2 [| c3 g]]]; simpl; intros Hall Hlen; try discriminate.
  apply andb_prop in Hall as [D1 Hall]. apply andb_prop in Hall as [D2 _].
  now exists c1, c2.
Qed.

Lemma two_digit_year_returns limit g :
  all_chars is_digit g = true -> exists y, two_digit_year limit g = Ret y.
Proof.
  intros Hall. unfold two_digit_year.
  destruct (String.length g =? 2)%nat eqn:E; [| eauto].
  apply Nat.eqb_eq in E.
  destruct (two_digits_of g Hall E) as (c1 & c2 & D1 & D2 & ->).
  rewrite (py_int_two_digits c1 c2 D1 D2). simpl.
  destruct (two_digit_value c1 c2 <=? limit)%Z; eauto.
Qed.

Lemma two_digit_year_of_longer limit g :
  (3 <= String.length g)%nat -> two_digit_year limit g = Ret g.
Proof.
  intros H. unfold two_digit_year.
  destruct (String.length g =? 2)%nat eqn:E; [| reflexivity].
  apply Nat.eqb_eq in E. lia.
Qed.

Lemma month_name_branch_returns limit g1 g2 g3 :
  all_chars is_digit g3 = true ->
  exists r, month_name_branch limit (MTuple [g1; g2; g3]) = Ret r.
Proof.
  intros Hall. unfold month_name_branch.
  cbn [py_len List.length Nat.leb py_index nth_error obind].
  destruct (lookup (upper g2) month_map) as [mm |]; [| eauto].
  destruct (two_digit_year_returns limit g3 Hall) as (y & ->). simpl. eauto.
Qed.

Lemma for_matches_returns body ms :
  (forall m, In m ms -> exists r, body m = Ret r) ->
  exists r, for_matches body ms = Ret r.
Proof.
  induction ms as [| m ms IH]; intros H; simpl; [eauto |].
  destruct (H m (or_introl eq_refl)) as ([d |] & ->); [eauto |].
  apply IH. intros x Hx. apply H. now right.
Qed.

Lemma for_patterns_returns body ps : forall i text,
  (forall k p m, nth_error ps k = Some p -> In m (findall p text) ->
                 exists r, body (i + k)%nat m = Ret r) ->
  exists r, for_patterns body i ps text = Ret r.
Proof.
  induction ps as [| p ps IH]; intros i text H; simpl; [eauto |].
  destruct (for_matches_returns (body i) (findall p text)) as ([d |] & ->).
  - intros m Hm. specialize (H 0%nat p m eq_refl Hm). now rewrite Nat.add_0_r in H.
  - eauto.
  - apply IH. intros k q m Hk Hm.
    specialize (H (S k) q m Hk Hm). now rewrite Nat.add_succ_r in H.
Qed.

Lemma year2_shape g :
  group_shape (Rep ADigit 2 (Some 2)) g = true ->
  all_chars is_digit g = true /\ String.length g = 2%nat.
Proof.
  unfold group_shape. intros H.
  apply andb_prop in H as [H H2]. apply andb_prop in H as [H0 H1].
  apply Nat.leb_le in H1, H2. split; [exact H0 | lia].
Qed.

Lemma year24_shape g :
  group_shape (Rep ADigit 2 (Some 4)) g = true -> all_chars is_digit g = true.
Proof.
  unfold group_shape. intros H.
  apply andb_prop in H as [H _]. now apply andb_prop in H as [H0 _].
Qed.

Lemma letters34_shape g :
  group_shape Patterns.letters34 g = true -> (3 <= String.length g)%nat.
Proof.
  unfold Patterns.letters34, group_shape. intros H.
  apply andb_prop in H as [H _]. apply andb_prop in H as [_ H1].
  now apply Nat.leb_le in H1.
Qed.

Lemma year_only_branch_returns g :
  all_chars is_digit g = true -> String.length g = 2%nat ->
  exists r, year_only_branch (MStr g) = Ret r.
Proof.
  intros Hall Hlen. destruct (two_digits_of g Hall Hlen) as (c1 & c2 & D1 & D2 & ->).
  rewrite (year_only_branch_two_digits c1 c2 D1 D2). eauto.
Qed.

(** Every match of every listed pattern is handled without raising. *)
Lemma body_returns v text k p m :
  nth_error (patterns_of v) k = Some p ->
  In m (findall p text) ->
  exists r, body_of v k m = Ret r.
Proof.
  intros Hk Hin.
  destruct v; do 8 (try destruct k as [| k]); simpl in Hk;
    try discriminate Hk; try (destruct k; discriminate Hk); injection Hk as <-;
    apply findall_shapes in Hin as (gs & -> & Hs); try reflexivity;
    split_shapes Hs.
  all: try match goal with
           | H : group_shape (Rep ADigit 2 (Some 2)) _ = true |- _ =>
               apply year2_shape in H; destruct H
           end.
  all: try match goal with
           | H : group_shape (Rep ADigit 2 (Some 4)) _ = true |- _ =>
               apply year24_shape in H
           end.
  all: try match goal with
           | H : group_shape Patterns.letters34 _ = true |- _ =>
               apply letters34_shape in H
           end.
  all: try (apply month_name_branch_returns; assumption).
  all: try (apply year_only_branch_returns; assumption).
  all: unfold body_of, pack, Full.body, Simplified.body, Pure.body;
    cbn [Nat.ltb Nat.leb Nat.eqb py_len List.length py_index nth_error obind].
  all: try match goal with
           | H : all_chars is_digit ?g = true |- context [two_digit_year ?l ?g] =>
               destruct (two_digit_year_returns l g H) as (? & ->); simpl; eauto
           end.
  all: try match goal with
           | H : (3 <= String.length ?g)%nat |- context [two_digit_year ?l ?g] =>
               rewrite (two_digit_year_of_longer l g H); simpl; eauto
           end.
Qed.

(** [extract_issue_date_from_text] always returns: a date or nothing. *)
Lemma extract_returns v text : exists r, extract_of v text = Ret r.
Proof.
  rewrite extract_of_unfold. apply for_patterns_returns.
  intros k p m Hk Hin. simpl. exact (body_returns v text k p m Hk Hin).
Qed.

(** ** Dictionaries *)

Lemma lookup_dict_set k k' v (d : dict) :
  lookup k (dict_set d k' v) = if String.eqb k k' then Some v else lookup k d.
Proof.
  induction d as [| [k1 v1] d IH]; simpl.
  - reflexivity.
  - destruct (String.eqb k' k1) eqn:E1; simpl.
    + apply String.eqb_eq in E1; subst k1.
      destruct (String.eqb k k'); reflexivity.
    + rewrite IH. destruct (String.eqb k k1) eqn:E2; [| reflexivity].
      apply String.eqb_eq in E2; subst k1.
      rewrite String.eqb_sym in E1. now rewrite E1.
Qed.

Lemma lookup_dict_set_in k k1 k2 v (d : dict) :
  String.eqb k k1 = false ->
  lookup k (dict_set_in d k1 k2 v) = lookup k d.
Proof.
  intros E. unfold dict_set_in.
  destruct (lookup k1 d) as [[| | | | |inner] |]; try reflexivity.
  now rewrite lookup_dict_set, E.
Qed.

Lemma lookup_set_issue_date k d (result : dict) :
  String.eqb k "issue_date" = false ->
  String.eqb k "extracted_data" = false ->
  lookup k (set_issue_date result d) = lookup k result.
Proof.
  intros E1 E2. unfold set_issue_date.
  now rewrite (lookup_dict_set_in _ _ _ _ _ E2), lookup_dict_set, E1.
Qed.

(** ** Sampling *)

Lemma logs_nil w : logs [] w = w.
Proof. destruct w; unfold logs; simpl. now rewrite app_nil_r. Qed.

(** The loop over the configurations calls the OCR engine once per
    configuration, keeps the texts of the calls that returned, and never
    raises. *)
Lemma ocr_configs_run ext img : forall configs acc w,
  ocr_configs ext img configs acc w =
  (Ret (acc ++ ocr_texts ext img configs)%list, logs (map (EOcr img) configs) w).
Proof.
  induction configs as [| c configs IH]; intros acc w; simpl.
  - now rewrite app_nil_r, logs_nil.
  - unfold bind at 1, try_except, bind, image_to_string, ret.
    unfold ocr_texts; simpl.
    destruct (image_to_string_impl ext img c) as [t | e]; rewrite IH; simpl;
      unfold logs, log; simpl; rewrite <- ?app_assoc; reflexivity.
Qed.

(** The loop over the regions calls the OCR engine once per region and
    adds an entry for every region whose processing did not raise, with or
    without a date. *)
Lemma sample_regions_run ext img : forall rs acc w,
  sample_regions ext img rs acc w =
  (Ret (acc ++ flat_map (region_entry ext img) rs)%list,
   logs (map (fun r => EOcr (Crop img (snd r)) psm6) rs) w).
Proof.
  induction rs as [| [name b] rs IH]; intros acc w; simpl.
  - now rewrite app_nil_r, logs_nil.
  - unfold bind at 1, try_except, bind, image_to_string, lift, ret.
    unfold region_entry at 1; simpl.
    destruct (image_to_string_impl ext (Crop img b) psm6) as [t | e]; simpl.
    + destruct (Pure.extract_issue_date_from_text t) as [d | e]; simpl.
      * destruct (is_truthy d); rewrite IH; simpl;
          unfold logs, log; simpl; rewrite <- ?app_assoc; reflexivity.
      * rewrite IH; simpl. unfold logs, log; simpl; rewrite <- ?app_assoc; reflexivity.
    + rewrite IH; simpl. unfold logs, log; simpl; rewrite <- ?app_assoc; reflexivity.
Qed.

Lemma regions_run ext path w :
  extract_issue_date_from_image_regions ext path w =
  match fs w path with
  | Some (ImageFile img) =>
      (Ret (flat_map (region_entry ext img)
              (regions ext (fst (size img)) (snd (size img)))),
       logs (EOpen path ::
             map (fun r => EOcr (Crop img (snd r)) psm6)
               (regions ext (fst (size img)) (snd (size img)))) w)
  | _ => (Ret [], logs [EOpen path] w)
  end.
Proof.
  unfold extract_issue_date_from_image_regions, try_except, bind, image_open.
  destruct (fs w path) as [[img | bytes] |]; try reflexivity.
  destruct (size img) as [width height] eqn:Es. cbn [fst snd].
  rewrite sample_regions_run. simpl.
  unfold logs, log; simpl. rewrite <- ?app_assoc. reflexivity.
Qed.

(** ** The cropped-band retry *)

Lemma mrz_region_fallback_run ext path w img :
  fs w path = Some (ImageFile img) ->
  save_error ext (bottom_band ext img) (temp_path path) = None ->
  mrz_region_fallback ext path w =
  match read_mrz_impl ext (temp_path path) (Some (ImageFile (bottom_band ext img))) with
  | Ret r =>
      (Ret r,
       logs [EOpen path; ESave (bottom_band ext img) (temp_path path);
             EReadMrz (temp_path path); ERemove (temp_path path)]
         (fs_delete (temp_path path)
            (fs_write (temp_path path) (ImageFile (bottom_band ext img)) w)))
  | Raise _ =>
      (Ret None,
       logs [EOpen path; ESave (bottom_band ext img) (temp_path path);
             EReadMrz (temp_path path)]
         (fs_write (temp_path path) (ImageFile (bottom_band ext img)) w))
  end.
Proof.
  intros Hfs Hsave.
  unfold mrz_region_fallback, try_except at 1, bind at 1, image_open.
  rewrite Hfs. unfold bottom_band, temp_path in *.
  destruct (size img) as [width height] eqn:Es. cbn [fst snd] in *.
  unfold bind at 1, image_save. rewrite Hsave.
  unfold bind at 1, read_mrz. cbn [fs fs_write log].
  rewrite String.eqb_refl.
  destruct (read_mrz_impl ext _ _) as [r | e].
  - unfold try_except, bind, os_path_exists, os_remove, ret.
    cbn [fs fs_write log]. rewrite String.eqb_refl. cbn [fs fs_write log].
    rewrite String.eqb_refl.
    unfold logs, log, fs_delete, fs_write; simpl. rewrite <- ?app_assoc. reflexivity.
  - unfold ret, logs, log, fs_write; simpl. rewrite <- ?app_assoc. reflexivity.
Qed.

(** ** The extractors, stage by stage *)

Lemma read_mrz_with_fallback_run ext path w :
  read_mrz_with_fallback ext path w =
  match read_mrz_impl ext path (fs w path) with
  | Ret None => mrz_region_fallback ext path (logs [EReadMrz path] w)
  | Ret (Some m) => (Ret (Some m), logs [EReadMrz path] w)
  | Raise e => (Raise e, logs [EReadMrz path] w)
  end.
Proof.
  unfold read_mrz_with_fallback, bind, read_mrz.
  destruct (read_mrz_impl ext path (fs w path)) as [[m |] | e]; reflexivity.
Qed.

Lemma mrz_region_fallback_total ext path w :
  exists r w', mrz_region_fallback ext path w = (Ret r, w') /\
               (forall p, p <> temp_path path -> fs w' p = fs w p).
Proof.
  unfold mrz_region_fallback, try_except at 1.
  match goal with |- context [match ?m w with _ => _ end] => destruct (m w) as [[r | e] w'] eqn:E end.
  2: { unfold ret. revert E.
       unfold bind at 1, image_open.
       destruct (fs w path) as [[img | bytes] |]; try (intros [= <- <-]; eexists _, _; split; [reflexivity | reflexivity]).
       destruct (size img) as [width height].
       unfold bind at 1, image_save. fold (temp_path path).
       destruct (save_error ext _ _).
       { intros [= <- <-]. eexists _, _; split; [reflexivity |].
         intros p Hp. apply String.eqb_neq in Hp.
         unfold failed_save.
         destruct (failed_save_leaves ext _ _ _); simpl; now rewrite Hp. }
       unfold bind at 1, read_mrz.
       destruct (read_mrz_impl ext _ _) as [r | e'].
       - unfold try_except, bind, os_path_exists, os_remove, ret; cbn [fs fs_write log].
         rewrite String.eqb_refl. cbn [fs fs_write log]. rewrite String.eqb_refl.
         discriminate.
       - intros [= <- <-]. eexists _, _; split; [reflexivity |].
         intros p Hp; simpl. apply String.eqb_neq in Hp. now rewrite Hp. }
  revert E. unfold bind at 1, image_open.
  destruct (fs w path) as [[img | bytes] |]; try discriminate.
  destruct (size img) as [width height].
  unfold bind at 1, image_save. fold (temp_path path).
  destruct (save_error ext _ _); [discriminate |].
  unfold bind at 1, read_mrz.
  destruct (read_mrz_impl ext _ _) as [r' | e']; [| discriminate].
  unfold try_except, bind, os_path_exists, os_remove, ret; cbn [fs fs_write log].
  rewrite String.eqb_refl. cbn [fs fs_write log]. rewrite String.eqb_refl.
  intros [= <- <-]. eexists _, _; split; [reflexivity |].
  intros p Hp; simpl. apply String.eqb_neq in Hp. now rewrite Hp.
Qed.

Lemma extract_pure_run ext path w :
  extract_pure_passport_data ext path w =
  match read_mrz_with_fallback ext path w with
  | (Ret mrz, w1) =>
      match extract_issue_date_from_image_regions ext path w1 with
      | (Ret candidates, w2) => (Ret (pure_result mrz candidates), w2)
      | (Raise e, w2) => (Ret (pure_failure e), w2)
      end
  | (Raise e, w1) => (Ret (pure_failure e), w1)
  end.
Proof.
  unfold extract_pure_passport_data, try_except, bind at 1.
  destruct (read_mrz_with_fallback ext path w) as [[mrz | e] w1]; [| reflexivity].
  unfold bind at 1.
  destruct (extract_issue_date_from_image_regions ext path w1) as [[cands | e] w2];
    [| reflexivity].
  unfold pure_result, with_mrz.
  destruct (best_candidate cands); reflexivity.
Qed.

Lemma extract_full_run ext path w :
  extract_full_passport_data ext path w =
  match read_mrz_impl ext path (fs w path) with
  | Ret mrz =>
      (Ret (full_result ext path mrz (fs w path)),
       logs (EReadMrz path :: ocr_stage_events path (fs w path)) w)
  | Raise e => (Ret (full_failure e), logs [EReadMrz path] w)
  end.
Proof.
  unfold extract_full_passport_data, try_except at 1, bind at 1, read_mrz.
  destruct (read_mrz_impl ext path (fs w path)) as [mrz | e]; [| reflexivity].
  unfold try_except at 1, bind at 1, image_open. cbn [fs log].
  unfold full_result, ocr_stage_events, with_mrz.
  destruct (fs w path) as [[img | bytes] |]; cbn beta iota.
  2, 3: unfold ret, logs, log; simpl; rewrite <- ?app_assoc; reflexivity.
  unfold bind at 1. rewrite ocr_configs_run. cbn [app].
  unfold try_except, bind, lift, ret.
  destruct (Full.extract_issue_date_from_text _) as [d | e]; simpl.
  - destruct (is_truthy d); unfold logs, log; simpl; rewrite <- ?app_assoc; reflexivity.
  - unfold logs, log; simpl; rewrite <- ?app_assoc; reflexivity.
Qed.

Lemma extract_simplified_run ext path w :
  extract_simplified_passport_data ext path w =
  match read_mrz_with_fallback ext path w with
  | (Ret mrz, w1) =>
      (Ret (simplified_result ext path mrz (fs w1 path)),
       logs (ocr_stage_events path (fs w1 path)) w1)
  | (Raise e, w1) => (Ret (simplified_failure e), w1)
  end.
Proof.
  unfold extract_simplified_passport_data, try_except at 1, bind at 1.
  destruct (read_mrz_with_fallback ext path w) as [[mrz | e] w1]; [| reflexivity].
  unfold try_except at 1, bind at 1, image_open.
  unfold simplified_result, ocr_stage_events, with_mrz.
  destruct (fs w1 path) as [[img | bytes] |]; cbn beta iota.
  2, 3: unfold ret, logs, log; simpl; reflexivity.
  unfold bind at 1. rewrite ocr_configs_run. cbn [app].
  unfold bind, lift, ret.
  destruct (Simplified.extract_issue_date_from_text _) as [d | e]; simpl.
  - destruct (is_truthy d); unfold logs, log; simpl; rewrite <- ?app_assoc; reflexivity.
  - unfold logs, log; simpl; rewrite <- ?app_assoc; reflexivity.
Qed.

(** ** What the result says about the MRZ *)

Lemma confidence_nonzero mrz : ~ (confidence_of mrz == 0)%Q <-> found mrz = true.
Proof.
  destruct mrz as [m |]; simpl.
  - split; [reflexivity | intros _].
    destruct (valid m); intros H; discriminate H.
  - split; [intros H; exfalso; apply H; reflexivity | discriminate].
Qed.

Lemma with_mrz_success mrz (init : dict) :
  lookup "success" init = Some (VBool false) ->
  lookup "success" (with_mrz mrz init) = Some (VBool (found mrz)).
Proof.
  intros Hinit. destruct mrz as [m |]; simpl; [| exact Hinit].
  unfold with_mrz_fields, dict_update. cbn [fold_left fst snd].
  destruct (mrz_code m); rewrite ?lookup_dict_set; reflexivity.
Qed.

Lemma with_mrz_confidence mrz (init : dict) :
  lookup "confidence" init = Some (VFloat 0) ->
  lookup "confidence" (with_mrz mrz init) = Some (VFloat (confidence_of mrz)).
Proof.
  intros Hinit. destruct mrz as [m |]; simpl; [| exact Hinit].
  unfold with_mrz_fields, dict_update. cbn [fold_left fst snd].
  destruct (mrz_code m); rewrite ?lookup_dict_set; reflexivity.
Qed.

Lemma with_mrz_other k mrz (init : dict) :
  String.eqb k "success" = false -> String.eqb k "confidence" = false ->
  String.eqb k "valid" = false -> String.eqb k "raw_text" = false ->
  String.eqb k "extracted_data" = false -> String.eqb k "mrz_lines" = false ->
  lookup k (with_mrz mrz init) = lookup k init.
Proof.
  intros E1 E2 E3 E4 E5 E6. destruct mrz as [m |]; simpl; [| reflexivity].
  unfold with_mrz_fields, dict_update. cbn [fold_left fst snd].
  destruct (mrz_code m); rewrite ?lookup_dict_set, ?E1, ?E2, ?E3, ?E4, ?E5, ?E6;
    reflexivity.
Qed.

Lemma pure_result_lookup k mrz candidates :
  String.eqb k "issue_date" = false ->
  String.eqb k "extracted_data" = false ->
  String.eqb k "issue_date_candidates" = false ->
  lookup k (pure_result mrz candidates) = lookup k (with_mrz mrz pure_initial_result).
Proof.
  intros E1 E2 E3. unfold pure_result.
  destruct (best_candidate candidates);
    rewrite ?(lookup_set_issue_date _ _ _ E1 E2), lookup_dict_set, E3; reflexivity.
Qed.

Lemma pure_result_issue_date mrz candidates :
  lookup "issue_date" (pure_result mrz candidates) =
  Some (match best_candidate candidates with
        | Some best => opt_str (date best)
        | None => VNone
        end).
Proof.
  unfold pure_result. destruct (best_candidate candidates) as [best |].
  - unfold set_issue_date.
    rewrite lookup_dict_set_in by reflexivity. now rewrite lookup_dict_set.
  - rewrite lookup_dict_set. cbn [String.eqb Ascii.eqb Bool.eqb].
    now rewrite with_mrz_other.
Qed.

Lemma full_result_lookup k ext path mrz f :
  String.eqb k "issue_date" = false ->
  String.eqb k "extracted_data" = false ->
  String.eqb k "full_text_ocr" = false ->
  String.eqb k "ocr_error" = false ->
  lookup k (full_result ext path mrz f) = lookup k (with_mrz mrz full_initial_result).
Proof.
  intros E1 E2 E3 E4. unfold full_result.
  destruct f as [[img | bytes] |]; cbn beta iota zeta;
    try (rewrite lookup_dict_set, E4; reflexivity).
  destruct (Full.extract_issue_date_from_text _) as [d | e].
  - destruct (is_truthy d);
      rewrite ?(lookup_set_issue_date _ _ _ E1 E2), lookup_dict_set, E3; reflexivity.
  - rewrite !lookup_dict_set, E3, E4. reflexivity.
Qed.

Lemma simplified_result_lookup k ext path mrz f :
  String.eqb k "issue_date" = false ->
  String.eqb k "extracted_data" = false ->
  String.eqb k "ocr_error" = false ->
  lookup k (simplified_result ext path mrz f) =
  lookup k (with_mrz mrz simplified_initial_result).
Proof.
  intros E1 E2 E4. unfold simplified_result.
  destruct f as [[img | bytes] |]; cbn beta iota zeta;
    try (rewrite lookup_dict_set, E4; reflexivity).
  destruct (Simplified.extract_issue_date_from_text _) as [d | e].
  - destruct (is_truthy d);
      rewrite ?(lookup_set_issue_date _ _ _ E1 E2); reflexivity.
  - rewrite lookup_dict_set, E4. reflexivity.
Qed.

(** The two-stage MRZ read never leaves the extractor through anything but
    the first read raising. *)
Lemma read_mrz_with_fallback_cases ext path w :
  match read_mrz_impl ext path (fs w path) with
  | Raise e => read_mrz_with_fallback ext path w = (Raise e, logs [EReadMrz path] w)
  | Ret _ => exists mrz w1, read_mrz_with_fallback ext path w = (Ret mrz, w1)
  end.
Proof.
  rewrite read_mrz_with_fallback_run.
  destruct (read_mrz_impl ext path (fs w path)) as [[m |] | e]; eauto.
  destruct (mrz_region_fallback_total ext path (logs [EReadMrz path] w))
    as (r & w' & H & _). eauto.
Qed.

(** ** The MRZ fallback and its crop file *)

Lemma fallback_when_retry_returns ext path w img r :
  read_mrz_impl ext path (fs w path) = Ret None ->
  fs w path = Some (ImageFile img) ->
  save_error ext (bottom_band ext img) (temp_path path) = None ->
  read_mrz_impl ext (temp_path path) (Some (ImageFile (bottom_band ext img))) = Ret r ->
  read_mrz_with_fallback ext path w =
  (Ret r,
   logs [EReadMrz path; EOpen path; ESave (bottom_band ext img) (temp_path path);
         EReadMrz (temp_path path); ERemove (temp_path path)]
     (fs_delete (temp_path path)
        (fs_write (temp_path path) (ImageFile (bottom_band ext img)) w))).
Proof.
  intros Hread Hfs Hsave Hretry.
  rewrite read_mrz_with_fallback_run, Hread.
  rewrite (mrz_region_fallback_run ext path (logs [EReadMrz path] w) img Hfs Hsave), Hretry.
  unfold logs, fs_delete, fs_write; simpl. rewrite <- app_assoc. reflexivity.
Qed.

Lemma fallback_when_retry_raises ext path w img e :
  read_mrz_impl ext path (fs w path) = Ret None ->
  fs w path = Some (ImageFile img) ->
  save_error ext (bottom_band ext img) (temp_path path) = None ->
  read_mrz_impl ext (temp_path path) (Some (ImageFile (bottom_band ext img))) = Raise e ->
  read_mrz_with_fallback ext path w =
  (Ret None,
   logs [EReadMrz path; EOpen path; ESave (bottom_band ext img) (temp_path path);
         EReadMrz (temp_path path)]
     (fs_write (temp_path path) (ImageFile (bottom_band ext img)) w)).
Proof.
  intros Hread Hfs Hsave Hretry.
  rewrite read_mrz_with_fallback_run, Hread.
  rewrite (mrz_region_fallback_run ext path (logs [EReadMrz path] w) img Hfs Hsave), Hretry.
  unfold logs, fs_write; simpl. rewrite <- app_assoc. reflexivity.
Qed.

(** Nothing after the MRZ stage touches a file. *)
Lemma pure_final_files ext path w mrz w1 :
  read_mrz_with_fallback ext path w = (Ret mrz, w1) ->
  fs (snd (extract_pure_passport_data ext path w)) = fs w1.
Proof.
  intros H. rewrite extract_pure_run, H, regions_run.
  destruct (fs w1 path) as [[img | bytes] |]; reflexivity.
Qed.

Lemma simplified_final_files ext path w mrz w1 :
  read_mrz_with_fallback ext path w = (Ret mrz, w1) ->
  fs (snd (extract_simplified_passport_data ext path w)) = fs w1.
Proof. intros H. rewrite extract_simplified_run, H. reflexivity. Qed.

(** C3 (the failing path).  The full-image read finds no MRZ, the page
    opens and the crop of its bottom quarter is saved; the read of the crop
    raises.  There is one retry, on that crop, but no removal: the crop
    file is still there when the pure and the simplified extractor
    return. *)
Theorem C3_crop_file_survives_a_raising_retry ext path w img e :
  read_mrz_impl ext path (fs w path) = Ret None ->
  fs w path = Some (ImageFile img) ->
  save_error ext (bottom_band ext img) (temp_path path) = None ->
  read_mrz_impl ext (temp_path path) (Some (ImageFile (bottom_band ext img))) = Raise e ->
  fst (read_mrz_with_fallback ext path w) = Ret None /\
  trace (snd (read_mrz_with_fallback ext path w)) =
    (trace w ++ [EReadMrz path; EOpen path;
                 ESave (bottom_band ext img) (temp_path path);
                 EReadMrz (temp_path path)])%list /\
  fs (snd (extract_pure_passport_data ext path w)) (temp_path path)
    = Some (ImageFile (bottom_band ext img)) /\
  fs (snd (extract_simplified_passport_data ext path w)) (temp_path path)
    = Some (ImageFile (bottom_band ext img)).
Proof.
  intros Hread Hfs Hsave Hretry.
  pose proof (fallback_when_retry_raises ext path w img e Hread Hfs Hsave Hretry) as H.
  rewrite (pure_final_files _ _ _ _ _ H), (simplified_final_files _ _ _ _ _ H), H.
  cbn [fst snd logs fs_write fs trace]. rewrite String.eqb_refl. auto.
Qed.

Lemma C3_crop_file_survives_a_raising_retry_witness :
  let ext := demo_ext reader_failing_on_crop no_text in
  fs (snd (extract_pure_passport_data ext "scan.png" (demo_world "scan.png")))
     "scan_temp_mrz.png"
  = Some (ImageFile (Crop demo_scan (0, 1050, 1000, 1400)%Z)).
Proof.
  exact (proj1 (proj2 (proj2
    (C3_crop_file_survives_a_raising_retry
       (demo_ext reader_failing_on_crop no_text) "scan.png" (demo_world "scan.png")
       demo_scan "unreadable" eq_refl eq_refl eq_refl eq_refl)))).
Defined.

(** The paths on which the retry does return: the crop file is removed. *)
Lemma crop_file_removed_when_retry_returns ext path w img r :
  read_mrz_impl ext path (fs w path) = Ret None ->
  fs w path = Some (ImageFile img) ->
  save_error ext (bottom_band ext img) (temp_path path) = None ->
  read_mrz_impl ext (temp_path path) (Some (ImageFile (bottom_band ext img))) = Ret r ->
  fst (read_mrz_with_fallback ext path w) = Ret r /\
  trace (snd (read_mrz_with_fallback ext path w)) =
    (trace w ++ [EReadMrz path; EOpen path;
                 ESave (bottom_band ext img) (temp_path path);
                 EReadMrz (temp_path path); ERemove (temp_path path)])%list /\
  fs (snd (extract_pure_passport_data ext path w)) (temp_path path) = None /\
  fs (snd (extract_simplified_passport_data ext path w)) (temp_path path) = None.
Proof.
  intros Hread Hfs Hsave Hretry.
  pose proof (fallback_when_retry_returns ext path w img r Hread Hfs Hsave Hretry) as H.
  rewrite (pure_final_files _ _ _ _ _ H), (simplified_final_files _ _ _ _ _ H), H.
  cbn [fst snd logs fs_delete fs_write fs trace]. rewrite String.eqb_refl. auto.
Qed.

(** ** Where the crop is written *)

Lemma replace_without_occurrence old new : forall s,
  contains old s = false -> replace old new s = s.
Proof.
  unfold replace. induction s as [| c s IH]; intros H; [reflexivity |].
  cbn [contains] in H. apply orb_false_iff in H as [Hp Hc].
  cbn [replace_from]. rewrite Hp. f_equal. auto.
Qed.

Lemma crop_is_not_its_source img : forall b, Crop img b <> img.
Proof.
  induction img as [pixels width height | src IH b0]; intros b H.
  - discriminate.
  - injection H as H _. exact (IH _ H).
Qed.

(** C9 (counterexample).  "a.png.jpg" does not end in ".png", yet the
    replacement finds ".png" inside it: the crop goes to another file and
    the input is left as it was. *)
Lemma C9_png_inside_the_path_spares_the_input :
  ends_with ".png" "a.png.jpg" = false /\
  temp_path "a.png.jpg" = "a_temp_mrz.png.jpg" /\
  temp_path "a.png.jpg" <> "a.png.jpg" /\
  (let w := snd (extract_pure_passport_data (demo_ext no_mrz no_text) "a.png.jpg"
                   (demo_world "a.png.jpg")) in
   In (ESave (Crop demo_scan (0, 1050, 1000, 1400)%Z) "a_temp_mrz.png.jpg") (trace w) /\
   fs w "a.png.jpg" = Some (ImageFile demo_scan)) /\
  (let w := snd (extract_simplified_passport_data (demo_ext no_mrz no_text) "a.png.jpg"
                   (demo_world "a.png.jpg")) in
   In (ESave (Crop demo_scan (0, 1050, 1000, 1400)%Z) "a_temp_mrz.png.jpg") (trace w) /\
   fs w "a.png.jpg" = Some (ImageFile demo_scan)).
Proof.
  repeat split; try (vm_compute; reflexivity); try discriminate;
    vm_compute; auto.
Qed.

(** C9 (amended).  When the input path contains ".png" nowhere, the
    temporary path is the input path itself.  If then the full-image read
    finds no MRZ, the page opens and the save succeeds, the crop of the
    bottom quarter is written over the input file; the file is removed
    when the retried read returns, and holds the crop when the retried read
    raises.  Either way the input is not left as it was. *)
Theorem C9_path_without_png_is_overwritten ext path w img :
  contains ".png" path = false ->
  read_mrz_impl ext path (fs w path) = Ret None ->
  fs w path = Some (ImageFile img) ->
  save_error ext (bottom_band ext img) path = None ->
  temp_path path = path /\
  In (ESave (bottom_band ext img) path) (trace (snd (read_mrz_with_fallback ext path w))) /\
  (forall final,
     final = fs (snd (extract_pure_passport_data ext path w)) path \/
     final = fs (snd (extract_simplified_passport_data ext path w)) path ->
     final = match read_mrz_impl ext path (Some (ImageFile (bottom_band ext img))) with
             | Ret _ => None
             | Raise _ => Some (ImageFile (bottom_band ext img))
             end /\
     final <> Some (ImageFile img)).
Proof.
  intros Hpng Hread Hfs Hsave.
  assert (Htemp : temp_path path = path)
    by (apply replace_without_occurrence; exact Hpng).
  split; [exact Htemp |].
  rewrite <- Htemp in Hsave.
  destruct (read_mrz_impl ext path (Some (ImageFile (bottom_band ext img))))
    as [r | e] eqn:Hretry.
  - rewrite <- Htemp in Hretry at 1.
    destruct (crop_file_removed_when_retry_returns ext path w img r
                Hread Hfs Hsave Hretry) as (_ & Htrace & Hp & Hs).
    rewrite Htemp in Htrace, Hp, Hs. split.
    + rewrite Htrace. apply in_or_app. right. simpl. auto.
    + intros final [-> | ->]; (split; [assumption | congruence]).
  - rewrite <- Htemp in Hretry at 1.
    pose proof (fallback_when_retry_raises ext path w img e Hread Hfs Hsave Hretry) as H.
    assert (Hp : fs (snd (extract_pure_passport_data ext path w)) path
                 = Some (ImageFile (bottom_band ext img))).
    { rewrite (pure_final_files _ _ _ _ _ H). cbn [logs fs_write fs].
      rewrite Htemp, String.eqb_refl. reflexivity. }
    assert (Hs : fs (snd (extract_simplified_passport_data ext path w)) path
                 = Some (ImageFile (bottom_band ext img))).
    { rewrite (simplified_final_files _ _ _ _ _ H). cbn [logs fs_write fs].
      rewrite Htemp, String.eqb_refl. reflexivity. }
    split.
    + rewrite H. cbn [snd logs trace]. rewrite Htemp.
      apply in_or_app. right. simpl. auto.
    + intros final [-> | ->]; (split; [assumption |]);
        [rewrite Hp | rewrite Hs]; intros [= Hc];
        exact (crop_is_not_its_source _ _ Hc).
Qed.

Lemma C9_path_without_png_is_overwritten_witness :
  let ext := demo_ext no_mrz no_text in
  temp_path "scan.jpg" = "scan.jpg" /\
  fs (snd (extract_pure_passport_data ext "scan.jpg" (demo_world "scan.jpg"))) "scan.jpg"
    = None.
Proof.
  pose proof (C9_path_without_png_is_overwritten (demo_ext no_mrz no_text)
                "scan.jpg" (demo_world "scan.jpg") demo_scan
                eq_refl eq_refl eq_refl eq_refl) as (Htemp & _ & Hfinal).
  split; [exact Htemp |].
  exact (proj1 (Hfinal _ (or_introl eq_refl))).
Defined.

(** ** The arbiter *)

Lemma find_first_upper_middle : forall before c after,
  (forall x, In x before -> region x <> "upper_middle") ->
  region c = "upper_middle" ->
  find (fun candidate => String.eqb (region candidate) "upper_middle")
       (before ++ c :: after) = Some c.
Proof.
  induction before as [| b before IH]; intros c after Hbefore Hc; simpl.
  - now rewrite Hc.
  - destruct (String.eqb (region b) "upper_middle") eqn:E.
    + apply String.eqb_eq in E. exfalso. exact (Hbefore b (or_introl eq_refl) E).
    + apply IH; auto. intros x Hx. apply Hbefore. now right.
Qed.

Lemma find_no_upper_middle : forall cs,
  (forall x, In x cs -> region x <> "upper_middle") ->
  find (fun candidate => String.eqb (region candidate) "upper_middle") cs = None.
Proof.
  induction cs as [| c cs IH]; intros H; simpl; [reflexivity |].
  destruct (String.eqb (region c) "upper_middle") eqn:E.
  - apply String.eqb_eq in E. exfalso. exact (H c (or_introl eq_refl) E).
  - apply IH. intros x Hx. apply H. now right.
Qed.

(** C4.  The arbiter picks the first candidate labelled upper_middle when
    there is one, and otherwise the first candidate of the list; the
    result's single issue_date is the date of that pick, a function of the
    candidate list alone.  On left_side 2021-01-01, upper_middle
    2022-09-03, right_side 2020-05-05 it is 2022-09-03. *)
Theorem C4_arbiter_prefers_upper_middle (candidates : list region_info) :
  (forall before c after,
     candidates = (before ++ c :: after)%list ->
     region c = "upper_middle" ->
     (forall x, In x before -> region x <> "upper_middle") ->
     best_candidate candidates = Some c) /\
  (forall first rest,
     candidates = first :: rest ->
     (forall x, In x candidates -> region x <> "upper_middle") ->
     best_candidate candidates = Some first) /\
  (forall mrz,
     lookup "issue_date" (pure_result mrz candidates) =
     Some (match best_candidate candidates with
           | Some best => opt_str (date best)
           | None => VNone
           end)) /\
  (forall ext path w mrz w1,
     read_mrz_with_fallback ext path w = (Ret mrz, w1) ->
     exists sampled,
       fst (extract_issue_date_from_image_regions ext path w1) = Ret sampled /\
       fst (extract_pure_passport_data ext path w) = Ret (pure_result mrz sampled)) /\
  best_candidate three_candidates = Some (candidate "upper_middle" (Some "2022-09-03")) /\
  (forall mrz,
     lookup "issue_date" (pure_result mrz three_candidates) = Some (VStr "2022-09-03")).
Proof.
  repeat split.
  - intros before c after -> Hc Hbefore. unfold best_candidate.
    rewrite (find_first_upper_middle before c after Hbefore Hc).
    destruct before; reflexivity.
  - intros first rest -> Hnone. unfold best_candidate.
    now rewrite (find_no_upper_middle _ Hnone).
  - intros mrz. apply pure_result_issue_date.
  - intros ext path w mrz w1 H.
    rewrite extract_pure_run, H, regions_run.
    destruct (fs w1 path) as [[img | bytes] |]; eexists; split; reflexivity.
  - intros mrz. rewrite pure_result_issue_date. reflexivity.
Qed.

Lemma C4_arbiter_prefers_upper_middle_witness :
  best_candidate three_candidates = Some (candidate "upper_middle" (Some "2022-09-03")).
Proof.
  refine (proj1 (C4_arbiter_prefers_upper_middle three_candidates)
            [candidate "left_side" (Some "2021-01-01")]
            (candidate "upper_middle" (Some "2022-09-03"))
            [candidate "right_side" (Some "2020-05-05")]
            eq_refl eq_refl _).
  intros x [<- | []]. discriminate.
Defined.

(** ** What reaches the arbiter *)

(** C5.  The pure extractor where the claim fails: the upper_middle region
    shows no date and the left_side region shows "03 SEP /SEPT 22".  The
    sampler puts the dateless upper_middle entry into the candidate list,
    the arbiter picks it without looking at its date, and the result has no
    issue date although left_side carried 2022-09-03; the arbiter's own
    comment says "Prefer dates from upper_middle region, then others". *)
Lemma C5_dateless_entry_reaches_the_arbiter :
  let ext := demo_ext no_mrz date_on_left_side in
  let sampled :=
    [ {| region := "upper_middle"; text := ""; date := None |};
      {| region := "left_side"; text := "03 SEP /SEPT 22"; date := Some "2022-09-03" |};
      {| region := "right_side"; text := ""; date := None |} ] in
  fst (extract_issue_date_from_image_regions ext "scan.png" (demo_world "scan.png"))
    = Ret sampled /\
  In {| region := "upper_middle"; text := ""; date := None |} sampled /\
  best_candidate sampled = Some {| region := "upper_middle"; text := ""; date := None |} /\
  exists result,
    fst (extract_pure_passport_data ext "scan.png" (demo_world "scan.png")) = Ret result /\
    lookup "issue_date_candidates" result = Some (VList (map region_info_value sampled)) /\
    lookup "issue_date" result = Some VNone.
Proof.
  cbv zeta.
  split; [vm_compute; reflexivity |].
  split; [now left |].
  split; [vm_compute; reflexivity |].
  eexists. repeat split; vm_compute; reflexivity.
Qed.

(** ** OCR failures *)

(** C7 (counterexample).  First, the file is not an image, so the OCR
    stage fails as a whole: the full extractor records it under ocr_error,
    the pure extractor returns a result without that field, its candidate
    list empty.  Second, the OCR engine is unavailable and every call
    raises: each failure is swallowed on its own and the full extractor
    records nothing either. *)
Lemma C7_pure_extractor_records_no_ocr_error :
  (let ext := demo_ext (fun _ => Ret (Some demo_mrz)) no_text in
   let w := text_file_world "scan.png" in
   (exists result,
      fst (extract_pure_passport_data ext "scan.png" w) = Ret result /\
      lookup "ocr_error" result = None /\
      lookup "issue_date_candidates" result = Some (VList []) /\
      lookup "success" result = Some (VBool true)) /\
   (exists result,
      fst (extract_full_passport_data ext "scan.png" w) = Ret result /\
      lookup "ocr_error" result = Some (VStr (not_an_image "scan.png")))) /\
  (let ext := demo_ext no_mrz ocr_unavailable in
   let w := demo_world "scan.png" in
   (exists result,
      fst (extract_full_passport_data ext "scan.png" w) = Ret result /\
      lookup "ocr_error" result = None /\
      lookup "full_text_ocr" result = Some (VStr "")) /\
   (exists result,
      fst (extract_pure_passport_data ext "scan.png" w) = Ret result /\
      lookup "ocr_error" result = None /\
      lookup "issue_date_candidates" result = Some (VList []))).
Proof.
  cbv zeta. repeat split; eexists; repeat split; vm_compute; reflexivity.
Qed.

Lemma ocr_texts_all_raise ext img configs :
  (forall config, In config configs ->
                  exists e, image_to_string_impl ext img config = Raise e) ->
  ocr_texts ext img configs = [].
Proof.
  induction configs as [| c configs IH]; intros H; [reflexivity |].
  unfold ocr_texts; simpl.
  destruct (H c (or_introl eq_refl)) as (e & ->). simpl.
  apply IH. intros config Hin. apply H. now right.
Qed.

(** C7 (amended).  An OCR call that raises is skipped and the remaining
    configurations or regions are still sampled: each loop makes all its
    OCR calls and never raises.  When the OCR stage fails as a whole
    because the image does not open (the scan of the text cannot raise,
    see [extract_returns]), the full and the simplified extractor return
    the result built so far, MRZ fields included, with the message under
    ocr_error.  When every OCR call raises, each is swallowed on its own
    and nothing is recorded.  The pure extractor has no ocr_error field:
    there a stage failure gives an empty candidate list, again with the MRZ
    fields in place. *)
Theorem C7_ocr_failures_do_not_abort ext path w :
  (forall img acc,
     ocr_configs ext img [psm6; psm8; psm7] acc w =
     (Ret (acc ++ ocr_texts ext img [psm6; psm8; psm7])%list,
      logs [EOcr img psm6; EOcr img psm8; EOcr img psm7] w)) /\
  (forall img config configs,
     ocr_texts ext img (config :: configs) =
     match image_to_string_impl ext img config with
     | Ret t => t :: ocr_texts ext img configs
     | Raise _ => ocr_texts ext img configs
     end) /\
  (forall img rs acc,
     sample_regions ext img rs acc w =
     (Ret (acc ++ flat_map (region_entry ext img) rs)%list,
      logs (map (fun r => EOcr (Crop img (snd r)) psm6) rs) w)) /\
  (forall img name b e,
     image_to_string_impl ext (Crop img b) psm6 = Raise e ->
     region_entry ext img (name, b) = []) /\
  (forall mrz,
     read_mrz_impl ext path (fs w path) = Ret mrz ->
     (forall img, fs w path <> Some (ImageFile img)) ->
     fst (extract_full_passport_data ext path w) =
     Ret (dict_set (with_mrz mrz full_initial_result) "ocr_error"
            (VStr (open_error path (fs w path))))) /\
  (forall mrz img,
     read_mrz_impl ext path (fs w path) = Ret mrz ->
     fs w path = Some (ImageFile img) ->
     (forall config, In config [psm6; psm8; psm7] ->
                     exists e, image_to_string_impl ext img config = Raise e) ->
     fst (extract_full_passport_data ext path w) =
     Ret (dict_set (with_mrz mrz full_initial_result) "full_text_ocr" (VStr ""))) /\
  (forall mrz w1,
     read_mrz_with_fallback ext path w = (Ret mrz, w1) ->
     (forall img, fs w1 path <> Some (ImageFile img)) ->
     fst (extract_simplified_passport_data ext path w) =
     Ret (dict_set (with_mrz mrz simplified_initial_result) "ocr_error"
            (VStr (open_error path (fs w1 path))))) /\
  (forall mrz w1,
     read_mrz_with_fallback ext path w = (Ret mrz, w1) ->
     (forall img, fs w1 path <> Some (ImageFile img)) ->
     fst (extract_pure_passport_data ext path w) = Ret (pure_result mrz []) /\
     lookup "ocr_error" (pure_result mrz []) = None /\
     lookup "success" (pure_result mrz []) = Some (VBool (found mrz))) /\
  (forall mrz (init : dict) e k,
     String.eqb k "ocr_error" = false ->
     lookup k (dict_set (with_mrz mrz init) "ocr_error" e) = lookup k (with_mrz mrz init)).
Proof.
  split; [intros img acc; apply ocr_configs_run |].
  split.
  { intros img config configs. unfold ocr_texts; simpl.
    destruct (image_to_string_impl ext img config); reflexivity. }
  split; [intros img rs acc; apply sample_regions_run |].
  split.
  { intros img name b e He. unfold region_entry; simpl. now rewrite He. }
  split.
  { intros mrz Hread Hnot. rewrite extract_full_run, Hread. unfold full_result.
    destruct (fs w path) as [[img | bytes] |]; try reflexivity.
    exfalso. exact (Hnot img eq_refl). }
  split.
  { intros mrz img Hread Hfs Hall. rewrite extract_full_run, Hread, Hfs.
    unfold full_result. cbv zeta.
    rewrite (ocr_texts_all_raise ext img _ Hall). reflexivity. }
  split.
  { intros mrz w1 H Hnot. rewrite extract_simplified_run, H. unfold simplified_result.
    destruct (fs w1 path) as [[img | bytes] |]; try reflexivity.
    exfalso. exact (Hnot img eq_refl). }
  split.
  { intros mrz w1 H Hnot. split; [| split].
    - rewrite extract_pure_run, H, regions_run.
      destruct (fs w1 path) as [[img | bytes] |]; try reflexivity.
      exfalso. exact (Hnot img eq_refl).
    - rewrite pure_result_lookup by reflexivity. now rewrite with_mrz_other.
    - rewrite pure_result_lookup by reflexivity. now rewrite with_mrz_success. }
  intros mrz init e k Hk. now rewrite lookup_dict_set, Hk.
Qed.

Lemma C7_ocr_failures_do_not_abort_witness :
  fst (extract_full_passport_data (demo_ext (fun _ => Ret (Some demo_mrz)) no_text)
         "scan.png" (text_file_world "scan.png"))
  = Ret (dict_set (with_mrz (Some demo_mrz) full_initial_result) "ocr_error"
           (VStr (not_an_image "scan.png"))).
Proof.
  refine (proj1 (proj2 (proj2 (proj2 (proj2
            (C7_ocr_failures_do_not_abort
               (demo_ext (fun _ => Ret (Some demo_mrz)) no_text)
               "scan.png" (text_file_world "scan.png"))))))
            (Some demo_mrz) eq_refl _).
  intros img H. vm_compute in H. discriminate H.
Defined.

(** ** The command line *)

Lemma extract_pure_total ext path w :
  exists result w1 b,
    extract_pure_passport_data ext path w = (Ret result, w1) /\
    lookup "success" result = Some (VBool b).
Proof.
  rewrite extract_pure_run.
  destruct (read_mrz_with_fallback ext path w) as [[mrz | e] w1].
  - rewrite regions_run.
    destruct (fs w1 path) as [[img | bytes] |];
      eexists _, _, (found mrz); (split; [reflexivity |]);
      rewrite pure_result_lookup by reflexivity; now apply with_mrz_success.
  - eexists _, _, false. split; reflexivity.
Qed.

Lemma extract_full_total ext path w :
  exists result w1 b,
    extract_full_passport_data ext path w = (Ret result, w1) /\
    lookup "success" result = Some (VBool b).
Proof.
  rewrite extract_full_run.
  destruct (read_mrz_impl ext path (fs w path)) as [mrz | e].
  - eexists _, _, (found mrz). split; [reflexivity |].
    rewrite full_result_lookup by reflexivity. now apply with_mrz_success.
  - eexists _, _, false. split; reflexivity.
Qed.

Lemma extract_simplified_total ext path w :
  exists result w1 b,
    extract_simplified_passport_data ext path w = (Ret result, w1) /\
    lookup "success" result = Some (VBool b).
Proof.
  rewrite extract_simplified_run.
  destruct (read_mrz_with_fallback ext path w) as [[mrz | e] w1].
  - eexists _, _, (found mrz). split; [reflexivity |].
    rewrite simplified_result_lookup by reflexivity. now apply with_mrz_success.
  - eexists _, _, false. split; reflexivity.
Qed.

(** C8.  Called with one path that names no file, each program prints the
    "Image file not found" record and exits with code 1, and that print is
    the only thing it does: no MRZ read, no OCR call.  Called with a path
    that names a file, it prints the extractor's result and exits with code
    0, never raising; the result always has a success flag, and when the
    extraction fails (the MRZ reader raises) the flag is false and the
    message is in the payload. *)
Theorem C8_missing_file_is_a_usage_error ext prog path w :
  (fs w path = None ->
   let record := VDict [("success", VBool false);
                        ("error", VStr ("Image file not found: " ++ path))] in
   main_pure ext [prog; path] w = (Ret 1%Z, logs [EPrint record] w) /\
   main_full ext [prog; path] w = (Ret 1%Z, logs [EPrint record] w) /\
   main_simplified ext [prog; path] w = (Ret 1%Z, logs [EPrint record] w)) /\
  (fs w path <> None ->
   (exists result w1 b,
      extract_pure_passport_data ext path w = (Ret result, w1) /\
      lookup "success" result = Some (VBool b) /\
      main_pure ext [prog; path] w = (Ret 0%Z, logs [EPrint (VDict result)] w1)) /\
   (exists result w1 b,
      extract_full_passport_data ext path w = (Ret result, w1) /\
      lookup "success" result = Some (VBool b) /\
      main_full ext [prog; path] w = (Ret 0%Z, logs [EPrint (VDict result)] w1)) /\
   (exists result w1 b,
      extract_simplified_passport_data ext path w = (Ret result, w1) /\
      lookup "success" result = Some (VBool b) /\
      main_simplified ext [prog; path] w = (Ret 0%Z, logs [EPrint (VDict result)] w1))) /\
  (forall e,
     read_mrz_impl ext path (fs w path) = Raise e ->
     fst (extract_pure_passport_data ext path w) = Ret (pure_failure e) /\
     fst (extract_full_passport_data ext path w) = Ret (full_failure e) /\
     fst (extract_simplified_passport_data ext path w) = Ret (simplified_failure e) /\
     lookup "success" (pure_failure e) = Some (VBool false) /\
     lookup "success" (full_failure e) = Some (VBool false) /\
     lookup "success" (simplified_failure e) = Some (VBool false)).
Proof.
  split; [| split].
  - intros Hfs record.
    unfold main_pure, main_full, main_simplified; simpl.
    unfold bind, os_path_exists, print, ret. rewrite Hfs. simpl. auto.
  - intros Hfs.
    assert (Hex : match fs w path with Some _ => true | None => false end = true)
      by (destruct (fs w path); [reflexivity | contradiction]).
    split; [| split].
    + destruct (extract_pure_total ext path w) as (result & w1 & b & Hrun & Hb).
      exists result, w1, b. repeat split; auto.
      unfold main_pure; simpl. unfold bind at 1, os_path_exists. rewrite Hex. simpl.
      unfold bind, print, ret. now rewrite Hrun.
    + destruct (extract_full_total ext path w) as (result & w1 & b & Hrun & Hb).
      exists result, w1, b. repeat split; auto.
      unfold main_full; simpl. unfold bind at 1, os_path_exists. rewrite Hex. simpl.
      unfold bind, print, ret. now rewrite Hrun.
    + destruct (extract_simplified_total ext path w) as (result & w1 & b & Hrun & Hb).
      exists result, w1, b. repeat split; auto.
      unfold main_simplified; simpl. unfold bind at 1, os_path_exists. rewrite Hex. simpl.
      unfold bind, print, ret. now rewrite Hrun.
  - intros e He. repeat split.
    + now rewrite extract_pure_run, read_mrz_with_fallback_run, He.
    + now rewrite extract_full_run, He.
    + now rewrite extract_simplified_run, read_mrz_with_fallback_run, He.
Qed.

Lemma C8_missing_file_is_a_usage_error_witness :
  main_pure (demo_ext no_mrz no_text) ["prog"; "missing.png"] (demo_world "scan.png")
  = (Ret 1%Z,
     logs [EPrint (VDict [("success", VBool false);
                          ("error", VStr "Image file not found: missing.png")])]
       (demo_world "scan.png")).
Proof.
  exact (proj1 (proj1 (C8_missing_file_is_a_usage_error (demo_ext no_mrz no_text)
                         "prog" "missing.png" (demo_world "scan.png")) eq_refl)).
Defined.

(** ** Success and confidence *)

Lemma found_iff (mrz : option mrz) : found mrz = true <-> exists m, mrz = Some m.
Proof.
  destruct mrz as [m |]; simpl; split; eauto; try discriminate.
  intros (m & H). discriminate.
Qed.

Lemma flags_follow_record (r : option mrz) :
  (found r = true <-> exists m, @Ret (option mrz) r = Ret (Some m)) /\
  (~ (confidence_of r == 0)%Q <-> exists m, @Ret (option mrz) r = Ret (Some m)).
Proof.
  split.
  - rewrite found_iff. split; intros (m & H); exists m; congruence.
  - rewrite confidence_nonzero, found_iff. split; intros (m & H); exists m; congruence.
Qed.

Lemma flags_without_record (e : string) :
  (false = true <-> exists m, @Raise (option mrz) e = Ret (Some m)) /\
  (~ (0 == 0)%Q <-> exists m, @Raise (option mrz) e = Ret (Some m)).
Proof.
  split; split; try discriminate.
  - intros (m & H). discriminate H.
  - intros H. exfalso. apply H. reflexivity.
  - intros (m & H). discriminate H.
Qed.

(** C10.  Each extractor returns a result whose success flag is true, and
    whose confidence is not zero, exactly when the MRZ reader handed back a
    record (for the pure and the simplified extractor: on the full image
    or on the crop).  With no MRZ and an issue date recovered from the OCR
    text, the result has success false and confidence 0.0 next to the
    populated issue_date. *)
Theorem C10_success_and_confidence_follow_the_mrz ext path w :
  (exists result w1 b q,
     extract_full_passport_data ext path w = (Ret result, w1) /\
     lookup "success" result = Some (VBool b) /\
     lookup "confidence" result = Some (VFloat q) /\
     (b = true <-> exists m, read_mrz_impl ext path (fs w path) = Ret (Some m)) /\
     (~ (q == 0)%Q <-> exists m, read_mrz_impl ext path (fs w path) = Ret (Some m))) /\
  (exists result w1 b q,
     extract_pure_passport_data ext path w = (Ret result, w1) /\
     lookup "success" result = Some (VBool b) /\
     lookup "confidence" result = Some (VFloat q) /\
     (b = true <-> exists m, fst (read_mrz_with_fallback ext path w) = Ret (Some m)) /\
     (~ (q == 0)%Q <-> exists m, fst (read_mrz_with_fallback ext path w) = Ret (Some m))) /\
  (exists result w1 b q,
     extract_simplified_passport_data ext path w = (Ret result, w1) /\
     lookup "success" result = Some (VBool b) /\
     lookup "confidence" result = Some (VFloat q) /\
     (b = true <-> exists m, fst (read_mrz_with_fallback ext path w) = Ret (Some m)) /\
     (~ (q == 0)%Q <-> exists m, fst (read_mrz_with_fallback ext path w) = Ret (Some m))) /\
  (forall img d,
     read_mrz_impl ext path (fs w path) = Ret None ->
     fs w path = Some (ImageFile img) ->
     Full.extract_issue_date_from_text
       (join newline (ocr_texts ext img [psm6; psm8; psm7])) = Ret (Some d) ->
     d <> "" ->
     exists result,
       fst (extract_full_passport_data ext path w) = Ret result /\
       lookup "success" result = Some (VBool false) /\
       lookup "confidence" result = Some (VFloat 0) /\
       lookup "issue_date" result = Some (VStr d)) /\
  (forall w1 sampled best d,
     read_mrz_with_fallback ext path w = (Ret None, w1) ->
     fst (extract_issue_date_from_image_regions ext path w1) = Ret sampled ->
     best_candidate sampled = Some best ->
     date best = Some d ->
     exists result,
       fst (extract_pure_passport_data ext path w) = Ret result /\
       lookup "success" result = Some (VBool false) /\
       lookup "confidence" result = Some (VFloat 0) /\
       lookup "issue_date" result = Some (VStr d)).
Proof.
  split; [| split; [| split; [| split]]].
  - rewrite extract_full_run.
    destruct (read_mrz_impl ext path (fs w path)) as [r | e].
    + eexists _, _, (found r), (confidence_of r).
      split; [reflexivity |].
      rewrite !full_result_lookup by reflexivity.
      rewrite with_mrz_success, with_mrz_confidence by reflexivity.
      split; [reflexivity |]. split; [reflexivity |]. apply flags_follow_record.
    + eexists _, _, false, 0%Q. split; [reflexivity |].
      split; [reflexivity |]. split; [reflexivity |]. apply flags_without_record.
  - rewrite extract_pure_run.
    destruct (read_mrz_with_fallback ext path w) as [[r | e] w1].
    + rewrite regions_run.
      destruct (fs w1 path) as [[img | bytes] |];
        (eexists _, _, (found r), (confidence_of r);
         split; [reflexivity |];
         rewrite !pure_result_lookup by reflexivity;
         rewrite with_mrz_success, with_mrz_confidence by reflexivity;
         split; [reflexivity |]; split; [reflexivity |]; apply flags_follow_record).
    + eexists _, _, false, 0%Q. split; [reflexivity |].
      split; [reflexivity |]. split; [reflexivity |]. apply flags_without_record.
  - rewrite extract_simplified_run.
    destruct (read_mrz_with_fallback ext path w) as [[r | e] w1].
    + eexists _, _, (found r), (confidence_of r).
      split; [reflexivity |].
      rewrite !simplified_result_lookup by reflexivity.
      rewrite with_mrz_success, with_mrz_confidence by reflexivity.
      split; [reflexivity |]. split; [reflexivity |]. apply flags_follow_record.
    + eexists _, _, false, 0%Q. split; [reflexivity |].
      split; [reflexivity |]. split; [reflexivity |]. apply flags_without_record.
  - intros img d Hread Hfs Hd Hne.
    rewrite extract_full_run, Hread, Hfs. eexists. split; [reflexivity |].
    rewrite !full_result_lookup by reflexivity.
    split; [reflexivity |]. split; [reflexivity |].
    unfold full_result. cbv zeta. rewrite Hd.
    assert (Ht : is_truthy (Some d) = true).
    { simpl. destruct (String.eqb d "") eqn:E; [| reflexivity].
      apply String.eqb_eq in E. contradiction. }
    rewrite Ht. unfold set_issue_date.
    rewrite lookup_dict_set_in by reflexivity. now rewrite lookup_dict_set.
  - intros w1 sampled best d Hmrz Hs Hbest Hd.
    rewrite extract_pure_run, Hmrz.
    destruct (extract_issue_date_from_image_regions ext path w1) as [[cs | e] w2];
      cbn [fst] in Hs; [injection Hs as -> | discriminate].
    eexists. split; [reflexivity |].
    rewrite !pure_result_lookup by reflexivity.
    split; [reflexivity |]. split; [reflexivity |].
    rewrite pure_result_issue_date, Hbest, Hd. reflexivity.
Qed.

Lemma C10_success_and_confidence_follow_the_mrz_witness :
  exists result,
    fst (extract_full_passport_data (demo_ext no_mrz date_of_issue_text) "scan.png"
           (demo_world "scan.png")) = Ret result /\
    lookup "success" result = Some (VBool false) /\
    lookup "confidence" result = Some (VFloat 0) /\
    lookup "issue_date" result = Some (VStr "2022-09-03").
Proof.
  refine (proj1 (proj2 (proj2 (proj2
            (C10_success_and_confidence_follow_the_mrz
               (demo_ext no_mrz date_of_issue_text) "scan.png" (demo_world "scan.png")))))
            demo_scan "2022-09-03" eq_refl eq_refl _ _).
  - vm_compute. reflexivity.
  - discriminate.
Defined.

(** * Further properties of the code *)

(** ** Wrong number of arguments *)

(** X1.  Called with anything but exactly one argument, each of the four
    programs prints its usage record and exits with code 1; it looks at no
    file and calls neither the MRZ reader nor the OCR engine. *)
Theorem wrong_argument_count_is_a_usage_error ext report_of v argv w :
  List.length argv <> 2%nat ->
  main_of v ext argv w = (Ret 1%Z, logs [EPrint (usage_record (program_name v))] w) /\
  main_basic ext report_of argv w =
    (Ret 1%Z, logs [EPrint (usage_record "passporteye_extractor.py")] w).
Proof.
  intros Hlen. apply Nat.eqb_neq in Hlen.
  split; [destruct v |];
    unfold main_of, main_full, main_simplified, main_pure, main_basic;
    rewrite Hlen; reflexivity.
Qed.

Lemma wrong_argument_count_is_a_usage_error_witness :
  main_of VPure (demo_ext no_mrz no_text) ["prog"; "a.png"; "b.png"] (demo_world "a.png")
  = (Ret 1%Z,
     logs [EPrint (usage_record "passporteye_pure_extractor.py")] (demo_world "a.png")).
Proof.
  refine (proj1 (wrong_argument_count_is_a_usage_error (demo_ext no_mrz no_text)
                   (fun _ => None) VPure ["prog"; "a.png"; "b.png"]
                   (demo_world "a.png") _)).
  simpl. discriminate.
Defined.

(** ** Which files an extraction touches *)

Lemma mrz_region_fallback_no_crop ext path w :
  (forall img, fs w path = Some (ImageFile img) ->
               save_error ext (bottom_band ext img) (temp_path path) <> None) ->
  mrz_region_fallback ext path w =
  (Ret None,
   match fs w path with
   | Some (ImageFile img) =>
       failed_save ext (bottom_band ext img) (temp_path path) (logs [EOpen path] w)
   | _ => logs [EOpen path] w
   end).
Proof.
  intros Hno. unfold mrz_region_fallback, try_except at 1, bind at 1, image_open.
  destruct (fs w path) as [[img | bytes] |] eqn:Hfs; try reflexivity.
  specialize (Hno img eq_refl). unfold bottom_band, temp_path in *.
  destruct (size img) as [width height]. cbn [fst snd] in *.
  unfold bind at 1, image_save.
  destruct (save_error ext _ _); [reflexivity | congruence].
Qed.

Lemma mrz_stage_frame ext path w p :
  p <> temp_path path ->
  fs (snd (read_mrz_with_fallback ext path w)) p = fs w p.
Proof.
  intros Hp. rewrite read_mrz_with_fallback_run.
  destruct (read_mrz_impl ext path (fs w path)) as [[m |] | e]; try reflexivity.
  destruct (mrz_region_fallback_total ext path (logs [EReadMrz path] w))
    as (r & w' & -> & Hframe).
  exact (Hframe p Hp).
Qed.

Lemma pure_files ext path w :
  fs (snd (extract_pure_passport_data ext path w)) =
  fs (snd (read_mrz_with_fallback ext path w)).
Proof.
  rewrite extract_pure_run.
  destruct (read_mrz_with_fallback ext path w) as [[mrz | e] w1]; [| reflexivity].
  rewrite regions_run. destruct (fs w1 path) as [[img | bytes] |]; reflexivity.
Qed.

Lemma simplified_files ext path w :
  fs (snd (extract_simplified_passport_data ext path w)) =
  fs (snd (read_mrz_with_fallback ext path w)).
Proof.
  rewrite extract_simplified_run.
  destruct (read_mrz_with_fallback ext path w) as [[mrz | e] w1]; reflexivity.
Qed.

(** X2.  The full extractor and the MRZ-only extractor change no file: the
    file system after the call is the one before it.  Each reads the MRZ
    exactly once, as its first external call, and whatever else the full
    extractor does is neither an MRZ read nor a file change. *)
Theorem full_extractor_changes_no_file ext report_of path w :
  fs (snd (extract_full_passport_data ext path w)) = fs w /\
  (exists es,
     trace (snd (extract_full_passport_data ext path w))
       = (trace w ++ EReadMrz path :: es)%list /\
     forallb (fun e => negb (is_read_mrz e) && negb (is_file_change e)) es = true) /\
  snd (extract_mrz_with_passporteye ext report_of path w) = logs [EReadMrz path] w.
Proof.
  split; [| split].
  - rewrite extract_full_run.
    destruct (read_mrz_impl ext path (fs w path)); reflexivity.
  - rewrite extract_full_run.
    destruct (read_mrz_impl ext path (fs w path)) as [mrz | e].
    + exists (ocr_stage_events path (fs w path)). split; [reflexivity |].
      destruct (fs w path) as [[img | bytes] |]; reflexivity.
    + exists []. split; reflexivity.
  - unfold extract_mrz_with_passporteye, try_except, bind, read_mrz.
    destruct (read_mrz_impl ext path (fs w path)) as [[m |] | e]; reflexivity.
Qed.

(** X3.  The pure and the simplified extractor leave every file other
    than the temporary crop path as it was; and when the first MRZ read
    returns a record or raises, they change no file at all. *)
Theorem only_the_crop_path_is_touched ext path w p :
  p <> temp_path path ->
  fs (snd (extract_pure_passport_data ext path w)) p = fs w p /\
  fs (snd (extract_simplified_passport_data ext path w)) p = fs w p /\
  (read_mrz_impl ext path (fs w path) <> Ret None ->
   fs (snd (extract_pure_passport_data ext path w)) = fs w /\
   fs (snd (extract_simplified_passport_data ext path w)) = fs w).
Proof.
  intros Hp. rewrite pure_files, simplified_files.
  split; [now apply mrz_stage_frame |]. split; [now apply mrz_stage_frame |].
  intros Hread. rewrite read_mrz_with_fallback_run.
  destruct (read_mrz_impl ext path (fs w path)) as [[m |] | e];
    try (split; reflexivity). congruence.
Qed.

Lemma only_the_crop_path_is_touched_witness :
  fs (snd (extract_pure_passport_data (demo_ext no_mrz no_text) "scan.png"
             (demo_world "scan.png"))) "scan.png"
  = Some (ImageFile demo_scan).
Proof.
  refine (proj1 (only_the_crop_path_is_touched (demo_ext no_mrz no_text)
                   "scan.png" (demo_world "scan.png") "scan.png" _)).
  vm_compute. discriminate.
Defined.

(** X4.  When the first MRZ read finds nothing and no crop file can be
    produced, the fallback gives up without a second MRZ read and without
    a remove, and the result is "no MRZ".  If the input does not open as an
    image, the only calls are the first read and the attempt to open, and
    no file changes.  If saving the crop raises, the calls are the read,
    the open and the one save, and only the crop path can have changed: to
    whatever the failed save left there. *)
Theorem fallback_without_a_crop_reads_once ext path w :
  read_mrz_impl ext path (fs w path) = Ret None ->
  (forall img, fs w path = Some (ImageFile img) ->
               save_error ext (bottom_band ext img) (temp_path path) <> None) ->
  read_mrz_with_fallback ext path w =
  (Ret None,
   match fs w path with
   | Some (ImageFile img) =>
       failed_save ext (bottom_band ext img) (temp_path path)
         (logs [EReadMrz path; EOpen path] w)
   | _ => logs [EReadMrz path; EOpen path] w
   end) /\
  trace (snd (read_mrz_with_fallback ext path w)) =
  (trace w ++ EReadMrz path :: EOpen path ::
     match fs w path with
     | Some (ImageFile img) => [ESave (bottom_band ext img) (temp_path path)]
     | _ => []
     end)%list /\
  (forall p, p <> temp_path path ->
             fs (snd (read_mrz_with_fallback ext path w)) p = fs w p) /\
  ((forall img, fs w path <> Some (ImageFile img)) ->
   fs (snd (read_mrz_with_fallback ext path w)) = fs w).
Proof.
  intros Hread Hno. rewrite read_mrz_with_fallback_run, Hread.
  rewrite mrz_region_fallback_no_crop by exact Hno.
  cbn [fs logs fold_left log snd].
  destruct (fs w path) as [[img | bytes] |] eqn:Hfs.
  - unfold failed_save, logs, log. cbn [fs trace].
    split; [| split; [| split]].
    + destruct (failed_save_leaves ext _ _ _); unfold fs_write, fs_delete;
        cbn [fs trace]; rewrite <- ?app_assoc; reflexivity.
    + destruct (failed_save_leaves ext _ _ _); unfold fs_write, fs_delete;
        cbn [fs trace snd]; rewrite <- ?app_assoc; reflexivity.
    + intros p Hp. apply String.eqb_neq in Hp.
      destruct (failed_save_leaves ext _ _ _); simpl; now rewrite Hp.
    + intros Hnot. now destruct (Hnot img).
  - unfold logs; cbn [fs trace]. rewrite <- app_assoc. repeat split.
  - unfold logs; cbn [fs trace]. rewrite <- app_assoc. repeat split.
Qed.

Lemma fallback_without_a_crop_reads_once_witness :
  let after := snd (read_mrz_with_fallback failing_save_ext "scan.png"
                      (demo_world "scan.png")) in
  fst (read_mrz_with_fallback failing_save_ext "scan.png" (demo_world "scan.png"))
    = Ret None /\
  trace after = [EReadMrz "scan.png"; EOpen "scan.png";
                 ESave (Crop demo_scan (0, 1050, 1000, 1400)%Z) "scan_temp_mrz.png"] /\
  fs after "scan_temp_mrz.png" = Some (OtherFile "") /\
  fs after "scan.png" = Some (ImageFile demo_scan).
Proof.
  cbv zeta.
  destruct (fallback_without_a_crop_reads_once failing_save_ext "scan.png"
              (demo_world "scan.png") eq_refl) as (Hrun & _).
  { intros img _. discriminate. }
  rewrite Hrun. vm_compute. repeat split; reflexivity.
Defined.

(** ** How often the MRZ reader is called *)

Lemma mrz_stage_events ext path w :
  exists es,
    trace (snd (read_mrz_with_fallback ext path w)) = (trace w ++ EReadMrz path :: es)%list /\
    (List.length (filter is_read_mrz es) <= 1)%nat /\
    (forall p, In (EReadMrz p) es -> p = temp_path path) /\
    forallb (fun e => negb (is_ocr e)) es = true /\
    (read_mrz_impl ext path (fs w path) <> Ret None -> es = []).
Proof.
  rewrite read_mrz_with_fallback_run.
  destruct (read_mrz_impl ext path (fs w path)) as [[m |] | e].
  1, 3: exists []; repeat split; simpl; auto; intros p [].
  destruct (fs w path) as [[img | bytes] |] eqn:Hfs.
  - destruct (save_error ext (bottom_band ext img) (temp_path path)) as [err |] eqn:Hsave.
    + rewrite mrz_region_fallback_no_crop.
      * cbn [fs logs]. rewrite Hfs.
        exists [EOpen path; ESave (bottom_band ext img) (temp_path path)].
        repeat split; simpl; auto.
        -- unfold failed_save. cbn [fs logs].
           destruct (failed_save_leaves ext _ _ _); simpl; rewrite <- !app_assoc;
             reflexivity.
        -- intros p [H | [H | []]]; discriminate H.
        -- congruence.
      * intros img' H. cbn [fs logs] in H. rewrite Hfs in H.
        injection H as <-. rewrite Hsave. discriminate.
    + rewrite (mrz_region_fallback_run ext path (logs [EReadMrz path] w) img Hfs Hsave).
      destruct (read_mrz_impl ext (temp_path path) _) as [r | e].
      * eexists. split; [unfold logs, fs_delete, fs_write; simpl; rewrite <- app_assoc;
                         reflexivity |].
        repeat split; simpl; auto.
        -- intros p [H | [H | [H | [H | []]]]]; try discriminate H. now injection H as <-.
        -- congruence.
      * eexists. split; [unfold logs, fs_delete, fs_write; simpl; rewrite <- app_assoc;
                         reflexivity |].
        repeat split; simpl; auto.
        -- intros p [H | [H | [H | []]]]; try discriminate H. now injection H as <-.
        -- congruence.
  - rewrite mrz_region_fallback_no_crop.
    + cbn [fs logs]. rewrite Hfs.
      exists [EOpen path]. repeat split; simpl; auto.
      * now rewrite <- app_assoc.
      * intros p [H | []]. discriminate H.
      * congruence.
    + intros img' H. cbn [fs logs] in H. rewrite Hfs in H. discriminate H.
  - rewrite mrz_region_fallback_no_crop.
    + cbn [fs logs]. rewrite Hfs.
      exists [EOpen path]. repeat split; simpl; auto.
      * now rewrite <- app_assoc.
      * intros p [H | []]. discriminate H.
      * congruence.
    + intros img' H. cbn [fs logs] in H. rewrite Hfs in H. discriminate H.
Qed.

Lemma filter_app_length {A} (f : A -> bool) (l1 l2 : list A) :
  List.length (filter f (l1 ++ l2)) =
  (List.length (filter f l1) + List.length (filter f l2))%nat.
Proof. now rewrite filter_app, List.length_app. Qed.

Lemma no_reads_in_ocr_stage path f :
  filter is_read_mrz (ocr_stage_events path f) = [].
Proof. destruct f as [[img | bytes] |]; reflexivity. Qed.

(** X5.  The pure and the simplified extractor call the MRZ reader at most
    twice in one extraction: first on the input path and then, at most
    once, on the temporary crop path; never on any other path.  When the
    first read returns a record or raises there is no second read. *)
Theorem mrz_reader_called_at_most_twice ext path w :
  (exists es,
     trace (snd (extract_pure_passport_data ext path w)) = (trace w ++ es)%list /\
     (List.length (filter is_read_mrz es) <= 2)%nat /\
     (forall p, In (EReadMrz p) es -> p = path \/ p = temp_path path) /\
     (read_mrz_impl ext path (fs w path) <> Ret None ->
      List.length (filter is_read_mrz es) = 1%nat)) /\
  (exists es,
     trace (snd (extract_simplified_passport_data ext path w)) = (trace w ++ es)%list /\
     (List.length (filter is_read_mrz es) <= 2)%nat /\
     (forall p, In (EReadMrz p) es -> p = path \/ p = temp_path path) /\
     (read_mrz_impl ext path (fs w path) <> Ret None ->
      List.length (filter is_read_mrz es) = 1%nat)).
Proof.
  destruct (mrz_stage_events ext path w) as (es & Htrace & Hcount & Hpaths & _ & Hone).
  assert (Hgen : forall tail,
             filter is_read_mrz tail = [] ->
             (List.length (filter is_read_mrz (EReadMrz path :: es ++ tail)) <= 2)%nat /\
             (forall p, In (EReadMrz p) (EReadMrz path :: es ++ tail) ->
                        p = path \/ p = temp_path path) /\
             (read_mrz_impl ext path (fs w path) <> Ret None ->
              List.length (filter is_read_mrz (EReadMrz path :: es ++ tail)) = 1%nat)).
  { intros tail Htail. cbn [filter is_read_mrz List.length].
    rewrite filter_app_length, Htail. cbn [List.length]. repeat split.
    - lia.
    - intros p [[= <-] | Hin]; [now left |].
      apply in_app_or in Hin as [Hin | Hin]; [right; now apply Hpaths |].
      exfalso. assert (Hf : In (EReadMrz p) (filter is_read_mrz tail))
        by (apply filter_In; split; [exact Hin | reflexivity]).
      rewrite Htail in Hf. destruct Hf.
    - intros Hread. rewrite (Hone Hread). reflexivity. }
  split.
  - rewrite extract_pure_run.
    destruct (read_mrz_with_fallback ext path w) as [[mrz | e] w1]; cbn [snd] in Htrace.
    + rewrite regions_run.
      destruct (fs w1 path) as [[img | bytes] |]; cbn [snd logs trace]; rewrite Htrace;
        rewrite <- app_assoc; eexists; (split; [reflexivity |]);
        apply Hgen; reflexivity.
    + cbn [snd]. pose proof (Hgen [] eq_refl) as Hg. rewrite app_nil_r in Hg.
      exists (EReadMrz path :: es). split; [exact Htrace | exact Hg].
  - rewrite extract_simplified_run.
    destruct (read_mrz_with_fallback ext path w) as [[mrz | e] w1]; cbn [snd] in Htrace.
    + cbn [snd logs trace]. rewrite Htrace, <- app_assoc.
      eexists; (split; [reflexivity |]). apply Hgen. apply no_reads_in_ocr_stage.
    + cbn [snd]. pose proof (Hgen [] eq_refl) as Hg. rewrite app_nil_r in Hg.
      exists (EReadMrz path :: es). split; [exact Htrace | exact Hg].
Qed.

Lemma mrz_reader_called_at_most_twice_witness :
  exists es,
    trace (snd (extract_pure_passport_data
                  (demo_ext (fun _ => Ret (Some demo_mrz)) no_text) "scan.png"
                  (demo_world "scan.png")))
      = (trace (demo_world "scan.png") ++ es)%list /\
    List.length (filter is_read_mrz es) = 1%nat.
Proof.
  destruct (proj1 (mrz_reader_called_at_most_twice
                     (demo_ext (fun _ => Ret (Some demo_mrz)) no_text) "scan.png"
                     (demo_world "scan.png")))
    as (es & Htrace & _ & _ & Hone).
  exists es. split; [exact Htrace |]. apply Hone. discriminate.
Defined.

(** ** A path that does contain ".png" *)

Lemma replace_from_length_ge old new :
  (1 <= String.length old <= String.length new)%nat ->
  forall s k,
    (String.length s <= String.length (replace_from old new k s) + k)%nat.
Proof.
  intros Hlen. induction s as [| c s IH]; intros k; [simpl; lia |].
  cbn [replace_from]. destruct k as [| k].
  - destruct (prefix old (String c s)).
    + rewrite length_app. specialize (IH (String.length old - 1)%nat).
      cbn [String.length]. lia.
    + cbn [String.length]. specialize (IH 0%nat). lia.
  - specialize (IH k). cbn [String.length]. lia.
Qed.

Lemma replace_grows old new :
  (String.length old < String.length new)%nat ->
  forall s, contains old s = true -> old <> "" ->
            (String.length s < String.length (replace old new s))%nat.
Proof.
  intros Hlen. unfold replace.
  induction s as [| c s IH]; intros Hc Hne.
  - simpl in Hc. destruct old; [congruence | discriminate].
  - cbn [contains] in Hc. cbn [replace_from].
    destruct (prefix old (String c s)) eqn:Hp.
    + rewrite length_app.
      destruct old as [| o old]; [congruence |].
      assert (Hb : (1 <= String.length (String o old) <= String.length new)%nat)
        by (cbn [String.length] in *; lia).
      pose proof (replace_from_length_ge (String o old) new Hb s
                    (String.length (String o old) - 1)%nat) as Hge.
      cbn [String.length] in *. lia.
    + cbn [orb] in Hc. cbn [String.length]. specialize (IH Hc Hne). lia.
Qed.

(** X6.  When the input path contains ".png", the temporary crop path is
    a different, longer path, so neither the pure nor the simplified
    extractor overwrites or removes the input file: after the call the
    input path holds what it held before. *)
Theorem path_with_png_is_left_alone ext path w :
  contains ".png" path = true ->
  temp_path path <> path /\
  (String.length path < String.length (temp_path path))%nat /\
  fs (snd (extract_pure_passport_data ext path w)) path = fs w path /\
  fs (snd (extract_simplified_passport_data ext path w)) path = fs w path.
Proof.
  intros Hc.
  assert (Hlen : (String.length path < String.length (temp_path path))%nat).
  { unfold temp_path. apply replace_grows; [simpl; lia | exact Hc | discriminate]. }
  assert (Hne : path <> temp_path path).
  { intros Heq. rewrite <- Heq in Hlen. lia. }
  split; [congruence |]. split; [exact Hlen |].
  rewrite pure_files, simplified_files.
  split; apply mrz_stage_frame; exact Hne.
Qed.

Lemma path_with_png_is_left_alone_witness :
  temp_path "scan.png" <> "scan.png" /\
  fs (snd (extract_pure_passport_data (demo_ext no_mrz no_text) "scan.png"
             (demo_world "scan.png"))) "scan.png"
  = Some (ImageFile demo_scan).
Proof.
  pose proof (path_with_png_is_left_alone (demo_ext no_mrz no_text) "scan.png"
                (demo_world "scan.png") eq_refl) as (Hne & _ & Hp & _).
  split; [exact Hne | exact Hp].
Defined.

(** ** The candidates of the pure extractor *)

Lemma take_length n : forall s, (String.length (take n s) <= n)%nat.
Proof.
  unfold take. induction n as [| n IH]; intros s.
  - destruct s; simpl; lia.
  - destruct s as [| c s]; simpl; [lia |]. specialize (IH s). lia.
Qed.

Lemma region_entry_bounds ext img r c :
  In c (region_entry ext img r) ->
  region c = fst r /\ (String.length (text c) <= 200)%nat.
Proof.
  unfold region_entry.
  destruct (image_to_string_impl ext (Crop img (snd r)) psm6) as [t | e]; [| intros []].
  destruct (Pure.extract_issue_date_from_text t) as [d | e]; [| intros []].
  intros [<- | []]. simpl. split; [reflexivity | apply take_length].
Qed.

Lemma region_entry_at_most_one ext img r :
  (List.length (region_entry ext img r) <= 1)%nat.
Proof.
  unfold region_entry.
  destruct (image_to_string_impl ext (Crop img (snd r)) psm6) as [t | e]; [| simpl; lia].
  destruct (Pure.extract_issue_date_from_text t) as [d | e]; simpl; lia.
Qed.

(** X7.  Region sampling never raises and returns at most three
    candidates; each is labelled upper_middle, left_side or right_side and
    carries at most 200 characters of text.  When the input does not open
    as an image the list is empty. *)
Theorem region_candidates_are_bounded ext path w :
  exists sampled,
    fst (extract_issue_date_from_image_regions ext path w) = Ret sampled /\
    (List.length sampled <= 3)%nat /\
    (forall c, In c sampled ->
               In (region c) ["upper_middle"; "left_side"; "right_side"] /\
               (String.length (text c) <= 200)%nat) /\
    ((forall img, fs w path <> Some (ImageFile img)) -> sampled = []).
Proof.
  rewrite regions_run.
  destruct (fs w path) as [[img | bytes] |].
  - eexists. split; [reflexivity |]. cbn [regions flat_map]. rewrite app_nil_r.
    split; [| split].
    + rewrite !List.length_app.
      pose proof (region_entry_at_most_one ext img
        ("upper_middle", (0, scale ext (snd (size img)) (3 # 10)%Q, fst (size img),
                          scale ext (snd (size img)) (7 # 10)%Q)%Z)).
      pose proof (region_entry_at_most_one ext img
        ("left_side", (0, scale ext (snd (size img)) (4 # 10)%Q,
                       scale ext (fst (size img)) (6 # 10)%Q,
                       scale ext (snd (size img)) (8 # 10)%Q)%Z)).
      pose proof (region_entry_at_most_one ext img
        ("right_side", (scale ext (fst (size img)) (4 # 10)%Q,
                        scale ext (snd (size img)) (4 # 10)%Q, fst (size img),
                        scale ext (snd (size img)) (8 # 10)%Q))).
      lia.
    + intros c Hin.
      apply in_app_or in Hin as [Hin | Hin];
        [| apply in_app_or in Hin as [Hin | Hin]];
        apply region_entry_bounds in Hin as [-> Hlen]; simpl; auto.
    + intros Hno. exfalso. exact (Hno img eq_refl).
  - exists []. repeat split; simpl; auto; try lia; contradiction.
  - exists []. repeat split; simpl; auto; try lia; contradiction.
Qed.

Lemma region_candidates_are_bounded_witness :
  exists sampled,
    fst (extract_issue_date_from_image_regions (demo_ext no_mrz no_text) "notes.txt"
           (text_file_world "notes.txt")) = Ret sampled /\
    sampled = [].
Proof.
  destruct (region_candidates_are_bounded (demo_ext no_mrz no_text) "notes.txt"
              (text_file_world "notes.txt")) as (sampled & Hrun & _ & _ & Hempty).
  exists sampled. split; [exact Hrun |]. apply Hempty.
  intros img H. vm_compute in H. discriminate H.
Defined.

(** X8.  In the pure extractor the upper_middle region alone decides the
    issue date whenever its OCR call returns: the result's issue_date is
    what the cascade finds in that region's text, a date or nothing,
    whatever the left_side and right_side regions show. *)
Theorem upper_middle_alone_decides ext path w mrz w1 img t :
  read_mrz_with_fallback ext path w = (Ret mrz, w1) ->
  fs w1 path = Some (ImageFile img) ->
  image_to_string_impl ext
    (Crop img (0, scale ext (snd (size img)) (3 # 10)%Q, fst (size img),
               scale ext (snd (size img)) (7 # 10)%Q)%Z) psm6 = Ret t ->
  exists result d,
    fst (extract_pure_passport_data ext path w) = Ret result /\
    Pure.extract_issue_date_from_text t = Ret d /\
    lookup "issue_date" result = Some (opt_str d).
Proof.
  intros Hmrz Hfs Ht.
  destruct (extract_returns VPure t) as (d & Hd). simpl in Hd.
  rewrite extract_pure_run, Hmrz, regions_run, Hfs.
  eexists _, d. split; [reflexivity |]. split; [exact Hd |].
  rewrite pure_result_issue_date.
  cbn [regions flat_map]. unfold region_entry at 1. cbn [fst snd].
  rewrite Ht, Hd. reflexivity.
Qed.

Lemma upper_middle_alone_decides_witness :
  exists result d,
    fst (extract_pure_passport_data (demo_ext no_mrz date_on_left_side) "scan.png"
           (demo_world "scan.png")) = Ret result /\
    Pure.extract_issue_date_from_text "" = Ret d /\
    lookup "issue_date" result = Some (opt_str d).
Proof.
  refine (upper_middle_alone_decides (demo_ext no_mrz date_on_left_side) "scan.png"
            (demo_world "scan.png") None _ demo_scan "" _ _ eq_refl).
  - vm_compute. reflexivity.
  - vm_compute. reflexivity.
Defined.

(** ** After the input was overwritten *)

(** X9.  For an input path that contains ".png" nowhere, once the fallback
    has run to the end (no MRZ on the full image, the page opens, the
    crop is saved, the retried read returns), the input file is gone
    before the issue date is looked for: the simplified extractor reports
    "No such file" under ocr_error and finds no issue date, the pure
    extractor returns an empty candidate list. *)
Theorem ocr_stage_finds_no_file_after_overwrite ext path w img r :
  contains ".png" path = false ->
  read_mrz_impl ext path (fs w path) = Ret None ->
  fs w path = Some (ImageFile img) ->
  save_error ext (bottom_band ext img) path = None ->
  read_mrz_impl ext path (Some (ImageFile (bottom_band ext img))) = Ret r ->
  (exists result,
     fst (extract_simplified_passport_data ext path w) = Ret result /\
     lookup "ocr_error" result = Some (VStr (no_such_file path)) /\
     lookup "issue_date" result = Some VNone) /\
  (exists result,
     fst (extract_pure_passport_data ext path w) = Ret result /\
     lookup "issue_date_candidates" result = Some (VList []) /\
     lookup "issue_date" result = Some VNone).
Proof.
  intros Hpng Hread Hfs Hsave Hretry.
  assert (Htemp : temp_path path = path)
    by (apply replace_without_occurrence; exact Hpng).
  rewrite <- Htemp in Hsave. rewrite <- Htemp in Hretry at 1.
  pose proof (fallback_when_retry_returns ext path w img r Hread Hfs Hsave Hretry) as H.
  split.
  - rewrite extract_simplified_run, H. cbn [logs fs_delete fs_write fs].
    rewrite Htemp, String.eqb_refl.
    eexists. split; [reflexivity |]. unfold simplified_result. cbv zeta.
    rewrite !lookup_dict_set. cbn [open_error].
    split; [reflexivity |]. cbn [String.eqb Ascii.eqb Bool.eqb].
    now rewrite with_mrz_other.
  - rewrite extract_pure_run, H, regions_run. cbn [logs fs_delete fs_write fs].
    rewrite Htemp, String.eqb_refl.
    eexists. split; [reflexivity |].
    rewrite pure_result_issue_date. unfold pure_result. cbn [best_candidate map].
    now rewrite lookup_dict_set.
Qed.

Lemma ocr_stage_finds_no_file_after_overwrite_witness :
  exists result,
    fst (extract_simplified_passport_data (demo_ext no_mrz date_of_issue_text)
           "scan.jpg" (demo_world "scan.jpg")) = Ret result /\
    lookup "ocr_error" result = Some (VStr (no_such_file "scan.jpg")) /\
    lookup "issue_date" result = Some VNone.
Proof.
  exact (proj1 (ocr_stage_finds_no_file_after_overwrite
                  (demo_ext no_mrz date_of_issue_text) "scan.jpg" (demo_world "scan.jpg")
                  demo_scan None eq_refl eq_refl eq_refl eq_refl eq_refl)).
Defined.

(** ** The MRZ portion of a result *)

Lemma split_on_not_nil sep s : split_on sep s <> [].
Proof.
  destruct s as [| c s]; simpl; [discriminate |].
  destruct (Ascii.eqb c sep); [discriminate |].
  destruct (split_on sep s); discriminate.
Qed.

Lemma join_cons sep p ps :
  ps <> [] -> join sep (p :: ps) = p ++ sep ++ join sep ps.
Proof. destruct ps; [congruence | reflexivity]. Qed.

Lemma join_split_on c : forall s,
  join (String c EmptyString) (split_on c s) = s.
Proof.
  induction s as [| a s IH]; [reflexivity |].
  cbn [split_on]. destruct (Ascii.eqb a c) eqn:E.
  - apply Ascii.eqb_eq in E. subst a.
    rewrite join_cons by apply split_on_not_nil. rewrite IH. reflexivity.
  - destruct (split_on c s) as [| p [| q ps]] eqn:Es.
    + exfalso. exact (split_on_not_nil c s Es).
    + simpl in IH. simpl. now rewrite IH.
    + change (String a (join (String c "") (p :: q :: ps)) = String a s).
      now rewrite IH.
Qed.

Lemma split_on_no_separator c : forall s line,
  In line (split_on c s) -> all_chars (fun a => negb (Ascii.eqb a c)) line = true.
Proof.
  induction s as [| a s IH]; intros line Hin.
  - destruct Hin as [<- | []]. reflexivity.
  - cbn [split_on] in Hin. destruct (Ascii.eqb a c) eqn:E.
    + destruct Hin as [<- | Hin]; [reflexivity | now apply IH].
    + destruct (split_on c s) as [| p ps] eqn:Es.
      * exfalso. exact (split_on_not_nil c s Es).
      * destruct Hin as [<- | Hin].
        -- simpl. rewrite E. simpl. apply IH. now left.
        -- apply IH. now right.
Qed.

Lemma with_mrz_fields_lines m (init : dict) code :
  mrz_code m = Some code ->
  lookup "mrz_lines" (with_mrz_fields m init) =
  Some (VList (map VStr (split_on "010" (strip code)))).
Proof.
  intros Hcode. unfold with_mrz_fields. rewrite Hcode.
  now rewrite lookup_dict_set.
Qed.

Lemma with_mrz_fields_raw_text m (init : dict) :
  lookup "raw_text" (with_mrz_fields m init) =
  Some (VStr (match mrz_code m with Some code => code | None => "" end)).
Proof.
  unfold with_mrz_fields, dict_update. cbn [fold_left fst snd].
  destruct (mrz_code m); rewrite ?lookup_dict_set; reflexivity.
Qed.

(** X10.  When the MRZ reader returns a record with its text, the full
    extractor's mrz_lines are that text, stripped and cut at the newlines:
    there is at least one line, no line holds a newline, and joining the
    lines with newlines gives back the stripped raw_text.  The OCR stage
    does not alter either field. *)
Theorem mrz_lines_rebuild_the_raw_text ext path w m code :
  read_mrz_impl ext path (fs w path) = Ret (Some m) ->
  mrz_code m = Some code ->
  exists result lines,
    fst (extract_full_passport_data ext path w) = Ret result /\
    lookup "raw_text" result = Some (VStr code) /\
    lookup "mrz_lines" result = Some (VList (map VStr lines)) /\
    lines <> [] /\
    join newline lines = strip code /\
    (forall line, In line lines ->
                  all_chars (fun a => negb (Ascii.eqb a "010")) line = true).
Proof.
  intros Hread Hcode. rewrite extract_full_run, Hread.
  exists (full_result ext path (Some m) (fs w path)), (split_on "010" (strip code)).
  split; [reflexivity |].
  rewrite !full_result_lookup by reflexivity. cbn [with_mrz].
  rewrite with_mrz_fields_raw_text, Hcode.
  rewrite (with_mrz_fields_lines m _ code Hcode).
  repeat split.
  - apply split_on_not_nil.
  - apply join_split_on.
  - apply split_on_no_separator.
Qed.

Lemma mrz_lines_rebuild_the_raw_text_witness :
  exists result lines,
    fst (extract_full_passport_data (demo_ext (fun _ => Ret (Some demo_mrz)) no_text)
           "scan.png" (demo_world "scan.png")) = Ret result /\
    lookup "mrz_lines" result = Some (VList (map VStr lines)) /\
    join newline lines = strip "P<UTO".
Proof.
  destruct (mrz_lines_rebuild_the_raw_text
              (demo_ext (fun _ => Ret (Some demo_mrz)) no_text)
              "scan.png" (demo_world "scan.png") demo_mrz "P<UTO" eq_refl eq_refl)
    as (result & lines & Hrun & _ & Hlines & _ & Hjoin & _).
  exists result, lines. auto.
Defined.

Lemma sub_dict_dict_set k k' v (d : dict) :
  String.eqb k k' = false -> sub_dict k (dict_set d k' v) = sub_dict k d.
Proof. intros E. unfold sub_dict. now rewrite lookup_dict_set, E. Qed.

Lemma sub_dict_set_issue_date k v (result : dict) :
  String.eqb k "issueDate" = false ->
  lookup k (sub_dict "extracted_data" (set_issue_date result v)) =
  lookup k (sub_dict "extracted_data" result).
Proof.
  intros E. unfold set_issue_date, dict_set_in.
  rewrite lookup_dict_set. cbn [String.eqb Ascii.eqb Bool.eqb].
  destruct (lookup "extracted_data" result) as [[| | | | | inner] |] eqn:El;
    try (rewrite sub_dict_dict_set by reflexivity; reflexivity).
  unfold sub_dict at 1. rewrite lookup_dict_set. cbn [String.eqb Ascii.eqb Bool.eqb].
  rewrite lookup_dict_set, E. unfold sub_dict. now rewrite El.
Qed.

Lemma issue_date_stored v (result : dict) inner :
  lookup "extracted_data" result = Some (VDict inner) ->
  lookup "issue_date" (set_issue_date result v) = Some v /\
  lookup "issueDate" (sub_dict "extracted_data" (set_issue_date result v)) = Some v.
Proof.
  intros El. unfold set_issue_date. split.
  - rewrite lookup_dict_set_in by reflexivity. now rewrite lookup_dict_set.
  - unfold dict_set_in. rewrite lookup_dict_set. cbn [String.eqb Ascii.eqb Bool.eqb].
    rewrite El. unfold sub_dict. rewrite lookup_dict_set.
    cbn [String.eqb Ascii.eqb Bool.eqb]. now rewrite lookup_dict_set.
Qed.

Lemma with_mrz_extracted_data mrz (init : dict) :
  lookup "extracted_data" init = Some (VDict []) ->
  lookup "extracted_data" (with_mrz mrz init) =
  Some (VDict (match mrz with Some m => copied_fields m | None => [] end)).
Proof.
  intros Hinit. destruct mrz as [m |]; [| exact Hinit]. cbn [with_mrz].
  unfold with_mrz_fields, dict_update. cbn [fold_left fst snd].
  destruct (mrz_code m); rewrite ?lookup_dict_set; reflexivity.
Qed.

Lemma with_mrz_valid mrz (init : dict) :
  lookup "valid" init = Some (VBool false) ->
  lookup "valid" (with_mrz mrz init) =
  Some (VBool (match mrz with Some m => valid m | None => false end)).
Proof.
  intros Hinit. destruct mrz as [m |]; [| exact Hinit]. cbn [with_mrz].
  unfold with_mrz_fields, dict_update. cbn [fold_left fst snd].
  destruct (mrz_code m); rewrite ?lookup_dict_set; reflexivity.
Qed.

Lemma copied_fields_lookup m k mk :
  In (k, mk) mrz_field_names ->
  lookup k (copied_fields m) = Some (VStr (get (to_dict m) mk)) /\
  String.eqb k "issueDate" = false.
Proof.
  intros Hin. simpl in Hin.
  repeat (destruct Hin as [[= <- <-] | Hin]; [split; reflexivity |]).
  destruct Hin.
Qed.

Lemma full_result_fields ext path mrz f k :
  String.eqb k "issueDate" = false ->
  lookup k (sub_dict "extracted_data" (full_result ext path mrz f)) =
  lookup k (match mrz with Some m => copied_fields m | None => [] end).
Proof.
  intros E.
  assert (Hbase : sub_dict "extracted_data" (with_mrz mrz full_initial_result) =
                  match mrz with Some m => copied_fields m | None => [] end).
  { unfold sub_dict. now rewrite with_mrz_extracted_data. }
  unfold full_result.
  destruct f as [[img | bytes] |]; cbv zeta;
    try (rewrite sub_dict_dict_set by reflexivity; now rewrite Hbase).
  destruct (Full.extract_issue_date_from_text _) as [d | e].
  - destruct (is_truthy d); rewrite ?(sub_dict_set_issue_date _ _ _ E);
      rewrite sub_dict_dict_set by reflexivity; now rewrite Hbase.
  - rewrite !sub_dict_dict_set by reflexivity. now rewrite Hbase.
Qed.

Lemma simplified_result_fields ext path mrz f k :
  String.eqb k "issueDate" = false ->
  lookup k (sub_dict "extracted_data" (simplified_result ext path mrz f)) =
  lookup k (match mrz with Some m => copied_fields m | None => [] end).
Proof.
  intros E.
  assert (Hbase : sub_dict "extracted_data" (with_mrz mrz simplified_initial_result) =
                  match mrz with Some m => copied_fields m | None => [] end).
  { unfold sub_dict. now rewrite with_mrz_extracted_data. }
  unfold simplified_result.
  destruct f as [[img | bytes] |]; cbv zeta;
    try (rewrite sub_dict_dict_set by reflexivity; now rewrite Hbase).
  destruct (Simplified.extract_issue_date_from_text _) as [d | e].
  - destruct (is_truthy d); rewrite ?(sub_dict_set_issue_date _ _ _ E);
      now rewrite Hbase.
  - rewrite sub_dict_dict_set by reflexivity. now rewrite Hbase.
Qed.

Lemma pure_result_fields mrz candidates k :
  String.eqb k "issueDate" = false ->
  lookup k (sub_dict "extracted_data" (pure_result mrz candidates)) =
  lookup k (match mrz with Some m => copied_fields m | None => [] end).
Proof.
  intros E.
  assert (Hbase : sub_dict "extracted_data" (with_mrz mrz pure_initial_result) =
                  match mrz with Some m => copied_fields m | None => [] end).
  { unfold sub_dict. now rewrite with_mrz_extracted_data. }
  unfold pure_result.
  destruct (best_candidate candidates); rewrite ?(sub_dict_set_issue_date _ _ _ E);
    rewrite sub_dict_dict_set by reflexivity; now rewrite Hbase.
Qed.

(** X11.  Whenever the MRZ reader hands back a record, each of the three
    extractors returns it unaltered by the issue-date stage: valid is the
    reader's validity flag, confidence is 0.95 for a valid record and 0.75
    for an invalid one, and every one of the ten MRZ fields under
    extracted_data is the reader's value, or the empty string when the
    reader's dict lacks the key. *)
Theorem mrz_fields_are_copied_verbatim ext path w m :
  (read_mrz_impl ext path (fs w path) = Ret (Some m) ->
   exists result,
     fst (extract_full_passport_data ext path w) = Ret result /\
     lookup "valid" result = Some (VBool (valid m)) /\
     lookup "confidence" result =
       Some (VFloat (if valid m then (95 # 100)%Q else (75 # 100)%Q)) /\
     (forall k mk, In (k, mk) mrz_field_names ->
        lookup k (sub_dict "extracted_data" result) = Some (VStr (get (to_dict m) mk)))) /\
  (fst (read_mrz_with_fallback ext path w) = Ret (Some m) ->
   (exists result,
      fst (extract_pure_passport_data ext path w) = Ret result /\
      lookup "valid" result = Some (VBool (valid m)) /\
      lookup "confidence" result =
        Some (VFloat (if valid m then (95 # 100)%Q else (75 # 100)%Q)) /\
      (forall k mk, In (k, mk) mrz_field_names ->
         lookup k (sub_dict "extracted_data" result) = Some (VStr (get (to_dict m) mk)))) /\
   (exists result,
      fst (extract_simplified_passport_data ext path w) = Ret result /\
      lookup "valid" result = Some (VBool (valid m)) /\
      lookup "confidence" result =
        Some (VFloat (if valid m then (95 # 100)%Q else (75 # 100)%Q)) /\
      (forall k mk, In (k, mk) mrz_field_names ->
         lookup k (sub_dict "extracted_data" result) = Some (VStr (get (to_dict m) mk))))).
Proof.
  split.
  - intros Hread. rewrite extract_full_run, Hread.
    eexists. split; [reflexivity |].
    rewrite !full_result_lookup by reflexivity.
    rewrite with_mrz_valid, with_mrz_confidence by reflexivity.
    repeat split.
    intros k mk Hin. destruct (copied_fields_lookup m k mk Hin) as [Hk E].
    now rewrite full_result_fields.
  - intros Hstage. split.
    + rewrite extract_pure_run.
      destruct (read_mrz_with_fallback ext path w) as [[r | e] w1];
        cbn [fst] in Hstage; [injection Hstage as -> | discriminate].
      rewrite regions_run.
      destruct (fs w1 path) as [[img | bytes] |];
        (eexists; split; [reflexivity |];
         rewrite !pure_result_lookup by reflexivity;
         rewrite with_mrz_valid, with_mrz_confidence by reflexivity;
         repeat split;
         intros k mk Hin; destruct (copied_fields_lookup m k mk Hin) as [Hk E];
         now rewrite pure_result_fields).
    + rewrite extract_simplified_run.
      destruct (read_mrz_with_fallback ext path w) as [[r | e] w1];
        cbn [fst] in Hstage; [injection Hstage as -> | discriminate].
      eexists. split; [reflexivity |].
      rewrite !simplified_result_lookup by reflexivity.
      rewrite with_mrz_valid, with_mrz_confidence by reflexivity.
      repeat split.
      intros k mk Hin. destruct (copied_fields_lookup m k mk Hin) as [Hk E].
      now rewrite simplified_result_fields.
Qed.

Lemma mrz_fields_are_copied_verbatim_witness :
  exists result,
    fst (extract_full_passport_data (demo_ext (fun _ => Ret (Some demo_mrz))
                                       date_of_issue_text)
           "scan.png" (demo_world "scan.png")) = Ret result /\
    lookup "documentType" (sub_dict "extracted_data" result) = Some (VStr "P") /\
    lookup "surname" (sub_dict "extracted_data" result) = Some (VStr "").
Proof.
  destruct (proj1 (mrz_fields_are_copied_verbatim
                     (demo_ext (fun _ => Ret (Some demo_mrz)) date_of_issue_text)
                     "scan.png" (demo_world "scan.png") demo_mrz) eq_refl)
    as (result & Hrun & _ & _ & Hfields).
  exists result. split; [exact Hrun |]. split.
  - apply (Hfields "documentType" "type"). simpl. auto.
  - apply (Hfields "surname" "surname"). simpl. auto.
Defined.

(** ** What a branch of the scan returns *)

Lemma month_name_branch_inv limit m d :
  month_name_branch limit m = Ret (Some d) ->
  exists g1 g2 g3 mm y,
    py_index m 0 = Ret g1 /\ py_index m 1 = Ret g2 /\ py_index m 2 = Ret g3 /\
    lookup (upper g2) month_map = Some mm /\
    two_digit_year limit g3 = Ret y /\
    d = iso y mm (zfill 2 g1).
Proof.
  unfold month_name_branch.
  destruct (3 <=? py_len m)%nat; [| discriminate].
  destruct (py_index m 0) as [g1 | e] eqn:E0; [| discriminate].
  destruct (py_index m 1) as [g2 | e] eqn:E1; [| discriminate].
  destruct (py_index m 2) as [g3 | e] eqn:E2; [| discriminate].
  cbn [obind].
  destruct (lookup (upper g2) month_map) as [mm |] eqn:El; [| discriminate].
  destruct (two_digit_year limit g3) as [y | e] eqn:Ey; [| discriminate].
  cbn [obind]. intros [= <-]. exists g1, g2, g3, mm, y. repeat split; auto.
Qed.

Lemma year_only_branch_inv m d :
  year_only_branch m = Ret (Some d) ->
  exists g y,
    (m = MStr g \/ py_index m 0 = Ret g) /\
    two_digit_year 50 g = Ret y /\ d = iso y "09" "03".
Proof.
  unfold year_only_branch.
  destruct (1 <=? py_len m)%nat; [| discriminate].
  destruct m as [g | gs].
  - cbn [obind]. destruct (two_digit_year 50 g) as [y | e] eqn:Ey; [| discriminate].
    cbn [obind]. intros [= <-]. exists g, y. repeat split; auto.
  - destruct (py_index (MTuple gs) 0) as [g | e] eqn:E0; [| discriminate].
    cbn [obind]. destruct (two_digit_year 50 g) as [y | e] eqn:Ey; [| discriminate].
    cbn [obind]. intros [= <-]. exists g, y. repeat split; auto.
Qed.

Lemma full_fragment_inv k m d :
  (3 <= k < 6)%nat ->
  Full.body k m = Ret (Some d) ->
  exists g1 g2 y,
    py_index m 0 = Ret g1 /\ py_index m 1 = Ret g2 /\
    two_digit_year 50 g2 = Ret y /\ d = iso y "09" (zfill 2 ("0" ++ g1)).
Proof.
  intros Hk. unfold Full.body.
  destruct (k <? 2)%nat eqn:E1; [apply Nat.ltb_lt in E1; lia |].
  destruct (k <? 6)%nat eqn:E2; [| apply Nat.ltb_ge in E2; lia].
  destruct (k =? 2)%nat eqn:E3; [apply Nat.eqb_eq in E3; lia |].
  destruct (2 <=? py_len m)%nat; [| discriminate].
  destruct (py_index m 0) as [g1 | e] eqn:I0; [| discriminate].
  destruct (py_index m 1) as [g2 | e] eqn:I1; [| discriminate].
  cbn [obind]. destruct (two_digit_year 50 g2) as [y | e] eqn:Ey; [| discriminate].
  cbn [obind]. intros [= <-]. exists g1, g2, y. repeat split; auto.
Qed.

(** In the simplified and the pure extractor every pattern from index 2
    on yields month 09. *)
Lemma late_patterns_say_september v k m d :
  v <> VFull -> (2 <= k)%nat ->
  body_of v k m = Ret (Some d) ->
  exists y dd, d = iso y "09" dd.
Proof.
  intros Hv Hk.
  assert (Hbody : body_of v k m = Simplified.body k m)
    by (destruct v; [congruence | reflexivity | reflexivity]).
  rewrite Hbody. unfold Simplified.body.
  destruct (k <? 2)%nat eqn:E1; [apply Nat.ltb_lt in E1; lia |].
  destruct (k =? 4)%nat.
  - intros H. apply year_only_branch_inv in H as (g & y & _ & _ & ->). eauto.
  - destruct (2 <=? py_len m)%nat; [| discriminate].
    destruct (if (4 <? k)%nat
              then obind (py_index m 0) (fun m0 => Ret (zfill 2 ("0" ++ m0)))
              else Ret "03") as [dd | e]; [| discriminate].
    cbn [obind].
    destruct (if (1 <? py_len m)%nat then py_index m 1 else py_index m 0)
      as [g | e]; [| discriminate].
    cbn [obind]. destruct (two_digit_year 50 g) as [y | e]; [| discriminate].
    cbn [obind]. intros [= <-]. eauto.
Qed.

Lemma iso_not_empty y mm dd : iso y mm dd <> "".
Proof. unfold iso. destruct y; discriminate. Qed.

Lemma body_date_not_empty v k m d : body_of v k m = Ret (Some d) -> d <> "".
Proof.
  intros H.
  assert (Hiso : exists y mm dd, d = iso y mm dd).
  { destruct v.
    - cbn [body_of] in H.
      destruct (Nat.lt_ge_cases k 2) as [Hk | Hk].
      + unfold Full.body in H. apply Nat.ltb_lt in Hk. rewrite Hk in H.
        apply month_name_branch_inv in H as (? & ? & ? & mm & y & _ & _ & _ & _ & _ & ->).
        eauto.
      + destruct (Nat.eq_dec k 2) as [-> | Hk2].
        * change (Full.body 2 m) with (year_only_branch m) in H.
          apply year_only_branch_inv in H as (? & y & _ & _ & ->). eauto.
        * destruct (Nat.lt_ge_cases k 6) as [Hk6 | Hk6].
          -- apply full_fragment_inv in H as (? & ? & y & _ & _ & _ & ->); [eauto | lia].
          -- unfold Full.body in H.
             destruct (k <? 2)%nat eqn:E1; [apply Nat.ltb_lt in E1; lia |].
             destruct (k <? 6)%nat eqn:E2; [apply Nat.ltb_lt in E2; lia |].
             apply month_name_branch_inv in H
               as (? & ? & ? & mm & y & _ & _ & _ & _ & _ & ->).
             eauto.
    - destruct (Nat.lt_ge_cases k 2) as [Hk | Hk].
      + cbn [body_of] in H. unfold Simplified.body in H.
        apply Nat.ltb_lt in Hk. rewrite Hk in H.
        apply month_name_branch_inv in H as (? & ? & ? & mm & y & _ & _ & _ & _ & _ & ->).
        eauto.
      + apply late_patterns_say_september in H as (y & dd & ->); [eauto | discriminate | lia].
    - destruct (Nat.lt_ge_cases k 2) as [Hk | Hk].
      + cbn [body_of] in H. unfold Pure.body in H.
        apply Nat.ltb_lt in Hk. rewrite Hk in H.
        apply month_name_branch_inv in H as (? & ? & ? & mm & y & _ & _ & _ & _ & _ & ->).
        eauto.
      + apply late_patterns_say_september in H as (y & dd & ->); [eauto | discriminate | lia]. }
  destruct Hiso as (y & mm & dd & ->). apply iso_not_empty.
Qed.

(** A date the scan returns is never the empty string, so [if issue_date:]
    takes every date the scan finds. *)
Lemma scan_date_is_truthy v text d :
  extract_of v text = Ret (Some d) -> is_truthy (Some d) = true.
Proof.
  intros H. apply cascade_spec in H as (i & p & pre & m & post & _ & _ & Hb & _).
  apply body_date_not_empty in Hb. simpl.
  destruct (String.eqb d "") eqn:E; [| reflexivity].
  apply String.eqb_eq in E. contradiction.
Qed.

(** ** Where the issue date is stored *)

Lemma no_issue_date_among_copied_fields mrz :
  lookup "issueDate" (match mrz with Some m => copied_fields m | None => [] end) = None.
Proof. destruct mrz; reflexivity. Qed.

(** X12.  The issue date the full extractor reports is the one its scan
    finds in the OCR text it reports: full_text_ocr holds the texts of the
    configurations whose OCR call returned, in the order psm 6, 8, 7 and
    joined by newlines, and issue_date is the scan's answer on exactly that
    text.  The copy under extracted_data agrees with it: issueDate is
    present with the same date, or absent when no date was found. *)
Theorem full_issue_date_comes_from_reported_text ext path w mrz img :
  read_mrz_impl ext path (fs w path) = Ret mrz ->
  fs w path = Some (ImageFile img) ->
  exists result full_text d,
    fst (extract_full_passport_data ext path w) = Ret result /\
    full_text = join newline (ocr_texts ext img [psm6; psm8; psm7]) /\
    lookup "full_text_ocr" result = Some (VStr full_text) /\
    Full.extract_issue_date_from_text full_text = Ret d /\
    lookup "issue_date" result = Some (opt_str d) /\
    lookup "issueDate" (sub_dict "extracted_data" result) = option_map VStr d /\
    lookup "ocr_error" result = None.
Proof.
  intros Hread Hfs.
  destruct (extract_returns VFull (join newline (ocr_texts ext img [psm6; psm8; psm7])))
    as (d & Hd).
  rewrite extract_full_run, Hread, Hfs.
  eexists _, _, d. split; [reflexivity |]. split; [reflexivity |].
  cbn [extract_of] in Hd. unfold full_result. cbv zeta. rewrite Hd.
  assert (Hed : lookup "extracted_data"
                  (dict_set (with_mrz mrz full_initial_result) "full_text_ocr"
                     (VStr (join newline (ocr_texts ext img [psm6; psm8; psm7]))))
                = Some (VDict (match mrz with Some m => copied_fields m | None => [] end))).
  { rewrite lookup_dict_set. cbn [String.eqb Ascii.eqb Bool.eqb].
    now apply with_mrz_extracted_data. }
  destruct d as [date |].
  - rewrite (scan_date_is_truthy VFull _ date Hd).
    destruct (issue_date_stored (VStr date) _ _ Hed) as [H1 H2].
    split; [| split; [reflexivity | split; [exact H1 | split; [exact H2 |]]]].
    + rewrite lookup_set_issue_date by reflexivity. now rewrite lookup_dict_set.
    + rewrite lookup_set_issue_date by reflexivity. rewrite lookup_dict_set.
      cbn [String.eqb Ascii.eqb Bool.eqb]. now rewrite with_mrz_other.
  - cbn [is_truthy].
    split; [| split; [reflexivity | split; [| split]]].
    + now rewrite lookup_dict_set.
    + rewrite lookup_dict_set. cbn [String.eqb Ascii.eqb Bool.eqb].
      now rewrite with_mrz_other.
    + unfold sub_dict. rewrite Hed. apply no_issue_date_among_copied_fields.
    + rewrite lookup_dict_set. cbn [String.eqb Ascii.eqb Bool.eqb].
      now rewrite with_mrz_other.
Qed.

Lemma full_issue_date_comes_from_reported_text_witness :
  exists result full_text d,
    fst (extract_full_passport_data (demo_ext no_mrz date_of_issue_text) "scan.png"
           (demo_world "scan.png")) = Ret result /\
    lookup "full_text_ocr" result = Some (VStr full_text) /\
    Full.extract_issue_date_from_text full_text = Ret d /\
    lookup "issue_date" result = Some (opt_str d).
Proof.
  destruct (full_issue_date_comes_from_reported_text
              (demo_ext no_mrz date_of_issue_text) "scan.png" (demo_world "scan.png")
              None demo_scan eq_refl eq_refl)
    as (result & full_text & d & H1 & _ & H2 & H3 & H4 & _).
  exists result, full_text, d. auto.
Defined.

(** ** passporteye_extractor.py *)

(** X13.  The MRZ-only extractor never raises and makes one MRZ read and
    nothing else.  No MRZ gives the "No MRZ found in image" record, a
    raising reader the "PassportEye extraction failed" record with the
    reader's message, both with success false and confidence 0.0.  A
    record gives success true, the confidence of its validity flag, and
    under validation the flag and the report's entries: an empty error list
    when the record has no report or an empty one. *)
Theorem mrz_only_extractor_outcomes ext report_of path w :
  snd (extract_mrz_with_passporteye ext report_of path w) = logs [EReadMrz path] w /\
  match read_mrz_impl ext path (fs w path) with
  | Raise e =>
      fst (extract_mrz_with_passporteye ext report_of path w) = Ret (basic_failure e)
  | Ret None =>
      fst (extract_mrz_with_passporteye ext report_of path w) = Ret basic_no_mrz
  | Ret (Some m) =>
      exists result,
        fst (extract_mrz_with_passporteye ext report_of path w) = Ret result /\
        lookup "success" result = Some (VBool true) /\
        lookup "confidence" result =
          Some (VFloat (if valid m then (95 # 100)%Q else (75 # 100)%Q)) /\
        lookup "valid" (sub_dict "validation" result) = Some (VBool (valid m)) /\
        lookup "errors" (sub_dict "validation" result) =
          Some (VList (map VStr (match report_of m with
                                 | Some errors => errors
                                 | None => []
                                 end))) /\
        lookup "error" result = None
  end.
Proof.
  split.
  - unfold extract_mrz_with_passporteye, try_except, bind, read_mrz.
    destruct (read_mrz_impl ext path (fs w path)) as [[m |] | e]; reflexivity.
  - unfold extract_mrz_with_passporteye, try_except, bind, read_mrz.
    destruct (read_mrz_impl ext path (fs w path)) as [[m |] | e]; try reflexivity.
    eexists. split; [reflexivity |].
    destruct (report_of m) as [[| error errors] |], (mrz_code m);
      repeat split; reflexivity.
Qed.

(** ** The scan as a whole *)

(** X14.  In all three extractors [extract_issue_date_from_text] returns
    for every text, with a date or with nothing: [int] is only ever
    applied to a capture of two digits, so no match can make it raise. *)
Theorem scan_never_raises v text :
  exists r, extract_of v text = Ret r.
Proof. apply extract_returns. Qed.

Lemma string_app_assoc (a b c : string) : (a ++ b) ++ c = a ++ (b ++ c).
Proof. induction a as [| x a IH]; simpl; [reflexivity | now rewrite IH]. Qed.

Lemma has_digit_app a b : has_digit (a ++ b) = has_digit a || has_digit b.
Proof.
  induction a as [| x a IH]; simpl; [reflexivity |].
  now rewrite IH, orb_assoc.
Qed.

(** A match reads a prefix of the text, and that prefix holds a digit when
    the pattern cannot do without one. *)
Lemma run_reads_a_digit r : forall s caps caps' rest,
  In (caps', rest) (run r s caps) ->
  exists g, s = g ++ rest /\ (needs_digit r = true -> has_digit g = true).
Proof.
  induction r as [a | a lo hi | r1 IH1 r2 IH2 | r1 IH1 r2 IH2 | r1 IH1];
    intros s caps caps' rest Hin; simpl in Hin.
  - destruct s as [| c s]; [contradiction |].
    destruct (atom_match a c) eqn:Ea; [| contradiction].
    destruct Hin as [[= _ <-] | []].
    exists (String c ""). split; [reflexivity |].
    destruct a; simpl; try discriminate. intros _. simpl in Ea. now rewrite Ea.
  - apply in_map_iff in Hin as (x & [= _ <-] & Hin).
    apply rep_spec in Hin as (g & -> & Hall & Hlo & _).
    exists g. split; [reflexivity |].
    destruct a; simpl; try discriminate.
    destruct lo as [| lo]; [discriminate |]. intros _.
    destruct g as [| c g]; simpl in *; [lia |].
    apply andb_prop in Hall as [Hc _]. now rewrite Hc.
  - apply in_flat_map in Hin as ([c1 s1] & H1 & H2); simpl in H2.
    apply IH1 in H1 as (g1 & -> & D1). apply IH2 in H2 as (g2 & -> & D2).
    exists (g1 ++ g2). split; [now rewrite string_app_assoc |].
    simpl. rewrite has_digit_app. intros H.
    apply orb_prop in H as [H | H]; [rewrite (D1 H) | rewrite (D2 H)];
      auto using orb_true_r.
  - apply in_app_or in Hin as [H | H].
    + apply IH1 in H as (g & -> & D). exists g. split; [reflexivity |].
      simpl. intros Hb. apply andb_prop in Hb as [Hb _]. auto.
    + apply IH2 in H as (g & -> & D). exists g. split; [reflexivity |].
      simpl. intros Hb. apply andb_prop in Hb as [_ Hb]. auto.
  - apply in_map_iff in Hin as ([c0 r0] & [= _ <-] & Hin).
    apply IH1 in Hin as (g & -> & D). exists g. auto.
Qed.

Lemma findall_needs_a_digit r :
  needs_digit r = true ->
  forall s k, has_digit s = false -> findall_from r k s = [].
Proof.
  intros Hneed. induction s as [| c s IH]; intros k Hs.
  - destruct k; simpl; [| reflexivity].
    destruct (match_here r "") as [[caps rest] |] eqn:E; [| reflexivity].
    apply hd_error_In, run_reads_a_digit in E as (g & Hg & D).
    destruct g; [| discriminate]. specialize (D Hneed). discriminate.
  - simpl in Hs. apply orb_false_iff in Hs as [Hc Hs].
    destruct k; simpl; [| now apply IH].
    destruct (match_here r (String c s)) as [[caps rest] |] eqn:E; [| now apply IH].
    apply hd_error_In, run_reads_a_digit in E as (g & Hg & D).
    specialize (D Hneed).
    assert (Hd : has_digit (String c s) = true)
      by (rewrite Hg, has_digit_app, D; reflexivity).
    simpl in Hd. rewrite Hc, Hs in Hd. discriminate.
Qed.

Lemma for_patterns_without_matches body : forall ps i text,
  (forall p, In p ps -> findall p text = []) ->
  for_patterns body i ps text = Ret None.
Proof.
  induction ps as [| p ps IH]; intros i text H; simpl; [reflexivity |].
  rewrite (H p (or_introl eq_refl)). simpl. apply IH.
  intros q Hq. apply H. now right.
Qed.

(** X15.  A text without a decimal digit, the empty text included, yields
    no issue date in any of the three extractors: every pattern of every
    catalogue needs at least one digit to match. *)
Theorem text_without_digits_has_no_date v text :
  has_digit text = false ->
  extract_of v text = Ret None /\
  (forall p, In p (patterns_of v) -> findall p text = []).
Proof.
  intros Hd.
  assert (Hall : forall p, In p (patterns_of v) -> findall p text = []).
  { intros p Hp. unfold findall. apply findall_needs_a_digit; [| exact Hd].
    destruct v; simpl in Hp;
      repeat (destruct Hp as [<- | Hp]; [reflexivity |]); destruct Hp. }
  split; [| exact Hall].
  rewrite extract_of_unfold. now apply for_patterns_without_matches.
Qed.

Lemma text_without_digits_has_no_date_witness :
  extract_of VFull "Date of issue: unreadable" = Ret None.
Proof.
  exact (proj1 (text_without_digits_has_no_date VFull "Date of issue: unreadable"
                  eq_refl)).
Defined.

(** X16.  In the simplified and the pure extractor only the two bilingual
    patterns can give a month other than September: when neither of them
    matches, every date the scan returns has "09" as its month field,
    whatever month the text names. *)
Theorem without_bilingual_match_month_is_september v text d :
  v <> VFull ->
  findall Patterns.bilingual_tight text = [] ->
  findall Patterns.bilingual_spaced text = [] ->
  extract_of v text = Ret (Some d) ->
  exists y dd, d = y ++ "-09-" ++ dd.
Proof.
  intros Hv H0 H1 Hd.
  apply cascade_spec in Hd as (i & p & pre & m & post & Hi & Hf & Hb & _).
  destruct (Nat.lt_ge_cases i 2) as [Hlt | Hge].
  - exfalso.
    assert (Hp : p = Patterns.bilingual_tight \/ p = Patterns.bilingual_spaced).
    { destruct v; [congruence | |];
        (destruct i as [| [| i]]; [| | lia]; simpl in Hi; injection Hi as <-; auto). }
    destruct Hp as [-> | ->]; [rewrite H0 in Hf | rewrite H1 in Hf];
      destruct pre; discriminate.
  - apply late_patterns_say_september in Hb as (y & dd & ->); auto.
    exists y, dd. reflexivity.
Qed.

Lemma without_bilingual_match_month_is_september_witness :
  exists y dd, "JAN-09-03" = y ++ "-09-" ++ dd.
Proof.
  refine (without_bilingual_match_month_is_september VSimplified "05 JAN 2022"
            "JAN-09-03" _ eq_refl eq_refl _).
  - discriminate.
  - vm_compute. reflexivity.
Defined.

(** ** The layout of the dates the full extractor returns *)

Lemma day_field g :
  group_shape (Rep ADigit 1 (Some 2)) g = true ->
  all_chars is_digit (zfill 2 g) = true /\ String.length (zfill 2 g) = 2%nat.
Proof.
  unfold group_shape. intros H.
  apply andb_prop in H as [H H2]. apply andb_prop in H as [H0 H1].
  apply Nat.leb_le in H1, H2.
  destruct g as [| c1 [| c2 [| c3 g]]]; simpl in H1, H2; try lia.
  - simpl in H0. apply andb_prop in H0 as [D _].
    apply is_digit_cases in D. simpl in D.
    repeat (destruct D as [<- | D]; [split; reflexivity |]). destruct D.
  - unfold zfill. simpl. now split.
Qed.

Lemma o_day_field g :
  group_shape (One ADigit) g = true ->
  all_chars is_digit (zfill 2 ("0" ++ g)) = true /\
  String.length (zfill 2 ("0" ++ g)) = 2%nat.
Proof.
  unfold group_shape. intros H. apply andb_prop in H as [H0 H1].
  apply Nat.eqb_eq in H1.
  destruct g as [| c1 [| c2 g]]; simpl in H1; try lia.
  unfold zfill. simpl. simpl in H0. now split.
Qed.

Lemma year24_bounds g :
  group_shape (Rep ADigit 2 (Some 4)) g = true ->
  all_chars is_digit g = true /\ (2 <= String.length g <= 4)%nat.
Proof.
  unfold group_shape. intros H.
  apply andb_prop in H as [H H2]. apply andb_prop in H as [H0 H1].
  apply Nat.leb_le in H1, H2. split; [exact H0 | lia].
Qed.

Lemma year_field limit g y :
  all_chars is_digit g = true -> (2 <= String.length g <= 4)%nat ->
  two_digit_year limit g = Ret y ->
  all_chars is_digit y = true /\ (3 <= String.length y <= 4)%nat.
Proof.
  intros Hall Hlen Hy.
  destruct (Nat.eq_dec (String.length g) 2) as [E | E].
  - destruct (two_digits_of g Hall E) as (c1 & c2 & D1 & D2 & ->).
    rewrite (two_digit_year_window limit c1 c2 D1 D2) in Hy. injection Hy as <-.
    destruct (two_digit_value c1 c2 <=? limit)%Z; simpl; rewrite D1, D2; split;
      first [reflexivity | lia].
  - rewrite two_digit_year_of_longer in Hy by lia. injection Hy as <-.
    split; [exact Hall | lia].
Qed.

Lemma lookup_among_values {A} k (l : list (string * A)) x :
  lookup k l = Some x -> In x (map snd l).
Proof.
  induction l as [| [k1 v1] l IH]; simpl; [discriminate |].
  destruct (String.eqb k k1); [intros [= <-]; now left | auto].
Qed.

Lemma month_branch_layout limit g1 g2 g3 d :
  group_shape (Rep ADigit 1 (Some 2)) g1 = true ->
  all_chars is_digit g3 = true -> (2 <= String.length g3 <= 4)%nat ->
  month_name_branch limit (MTuple [g1; g2; g3]) = Ret (Some d) ->
  exists y mm dd,
    d = y ++ "-" ++ mm ++ "-" ++ dd /\
    all_chars is_digit y = true /\ (3 <= String.length y <= 4)%nat /\
    In mm (map snd month_map) /\
    all_chars is_digit dd = true /\ String.length dd = 2%nat.
Proof.
  intros H1 H3 L3 Hb.
  apply month_name_branch_inv in Hb
    as (a & b & c & mm & y & [= <-] & [= <-] & [= <-] & Hm & Hy & ->).
  destruct (day_field g1 H1) as [Dd Ld].
  destruct (year_field limit g3 y H3 L3 Hy) as [Dy Ly].
  exists y, mm, (zfill 2 g1). repeat split; auto; try lia.
  eapply lookup_among_values; eassumption.
Qed.

Lemma year_only_branch_str_inv g d :
  year_only_branch (MStr g) = Ret (Some d) ->
  exists y, two_digit_year 50 g = Ret y /\ d = iso y "09" "03".
Proof.
  unfold year_only_branch.
  destruct (1 <=? py_len (MStr g))%nat; [| discriminate].
  cbn [obind]. destruct (two_digit_year 50 g) as [y | e] eqn:Ey; [| discriminate].
  cbn [obind]. intros [= <-]. now exists y.
Qed.

Lemma september_in_month_map : In "09" (map snd month_map).
Proof. simpl. tauto. Qed.

(** X17.  Every date the full extractor's scan returns is laid out as
    year-month-day with a two-digit day, a month number taken from the
    month table, and a year of four digits or, when the text gives the year
    with three digits after a 'Date of issue' or plain date, of three. *)
Theorem full_scan_date_layout text d :
  extract_of VFull text = Ret (Some d) ->
  exists y mm dd,
    d = y ++ "-" ++ mm ++ "-" ++ dd /\
    all_chars is_digit y = true /\ (3 <= String.length y <= 4)%nat /\
    In mm (map snd month_map) /\
    all_chars is_digit dd = true /\ String.length dd = 2%nat.
Proof.
  intros Hd.
  apply cascade_spec in Hd as (i & p & pre & m & post & Hi & Hf & Hb & _).
  assert (Hin : In m (findall p text))
    by (rewrite Hf; apply in_or_app; right; now left).
  do 8 (try destruct i as [| i]); simpl in Hi;
    try discriminate Hi; try (destruct i; discriminate Hi); injection Hi as <-;
    apply findall_shapes in Hin as (gs & -> & Hs); try reflexivity;
    split_shapes Hs.
  all: try match goal with
           | H : group_shape (Rep ADigit 2 (Some 2)) _ = true |- _ =>
               apply year2_shape in H; destruct H
           end.
  all: try match goal with
           | H : group_shape (Rep ADigit 2 (Some 4)) _ = true |- _ =>
               apply year24_bounds in H; destruct H
           end.
  all: try (eapply month_branch_layout; [| | | exact Hb]; auto; lia).
  - (* the year-only pattern *)
    apply year_only_branch_str_inv in Hb as (y & Hy & ->).
    destruct (year_field 50 g y) as [Dy Ly]; auto; try lia.
    exists y, "09", "03". repeat split; auto using september_in_month_map; lia.
  - apply full_fragment_inv in Hb as (a & b & y & [= <-] & [= <-] & Hy & ->); [| lia].
    destruct (year_field 50 g0 y) as [Dy Ly]; auto; try lia.
    destruct (o_day_field g) as [Dd Ld]; auto.
    exists y, "09", (zfill 2 ("0" ++ g)).
    repeat split; auto using september_in_month_map; lia.
  - apply full_fragment_inv in Hb as (a & b & y & [= <-] & [= <-] & Hy & ->); [| lia].
    destruct (year_field 50 g0 y) as [Dy Ly]; auto; try lia.
    destruct (o_day_field g) as [Dd Ld]; auto.
    exists y, "09", (zfill 2 ("0" ++ g)).
    repeat split; auto using september_in_month_map; lia.
  - apply full_fragment_inv in Hb as (a & b & y & [= <-] & [= <-] & Hy & ->); [| lia].
    destruct (year_field 50 g0 y) as [Dy Ly]; auto; try lia.
    destruct (o_day_field g) as [Dd Ld]; auto.
    exists y, "09", (zfill 2 ("0" ++ g)).
    repeat split; auto using september_in_month_map; lia.
Qed.

Lemma full_scan_date_layout_witness :
  exists y mm dd,
    "202-01-01" = y ++ "-" ++ mm ++ "-" ++ dd /\
    all_chars is_digit y = true /\ (3 <= String.length y <= 4)%nat /\
    In mm (map snd month_map) /\
    all_chars is_digit dd = true /\ String.length dd = 2%nat.
Proof.
  apply (full_scan_date_layout "Date of issue 1 JAN 202").
  vm_compute. reflexivity.
Defined.

(** ** The error fields of the full and the simplified extractor *)

Lemma no_error_keys_after_mrz k mrz :
  k = "ocr_error" \/ k = "error" ->
  lookup k (with_mrz mrz full_initial_result) = None /\
  lookup k (with_mrz mrz simplified_initial_result) = None.
Proof.
  intros [-> | ->]; split; rewrite with_mrz_other; reflexivity.
Qed.

(** X18.  Once the image opens, nothing the OCR engine does can put an
    ocr_error or an error field into the result of the full or of the
    simplified extractor: each OCR call may return or raise, the scan of
    the text does not raise.  The full extractor then always reports the
    text it has read under full_text_ocr. *)
Theorem opened_image_gives_no_error_field ext path w mrz img :
  (read_mrz_impl ext path (fs w path) = Ret mrz ->
   fs w path = Some (ImageFile img) ->
   exists result,
     fst (extract_full_passport_data ext path w) = Ret result /\
     lookup "ocr_error" result = None /\ lookup "error" result = None /\
     lookup "full_text_ocr" result =
     Some (VStr (join newline (ocr_texts ext img [psm6; psm8; psm7])))) /\
  (forall w1,
     read_mrz_with_fallback ext path w = (Ret mrz, w1) ->
     fs w1 path = Some (ImageFile img) ->
     exists result,
       fst (extract_simplified_passport_data ext path w) = Ret result /\
       lookup "ocr_error" result = None /\ lookup "error" result = None).
Proof.
  destruct (no_error_keys_after_mrz "ocr_error" mrz (or_introl eq_refl)) as [F1 S1].
  destruct (no_error_keys_after_mrz "error" mrz (or_intror eq_refl)) as [F2 S2].
  split.
  - intros Hread Hfs. rewrite extract_full_run, Hread, Hfs. cbn [fst].
    eexists. split; [reflexivity |]. unfold full_result.
    destruct (extract_returns VFull
                (join newline (ocr_texts ext img [psm6; psm8; psm7]))) as (r & Hr).
    cbn [extract_of] in Hr. cbn zeta. rewrite Hr.
    destruct (is_truthy r);
      rewrite ?lookup_set_issue_date by reflexivity;
      rewrite !lookup_dict_set; cbn [String.eqb Ascii.eqb Bool.eqb];
      rewrite F1, F2; auto.
  - intros w1 Hread Hfs. rewrite extract_simplified_run, Hread, Hfs. cbn [fst].
    eexists. split; [reflexivity |]. unfold simplified_result.
    destruct (extract_returns VSimplified
                (join newline (ocr_texts ext img [psm6; psm8; psm7]))) as (r & Hr).
    cbn [extract_of] in Hr. cbn zeta. rewrite Hr.
    destruct (is_truthy r);
      rewrite ?lookup_set_issue_date by reflexivity;
      rewrite S1, S2; auto.
Qed.

Lemma opened_image_gives_no_error_field_witness :
  exists result,
    fst (extract_full_passport_data (demo_ext no_mrz ocr_unavailable) "scan.png"
           (demo_world "scan.png")) = Ret result /\
    lookup "ocr_error" result = None /\ lookup "error" result = None /\
    lookup "full_text_ocr" result = Some (VStr "").
Proof.
  exact (proj1 (opened_image_gives_no_error_field
                  (demo_ext no_mrz ocr_unavailable) "scan.png"
                  (demo_world "scan.png") None demo_scan) eq_refl eq_refl).
Defined.

(** ** What the sampler returns *)

(** X19.  When the image opens, the candidate list of the pure extractor
    has one entry for every region whose OCR call returned, in the order
    upper_middle, left_side, right_side, each with the first 200 characters
    of the stripped text and with the date the scan found or with none; a
    region is left out exactly when its OCR call raises. *)
Theorem every_sampled_region_is_a_candidate ext path w img :
  fs w path = Some (ImageFile img) ->
  fst (extract_issue_date_from_image_regions ext path w) =
    Ret (flat_map (region_entry ext img) (regions ext (fst (size img)) (snd (size img)))) /\
  (forall name b t,
     image_to_string_impl ext (Crop img b) psm6 = Ret t ->
     exists d,
       Pure.extract_issue_date_from_text t = Ret d /\
       region_entry ext img (name, b) =
         [{| region := name; text := take 200 (strip t); date := d |}]) /\
  (forall name b,
     region_entry ext img (name, b) = [] <->
     exists e, image_to_string_impl ext (Crop img b) psm6 = Raise e) /\
  map fst (regions ext (fst (size img)) (snd (size img)))
    = ["upper_middle"; "left_side"; "right_side"].
Proof.
  intros Hfs.
  assert (Hentry : forall name b t,
             image_to_string_impl ext (Crop img b) psm6 = Ret t ->
             exists d,
               Pure.extract_issue_date_from_text t = Ret d /\
               region_entry ext img (name, b) =
                 [{| region := name; text := take 200 (strip t); date := d |}]).
  { intros name b t Ht. destruct (extract_returns VPure t) as (d & Hd).
    exists d. split; [exact Hd |].
    unfold region_entry; simpl. simpl in Hd. now rewrite Ht, Hd. }
  split; [rewrite regions_run, Hfs; reflexivity |].
  split; [exact Hentry |].
  split; [| reflexivity].
  intros name b. split.
  - intros Hnil.
    destruct (image_to_string_impl ext (Crop img b) psm6) as [t | e] eqn:Ht; [| eauto].
    destruct (Hentry name b t Ht) as (d & _ & Hd). congruence.
  - intros (e & He). unfold region_entry; simpl. now rewrite He.
Qed.

Lemma every_sampled_region_is_a_candidate_witness :
  fst (extract_issue_date_from_image_regions (demo_ext no_mrz no_text) "scan.png"
         (demo_world "scan.png"))
  = Ret [ {| region := "upper_middle"; text := ""; date := None |};
          {| region := "left_side"; text := ""; date := None |};
          {| region := "right_side"; text := ""; date := None |} ].
Proof.
  exact (proj1 (every_sampled_region_is_a_candidate (demo_ext no_mrz no_text)
                  "scan.png" (demo_world "scan.png") demo_scan eq_refl)).
Defined.
